(** * Sortyx cloud backend: hand/wrist detection, object-in-hand
      resolution and waste classification (src/app.py)

    A shallow embedding of the decision pipeline of [app.py] and the
    properties of its specification.  Python values are modelled as
    follows.

    - [float] is IEEE-754 binary64, through the Standard Library's
      executable specification [SpecFloat].  An entry of a float32 tensor
      is the binary64 number of the same value (the widening is exact).
      When such an entry is compared with a Python literal, NumPy takes
      the literal to float32 first; [float32] is that conversion, and the
      test of the wrist against 0.30 is made with it.  The test of the
      elbow against 0.2 has the same outcome on every float32 entry with
      and without the conversion, and is written without it.
    - [str] is [string], one [ascii] per character, which holds the code
      point of the character: the texts of the model are those whose
      code points are below 256.  [str.lower] and [str.strip] are those
      of Python on these texts; so is [str.title], except at the two
      letters whose capitals have code points above 255.
    - a [dict] is an association list in insertion order; writing to a key
      that is present replaces the value in place.
    - an exception is a value of [exn]; code that can raise lives in the
      [result] monad, and [try]/[except] is a [match] on it.
    - the neural models, the image decoder and the cloud client are
      black boxes: they are fields of [Env], functions from their
      arguments to an outcome. *)

From Stdlib Require Import ZArith QArith List String Ascii Bool Lia.
From Stdlib Require Import Floats.SpecFloat.
From Stdlib Require Import Numbers.DecimalString.
Import ListNotations.

Local Open Scope string_scope.
Local Open Scope Z_scope.

(* ===================================================================== *)
(** * Python values                                                       *)
(* ===================================================================== *)

Module Py.

(** ** Exceptions and the error monad *)

Inductive exn : Type :=
| PyException (type_name msg : string)
| HTTPException (status_code : Z) (detail : string).

Inductive result (A : Type) : Type :=
| Ok (a : A)
| Raise (e : exn).

Arguments Ok {A} a.
Arguments Raise {A} e.

Definition bind {A B : Type} (c : result A) (k : A -> result B) : result B :=
  match c with
  | Ok a => k a
  | Raise e => Raise e
  end.

Notation "x <- c ;; k" := (bind c (fun x => k))
  (at level 61, c at next level, right associativity).
Notation "' p <- c ;; k" := (bind c (fun x => let p := x in k))
  (at level 61, p pattern, c at next level, right associativity).

Definition string_of_Z (z : Z) : string := NilZero.string_of_int (Z.to_int z).

(** [str(e)] *)
Definition str_exn (e : exn) : string :=
  match e with
  | PyException _ msg => msg
  | HTTPException code detail => string_of_Z code ++ ": " ++ detail
  end.

(** ** Floats *)

Definition prec : Z := 53.
Definition emax : Z := 1024.

Definition float : Type := spec_float.

(** The binary64 value nearest to the integer [z]. *)
Definition float_of_Z (z : Z) : float := binary_normalize prec emax z 0 false.

(** The decimal literal [n/d] ([0.35] is [float_lit 35 100]): numerator and
    denominator are exact in binary64 and the division rounds to nearest
    even, as the parser of literals does. *)
Definition float_lit (n d : Z) : float :=
  SFdiv prec emax (float_of_Z n) (float_of_Z d).

Definition zero : float := S754_zero false.

(** The float32 number nearest to [f], as a binary64 number: what a
    Python [float] becomes when it meets a float32 operand. *)
Definition float32 (f : float) : float :=
  match f with
  | S754_finite s m e =>
      match binary_normalize 24 128 (if s then Zneg m else Zpos m) e s with
      | S754_finite s' m' e' =>
          binary_normalize prec emax (if s' then Zneg m' else Zpos m') e' s'
      | rounded => rounded
      end
  | _ => f
  end.

(** [float(z)] for a Python [int], also the implicit conversion in mixed
    arithmetic. *)
Definition float_of_int (z : Z) : result float :=
  match float_of_Z z with
  | S754_infinity _ =>
      Raise (PyException "OverflowError" "int too large to convert to float")
  | f => Ok f
  end.

(** [int(f)]: truncation toward zero. *)
Definition int_of_float (f : float) : result Z :=
  match f with
  | S754_zero _ => Ok 0
  | S754_finite s m e =>
      let a := match e with
               | Z0 => Zpos m
               | Zpos p => Zpos m * 2 ^ Zpos p
               | Zneg p => Zpos m / 2 ^ Zpos p
               end in
      Ok (if s then - a else a)
  | S754_nan =>
      Raise (PyException "ValueError" "cannot convert float NaN to integer")
  | S754_infinity _ =>
      Raise (PyException "OverflowError" "cannot convert float infinity to integer")
  end.

Definition fmul (a b : float) : float := SFmul prec emax a b.
Definition fadd (a b : float) : float := SFadd prec emax a b.

(** [a < b] and [a > b] *)
Definition flt (a b : float) : bool := SFltb a b.
Definition fgt (a b : float) : bool := SFltb b a.

(** [max(a, b)]: the first argument unless the second is greater. *)
Definition py_max (a b : float) : float := if fgt b a then b else a.

(** [i * f] and [i + f] for an [int] [i] and a [float] [f]. *)
Definition int_mul_float (i : Z) (f : float) : result float :=
  x <- float_of_int i ;; Ok (fmul x f).
Definition int_add_float (i : Z) (f : float) : result float :=
  x <- float_of_int i ;; Ok (fadd x f).

(** [format(f, ".1f")]: one digit after the point, the exact binary value
    rounded half to even. *)
Definition round_half_even (num den : Z) : Z :=
  let q := num / den in
  let r := num mod den in
  match 2 * r ?= den with
  | Lt => q
  | Gt => q + 1
  | Eq => if Z.even q then q else q + 1
  end.

Definition format_1f (f : float) : string :=
  match f with
  | S754_nan => "nan"
  | S754_infinity s => if s then "-inf" else "inf"
  | S754_zero s => if s then "-0.0" else "0.0"
  | S754_finite s m e =>
      let tenths := match e with
                    | Z0 => 10 * Zpos m
                    | Zpos p => 10 * Zpos m * 2 ^ Zpos p
                    | Zneg p => round_half_even (10 * Zpos m) (2 ^ Zpos p)
                    end in
      (if s then "-" else EmptyString)
        ++ string_of_Z (tenths / 10) ++ "." ++ string_of_Z (tenths mod 10)
  end.

(** ** Strings *)

(** The characters with a lower case of their own: [A] to [Z], and the
    capitals from 192 to 222 without the multiplication sign. *)
Definition is_upper (c : ascii) : bool :=
  let n := N_of_ascii c in
  (((65 <=? n) && (n <=? 90)) || ((192 <=? n) && (n <=? 214))
   || ((216 <=? n) && (n <=? 222)))%N.

(** The lower case characters: [a] to [z], the two ordinal indicators,
    the micro sign, and the small letters from 223 to 255 without the
    division sign. *)
Definition is_lower (c : ascii) : bool :=
  let n := N_of_ascii c in
  (((97 <=? n) && (n <=? 122)) || (n =? 170) || (n =? 181) || (n =? 186)
   || ((223 <=? n) && (n <=? 246)) || ((248 <=? n) && (n <=? 255)))%N.

(** The characters with a case. *)
Definition is_cased (c : ascii) : bool := is_upper c || is_lower c.

(** [c.lower()] *)
Definition lower_char (c : ascii) : ascii :=
  if is_upper c then ascii_of_N (N_of_ascii c + 32) else c.

(** [c.title()]: the capital of a small letter, [Ss] for the sharp s.
    The ordinal indicators have no capital; the capitals of the micro
    sign and of the y with diaeresis have code points above 255, and
    these two letters are left as they are. *)
Definition title_char (c : ascii) : string :=
  let n := N_of_ascii c in
  if (((97 <=? n) && (n <=? 122)) || ((224 <=? n) && (n <=? 246))
      || ((248 <=? n) && (n <=? 254)))%N
  then String (ascii_of_N (n - 32)) EmptyString
  else if (n =? 223)%N then "Ss"
  else String c EmptyString.

(** [str.isspace] on one character: tab to carriage return, the four
    separators 28 to 31, the space, the next-line control 133 and the
    no-break space 160.  These are the characters that [str.strip]
    removes. *)
Definition is_space (c : ascii) : bool :=
  let n := N_of_ascii c in
  (((9 <=? n) && (n <=? 13)) || ((28 <=? n) && (n <=? 32))
   || (n =? 133) || (n =? 160))%N.

(** [s.lower()] *)
Fixpoint str_lower (s : string) : string :=
  match s with
  | EmptyString => EmptyString
  | String c s' => String (lower_char c) (str_lower s')
  end.

(** [s.title()]: a character that follows a cased character is lowered,
    any other character is put in title case. *)
Fixpoint title_from (after_cased : bool) (s : string) : string :=
  match s with
  | EmptyString => EmptyString
  | String c s' =>
      (if after_cased then String (lower_char c) EmptyString else title_char c)
      ++ title_from (is_cased c) s'
  end.
Definition str_title (s : string) : string := title_from false s.

(** [s.startswith(p)] *)
Fixpoint starts_with (p s : string) : bool :=
  match p, s with
  | EmptyString, _ => true
  | String a p', String b s' => Ascii.eqb a b && starts_with p' s'
  | String _ _, EmptyString => false
  end.

(** [p in s] *)
Fixpoint str_in (p s : string) : bool :=
  starts_with p s ||
  match s with
  | EmptyString => false
  | String _ s' => str_in p s'
  end.

(** [s.find(p)]: the least index at which [p] starts, [-1] when there is
    none. *)
Fixpoint str_find (p s : string) : Z :=
  if starts_with p s then 0
  else match s with
       | EmptyString => -1
       | String _ s' => let i := str_find p s' in
                        if i =? -1 then -1 else i + 1
       end.

(** [s[:n]] for [0 <= n] *)
Fixpoint str_take (n : nat) (s : string) : string :=
  match n, s with
  | O, _ => EmptyString
  | S _, EmptyString => EmptyString
  | S n', String c s' => String c (str_take n' s')
  end.

(** [s.split(sep, 1)] for a one-character separator: the text before the
    first separator and the text after it, or [s] alone. *)
Fixpoint split_once (sep : ascii) (s : string) : list string :=
  match s with
  | EmptyString => [EmptyString]
  | String c s' =>
      if Ascii.eqb c sep then [EmptyString; s']
      else match split_once sep s' with
           | [a; b] => [String c a; b]
           | _ => [s]
           end
  end.

(** [s.split(sep)]: every piece between separators. *)
Fixpoint split_all (sep : ascii) (s : string) : list string :=
  match s with
  | EmptyString => [EmptyString]
  | String c s' =>
      if Ascii.eqb c sep then EmptyString :: split_all sep s'
      else match split_all sep s' with
           | a :: rest => String c a :: rest
           | [] => [s]
           end
  end.

Fixpoint lstrip (s : string) : string :=
  match s with
  | EmptyString => EmptyString
  | String c s' => if is_space c then lstrip s' else s
  end.

Fixpoint rstrip (s : string) : string :=
  match s with
  | EmptyString => EmptyString
  | String c s' =>
      match rstrip s' with
      | EmptyString => if is_space c then EmptyString else String c EmptyString
      | r => String c r
      end
  end.

(** [s.strip()] *)
Definition strip (s : string) : string := rstrip (lstrip s).

(** ** Dynamically typed values and dicts *)

#[warnings="-register-all"]
Inductive pyval : Type :=
| VNone
| VBool (b : bool)
| VInt (z : Z)
| VFloat (f : float)
| VStr (s : string)
| VList (l : list pyval)
| VDict (d : list (string * pyval)).

Definition dict : Type := list (string * pyval).

(** [d.get(k)], [None] for a key that is absent *)
Fixpoint dict_get (d : dict) (k : string) : option pyval :=
  match d with
  | [] => None
  | (k', v) :: d' => if String.eqb k' k then Some v else dict_get d' k
  end.

(** [d[k] = v] *)
Fixpoint dict_set (d : dict) (k : string) (v : pyval) : dict :=
  match d with
  | [] => [(k, v)]
  | (k', v') :: d' =>
      if String.eqb k' k then (k', v) :: d' else (k', v') :: dict_set d' k v
  end.

(** The display [{**d, k1: v1, ..., kn: vn}]: a copy of [d] in which the
    items are written from left to right. *)
Definition dict_update (d : dict) (items : list (string * pyval)) : dict :=
  fold_left (fun acc kv => dict_set acc (fst kv) (snd kv)) items d.

(** [d[k]] *)
Definition getitem (d : dict) (k : string) : result pyval :=
  match dict_get d k with
  | Some v => Ok v
  | None => Raise (PyException "KeyError" ("'" ++ k ++ "'"))
  end.

(** [v[k]] for a value that should be a dict *)
Definition subscript (v : pyval) (k : string) : result pyval :=
  match v with
  | VDict d => getitem d k
  | _ => Raise (PyException "TypeError" "object is not subscriptable")
  end.

(** Truth value of an object in a condition. *)
Definition truthy (v : pyval) : bool :=
  match v with
  | VNone => false
  | VBool b => b
  | VInt z => negb (z =? 0)
  | VFloat f => negb (SFeqb f zero)
  | VStr s => negb (String.eqb s EmptyString)
  | VList l => match l with [] => false | _ => true end
  | VDict d => match d with [] => false | _ => true end
  end.

(** An operand of a comparison with an [int].  The bounds compared in
    this program are ints; [None], a [str], a list or a dict there is a
    [TypeError], and a float bound, which no path builds, is left out
    with them. *)
Definition as_int (v : pyval) : result Z :=
  match v with
  | VInt z => Ok z
  | VBool b => Ok (if b then 1 else 0)
  | _ => Raise (PyException "TypeError" "'<=' not supported between instances")
  end.

End Py.

Import Py.

(* ===================================================================== *)
(** * Frames, model outputs and collaborators                             *)
(* ===================================================================== *)

(** A decoded frame: an array of [height] rows and [width] columns of BGR
    pixels. *)
Record Image : Type := mkImage {
  height : Z;
  width : Z;
  pixels : Z -> Z -> N * N * N
}.

(** A bound of a slice on an axis of length [n]: a negative bound counts
    from the end, and every bound is clipped to the axis. *)
Definition slice_bound (n i : Z) : Z :=
  if i <? 0 then Z.max 0 (i + n) else Z.min i n.

(** [image[y1:y2, x1:x2]] *)
Definition crop (image : Image) (y1 y2 x1 x2 : Z) : Image :=
  let r1 := slice_bound (height image) y1 in
  let r2 := slice_bound (height image) y2 in
  let c1 := slice_bound (width image) x1 in
  let c2 := slice_bound (width image) x2 in
  {| height := Z.max 0 (r2 - r1);
     width := Z.max 0 (c2 - c1);
     pixels := fun r c => pixels image (r1 + r) (c1 + c) |}.

(** [array.size] of a three-channel frame *)
Definition size (image : Image) : Z := height image * width image * 3.

(** One row of the keypoint tensor of a person: position and confidence. *)
Record Keypoint : Type := mkKeypoint {
  kp_x : float;
  kp_y : float;
  kp_conf : float
}.

Definition Skeleton : Type := list Keypoint.

(** A result of the pose model; [keypoints] is [None] when the result has
    no keypoints attribute or the attribute is [None], and otherwise the
    tensor [keypoints.data], one skeleton per detected person. *)
Record PoseResult : Type := mkPoseResult {
  keypoints : option (list Skeleton)
}.

(** A box of the object detector: class index, confidence and corners, as
    the entries [cls[0]], [conf[0]] and [xyxy[0]] of its tensors. *)
Record Box : Type := mkBox {
  cls : float;
  conf : float;
  xyxy : float * float * float * float
}.

(** A result of the object detector, with its table of class names. *)
Record DetResult : Type := mkDetResult {
  boxes : option (list Box);
  names : list (Z * string)
}.

(** A result of the closed-set classifier. *)
Record Probs : Type := mkProbs {
  top1 : Z;
  top1conf : float
}.

Record ClsResult : Type := mkClsResult {
  probs : option Probs;
  cls_names : list (Z * string)
}.

(** The process-wide handles and the library calls of [app.py].

    - [pose_model image conf iou] is [self.pose_model(image, conf, iou)];
    - [yolo_detection_model image conf iou] is
      [yolo_detection_model.predict(image, conf, iou)], [iou] being [None]
      where the call leaves it out;
    - [yolo_classification_model image] runs the classifier;
    - [genai_client model_name image] uploads the frame as JPEG, asks the
      named cloud model and deletes the upload; its outcome is the text of
      the response, [None] for a response without text;
    - [imdecode payload] is [base64.b64decode] followed by [cv2.imdecode];
      it raises on a malformed payload and returns [None] for bytes that
      are not an image;
    - [imencode_base64 image] is the JPEG encoding of a frame, in base64;
    - [generate_qr_code verdict] renders the receipt token. *)
Record Env : Type := mkEnv {
  pose_model : option (Image -> float -> float -> result (list PoseResult));
  yolo_detection_model :
    option (Image -> float -> option float -> result (list DetResult));
  yolo_classification_model : option (Image -> result (list ClsResult));
  genai_client : option (string -> Image -> result (option string));
  imdecode : string -> result (option Image);
  imencode_base64 : Image -> string;
  generate_qr_code : dict -> option string
}.

(** [names[i]] for a table of class names *)
Fixpoint names_get (names : list (Z * string)) (i : Z) : result string :=
  match names with
  | [] => Raise (PyException "KeyError" (string_of_Z i))
  | (j, s) :: rest => if j =? i then Ok s else names_get rest i
  end.

(** [map(int, box.xyxy[0])] *)
Definition box_corners (b : Box) : result (Z * Z * Z * Z) :=
  let '(a1, b1, a2, b2) := xyxy b in
  x1 <- int_of_float a1 ;;
  y1 <- int_of_float b1 ;;
  x2 <- int_of_float a2 ;;
  y2 <- int_of_float b2 ;;
  Ok (x1, y1, x2, y2).

(** [r.names[int(box.cls[0])]] *)
Definition box_class_name (names : list (Z * string)) (b : Box) : result string :=
  class_id <- int_of_float (cls b) ;;
  names_get names class_id.

(* ===================================================================== *)
(** * class HandWristDetector                                             *)
(* ===================================================================== *)

Module HandWristDetector.

Definition LEFT_WRIST : nat := 9.
Definition RIGHT_WRIST : nat := 10.
Definition LEFT_ELBOW : nat := 7.
Definition RIGHT_ELBOW : nat := 8.
Definition LEFT_SHOULDER : nat := 5.
Definition RIGHT_SHOULDER : nat := 6.

Definition WRIST_CONFIDENCE_THRESHOLD : float := float_lit 30 100.

(** The dict returned when a person is seen without usable wrists. *)
Definition fallback_failed_result : dict :=
  [ ("hand_detected", VBool false);
    ("wrist_detected", VBool false);
    ("hand_bbox", VNone);
    ("wrist_position", VNone);
    ("confidence", VFloat zero);
    ("keypoints_count", VInt 0);
    ("message",
     VStr "Person detected but wrist keypoints not found. Please position hand clearly.");
    ("method", VStr "fallback_failed") ].

(** The dict returned when nothing was detected; the three places that
    build it differ in the message only. *)
Definition not_detected_result (message : string) : dict :=
  [ ("hand_detected", VBool false);
    ("wrist_detected", VBool false);
    ("hand_bbox", VNone);
    ("wrist_position", VNone);
    ("confidence", VFloat zero);
    ("keypoints_count", VInt 0);
    ("message", VStr message) ].

(** The dict returned when a wrist was accepted. *)
Definition detected_result (wrist_detected : bool) (hand_bbox wrist_position : dict)
    (hand_confidence : float) (keypoints_count : Z) : dict :=
  [ ("hand_detected", VBool true);
    ("wrist_detected", VBool wrist_detected);
    ("hand_bbox", VDict hand_bbox);
    ("wrist_position", VDict wrist_position);
    ("confidence", VFloat hand_confidence);
    ("keypoints_count", VInt keypoints_count);
    ("message", VStr "Hand and wrist detected successfully");
    ("method", VStr "pose") ].

(** The inner loop of [detect_person_fallback]: the first box whose class
    name is [person] ends the search. *)
Fixpoint fallback_boxes (names : list (Z * string)) (bs : list Box)
  : result (option dict) :=
  match bs with
  | [] => Ok None
  | box :: rest =>
      class_name <- box_class_name names box ;;
      if String.eqb (str_lower class_name) "person" then
        _ <- box_corners box ;;
        Ok (Some fallback_failed_result)
      else fallback_boxes names rest
  end.

Fixpoint fallback_results (results : list DetResult) : result (option dict) :=
  match results with
  | [] => Ok None
  | r :: rest =>
      match boxes r with
      | Some bs =>
          found <- fallback_boxes (names r) bs ;;
          match found with
          | Some d => Ok (Some d)
          | None => fallback_results rest
          end
      | None => fallback_results rest
      end
  end.

(** [detect_person_fallback]: [None] when the detector is absent, raises
    or sees no person. *)
Definition detect_person_fallback (env : Env) (image : Image) : option dict :=
  match yolo_detection_model env with
  | None => None
  | Some predict =>
      match (results <- predict image (float_lit 15 100) None ;;
             fallback_results results) with
      | Ok found => found
      | Raise _ => None
      end
  end.

(** [if fallback_result:] *)
Definition is_result (r : option dict) : bool :=
  match r with
  | Some d => truthy (VDict d)
  | None => false
  end.

(** [kpts[i]] *)
Definition kpts_index (kpts : Skeleton) (i : nat) : result Keypoint :=
  match nth_error kpts i with
  | Some k => Ok k
  | None =>
      Raise (PyException "IndexError"
               ("index " ++ string_of_Z (Z.of_nat i)
                ++ " is out of bounds for axis 0 with size "
                ++ string_of_Z (Z.of_nat (List.length kpts))))
  end.

(** [w > WRIST_CONFIDENCE_THRESHOLD] for an entry [w] of the keypoint
    tensor: the comparison is made in float32, with the threshold taken
    to float32. *)
Definition wrist_accepted (w : float) : bool :=
  fgt w (float32 WRIST_CONFIDENCE_THRESHOLD).

Inductive Side : Type := Left | Right.

(** [if left_wrist[2] > right_wrist[2]: ... else: ...] *)
Definition select_dominant_arm (left right : float) : Side :=
  if fgt left right then Left else Right.

(** [int(wrist + d * 0.35)] *)
Definition hand_center (wrist d : Z) : result Z :=
  extension <- int_mul_float d (float_lit 35 100) ;;
  center <- int_add_float wrist extension ;;
  int_of_float center.

Definition box_size : Z := 250.

(** The square around the hand centre, as the four entries of
    [hand_bbox]. *)
Definition derive_hand_region (w h hand_center_x hand_center_y : Z) : dict :=
  let hand_x_min := Z.max 0 (hand_center_x - box_size) in
  let hand_y_min := Z.max 0 (hand_center_y - box_size) in
  let hand_x_max := Z.min w (hand_center_x + box_size) in
  let hand_y_max := Z.min h (hand_center_y + box_size) in
  [ ("x_min", VInt hand_x_min);
    ("y_min", VInt hand_y_min);
    ("x_max", VInt hand_x_max);
    ("y_max", VInt hand_y_max) ].

(** The body of the pose loop for the keypoints of the first person:
    [Some d] is [return d], [None] leaves the loop running. *)
Definition hand_from_keypoints (h w : Z) (kpts : Skeleton) : result (option dict) :=
  left_wrist <- kpts_index kpts LEFT_WRIST ;;
  right_wrist <- kpts_index kpts RIGHT_WRIST ;;
  left_elbow <- kpts_index kpts LEFT_ELBOW ;;
  right_elbow <- kpts_index kpts RIGHT_ELBOW ;;
  left_shoulder <- kpts_index kpts LEFT_SHOULDER ;;
  right_shoulder <- kpts_index kpts RIGHT_SHOULDER ;;
  if wrist_accepted (kp_conf left_wrist) || wrist_accepted (kp_conf right_wrist)
  then
    let '(wrist, elbow, shoulder) :=
      match select_dominant_arm (kp_conf left_wrist) (kp_conf right_wrist) with
      | Left => (left_wrist, left_elbow, left_shoulder)
      | Right => (right_wrist, right_elbow, right_shoulder)
      end in
    let wrist_detected := true in
    let hand_confidence := kp_conf wrist in
    wrist_x <- int_of_float (kp_x wrist) ;;
    wrist_y <- int_of_float (kp_y wrist) ;;
    elbow_x <- int_of_float (kp_x elbow) ;;
    elbow_y <- int_of_float (kp_y elbow) ;;
    let wrist_position := [ ("x", VInt wrist_x); ("y", VInt wrist_y) ] in
    ' (dx, dy) <-
      (if flt (kp_conf elbow) (float_lit 2 10) then
         shoulder_x <- int_of_float (kp_x shoulder) ;;
         shoulder_y <- int_of_float (kp_y shoulder) ;;
         Ok (wrist_x - shoulder_x, wrist_y - shoulder_y)
       else Ok (wrist_x - elbow_x, wrist_y - elbow_y)) ;;
    hand_center_x <- hand_center wrist_x dx ;;
    hand_center_y <- hand_center wrist_y dy ;;
    let hand_bbox := derive_hand_region w h hand_center_x hand_center_y in
    Ok (Some (detected_result wrist_detected hand_bbox wrist_position
                hand_confidence (Z.of_nat (List.length kpts))))
  else Ok None.

(** [for r in results: ...] of [detect_hand_wrist] *)
Fixpoint pose_results (h w : Z) (results : list PoseResult) : result (option dict) :=
  match results with
  | [] => Ok None
  | r :: rest =>
      match keypoints r with
      | Some (kpts :: _) =>
          found <- hand_from_keypoints h w kpts ;;
          match found with
          | Some d => Ok (Some d)
          | None => pose_results h w rest
          end
      | _ => pose_results h w rest
      end
  end.

(** The fallback attempt that ends each path without a hand:
    [fallback_result = self.detect_person_fallback(image)], returned when
    it is true, and the not-detected dict otherwise. *)
Definition after_fallback (env : Env) (image : Image) (message : string) : dict :=
  let fallback_result := detect_person_fallback env image in
  match fallback_result with
  | Some d => if is_result fallback_result then d else not_detected_result message
  | None => not_detected_result message
  end.

(** [detect_hand_wrist] *)
Definition detect_hand_wrist (env : Env) (image : Image) : dict :=
  match pose_model env with
  | None => after_fallback env image "Pose model not loaded and fallback failed"
  | Some model =>
      let h := height image in
      let w := width image in
      match (results <- model image (float_lit 1 10) (float_lit 5 10) ;;
             pose_results h w results) with
      | Ok (Some d) => d
      | Ok None => after_fallback env image "No person or hands detected"
      | Raise e => after_fallback env image ("Error: " ++ str_exn e)
      end
  end.

End HandWristDetector.

(* ===================================================================== *)
(** * class RecyclableWasteClassifier                                     *)
(* ===================================================================== *)

Module RecyclableWasteClassifier.

Definition WASTE_CATEGORIES : dict :=
  [ ("Recyclable",
     VDict [ ("color", VStr "Green");
             ("description",
              VStr "Items that can be recycled: plastic bottles, metal cans, glass, paper, cardboard, electronics");
             ("disposal_code", VStr "REC") ]);
    ("Non-Recyclable",
     VDict [ ("color", VStr "Black");
             ("description",
              VStr "Items that cannot be recycled: food waste, contaminated materials, styrofoam, ceramic");
             ("disposal_code", VStr "NR") ]) ].

(** [WASTE_CATEGORIES[category][field]] *)
Definition category_field (category : pyval) (field : string) : result pyval :=
  match category with
  | VStr c => info <- getitem WASTE_CATEGORIES c ;; subscript info field
  | _ => Raise (PyException "KeyError" "category")
  end.

(** [get_fallback_classification] *)
Definition get_fallback_classification : dict :=
  [ ("classification", VStr "Non-Recyclable");
    ("item_name", VStr "Unknown Item");
    ("explanation",
     VStr "Could not classify - defaulting to non-recyclable for safety.");
    ("bin_color", VStr "Black");
    ("disposal_code", VStr "NR");
    ("confidence", VFloat (float_lit 50 100));
    ("method", VStr "fallback") ].

(** The category read from the text of a response: the first [if] of
    [parse_gemini_response]. *)
Definition response_classification (text : string) : string :=
  let text_lower := str_lower text in
  if str_in "recyclable" text_lower && negb (str_in "non-recyclable" text_lower)
  then "Recyclable" else "Non-Recyclable".

(** The item name read from the text of a response: the second [if] of
    [parse_gemini_response]. *)
Definition response_item_name (text : string) : string :=
  if str_in ":" text then
    let parts := split_once ":" text in
    if 1 <? Z.of_nat (List.length parts) then
      let item_info := strip (nth 1 parts EmptyString) in
      let end_ := str_find "." item_info in
      if negb (end_ =? -1) then strip (str_take (Z.to_nat end_) item_info)
      else "Unknown Item"
    else "Unknown Item"
  else "Unknown Item".

(** [parse_gemini_response] *)
Definition parse_gemini_response (text : string) : result dict :=
  let classification := response_classification text in
  let item_name := response_item_name text in
  category_info <- getitem WASTE_CATEGORIES classification ;;
  color <- subscript category_info "color" ;;
  disposal_code <- subscript category_info "disposal_code" ;;
  Ok [ ("classification", VStr classification);
       ("item_name", VStr item_name);
       ("explanation", VStr text);
       ("bin_color", color);
       ("disposal_code", disposal_code);
       ("confidence", VFloat (float_lit 85 100));
       ("method", VStr "llm") ].

Definition model_names : list string :=
  [ "gemini-2.0-flash-exp"; "gemini-2.5-flash"; "gemini-2.5-pro" ].

(** The loop over the cloud models: the first one that answers with a
    text that is not empty decides; a model that raises is passed over. *)
Fixpoint try_models (client : string -> Image -> result (option string))
    (image : Image) (candidates : list string) : option dict :=
  match candidates with
  | [] => None
  | model_name :: rest =>
      match (response <- client model_name image ;;
             match response with
             | Some text =>
                 if truthy (VStr text)
                 then d <- parse_gemini_response text ;; Ok (Some d)
                 else Ok None
             | None => Ok None
             end) with
      | Ok (Some d) => Some d
      | Ok None => try_models client image rest
      | Raise _ => try_models client image rest
      end
  end.

(** [classify_with_gemini].  The conversion of the frame to JPEG bytes
    before the loop is part of each call of the client: if it raises, the
    source returns the fallback verdict from its outer handler, and here
    every call raises and the loop ends in the same verdict. *)
Definition classify_with_gemini (env : Env) (image : Image) : dict :=
  match genai_client env with
  | None => get_fallback_classification
  | Some client =>
      match try_models client image model_names with
      | Some d => d
      | None => get_fallback_classification
      end
  end.

Definition recyclable : list string :=
  [ "plastic"; "bottle"; "can"; "metal"; "aluminum"; "glass";
    "paper"; "cardboard"; "box"; "container"; "jar"; "tin" ].

Definition non_recyclable : list string :=
  [ "food"; "organic"; "waste"; "styrofoam"; "ceramic"; "fabric" ].

(** [map_class_to_category] *)
Definition map_class_to_category (class_name : string) (confidence : float) : dict :=
  let class_lower := str_lower class_name in
  if existsb (fun k => str_in k class_lower) recyclable then
    [ ("category", VStr "Recyclable"); ("reason", VStr "This item can be recycled.") ]
  else if existsb (fun k => str_in k class_lower) non_recyclable then
    [ ("category", VStr "Non-Recyclable");
      ("reason", VStr "This item cannot be recycled.") ]
  else
    [ ("category",
       VStr (if fgt confidence (float_lit 7 10) then "Recyclable" else "Non-Recyclable"));
      ("reason", VStr "Classification based on AI analysis.") ].

(** The text of a value inside an f-string. *)
Definition str_of (v : pyval) : result string :=
  match v with
  | VStr s => Ok s
  | _ => Raise (PyException "TypeError" "not a str")
  end.

(** The [try] block of [classify_with_yolo_model]: [None] is the [else]
    branch, taken when the first result carries no probabilities. *)
Definition yolo_verdict (results : list ClsResult) : result (option dict) :=
  match results with
  | first :: _ =>
      match probs first with
      | Some p =>
          let top_class := top1 p in
          let confidence := top1conf p in
          class_name <- names_get (cls_names first) top_class ;;
          let classification := map_class_to_category class_name confidence in
          category <- getitem classification "category" ;;
          reason <- (r <- getitem classification "reason" ;; str_of r) ;;
          color <- category_field category "color" ;;
          disposal_code <- category_field category "disposal_code" ;;
          Ok (Some
                [ ("classification", category);
                  ("item_name", VStr (str_title class_name));
                  ("explanation",
                   VStr ("AI model: "
                         ++ format_1f (fmul confidence (float_of_Z 100))
                         ++ "% confidence. " ++ reason));
                  ("bin_color", color);
                  ("disposal_code", disposal_code);
                  ("confidence", VFloat confidence);
                  ("method", VStr "yolo_model") ])
      | None => Ok None
      end
  | [] => Ok None
  end.

(** [classify_with_yolo_model] *)
Definition classify_with_yolo_model (env : Env) (image : Image) : dict :=
  match yolo_classification_model env with
  | None => classify_with_gemini env image
  | Some model =>
      match (results <- model image ;; yolo_verdict results) with
      | Ok (Some d) => d
      | Ok None => classify_with_gemini env image
      | Raise _ => classify_with_gemini env image
      end
  end.

End RecyclableWasteClassifier.

(* ===================================================================== *)
(** * API routes                                                          *)
(* ===================================================================== *)

Module Api.

(** The request body of both routes. *)
Record ClassificationRequest : Type := mkRequest {
  image_base64 : string;
  bin_id : option string;
  location : option string;
  classification_method : option string
}.

(** The response model of [/classify].  Its [timestamp] and
    [processing_time] are read from the clock and are left out. *)
Record ClassificationResponse : Type := mkResponse {
  classification : string;
  confidence : float;
  item_name : string;
  bin_color : string;
  qr_code : option string;
  explanation : string
}.

(** What the web framework sends for a route: the value the handler
    returned, with status 200, or the error of an [HTTPException] that it
    raised. *)
Inductive http_response (A : Type) : Type :=
| Returned (body : A)
| HttpError (status_code : Z) (detail : string).

Arguments Returned {A} body.
Arguments HttpError {A} status_code detail.

(** A handler that let an exception escape. *)
Definition escaped {A : Type} (e : exn) : http_response A :=
  match e with
  | HTTPException code detail => HttpError code detail
  | PyException _ _ => HttpError 500 "Internal Server Error"
  end.

(** [s.split(',')[1] if ',' in s else s] *)
Definition payload (s : string) : string :=
  if str_in "," s then nth 1 (split_all "," s) EmptyString else s.

(** ** [/detect-hand-wrist] *)

(** The variables of the scan over the detected boxes. *)
Record ScanState : Type := mkScan {
  object_in_hand : bool;
  object_bbox : pyval;
  cropped_image : pyval;
  max_confidence : float;
  detected_objects : list pyval
}.

Definition scan_start : ScanState :=
  {| object_in_hand := false;
     object_bbox := VNone;
     cropped_image := VNone;
     max_confidence := zero;
     detected_objects := [] |}.

(** [hand_bbox['x_min'] <= center_x <= hand_bbox['x_max'] and
     hand_bbox['y_min'] <= center_y <= hand_bbox['y_max']] *)
Definition in_hand_region (hand_bbox : pyval) (center_x center_y : Z) : result bool :=
  x_min <- (v <- subscript hand_bbox "x_min" ;; as_int v) ;;
  if negb (x_min <=? center_x) then Ok false else
  x_max <- (v <- subscript hand_bbox "x_max" ;; as_int v) ;;
  if negb (center_x <=? x_max) then Ok false else
  y_min <- (v <- subscript hand_bbox "y_min" ;; as_int v) ;;
  if negb (y_min <=? center_y) then Ok false else
  y_max <- (v <- subscript hand_bbox "y_max" ;; as_int v) ;;
  Ok (center_y <=? y_max).

(** What the loop body reads from a box: class name, confidence and the
    corners as integers. *)
Definition Reading : Type := string * float * (Z * Z * Z * Z).

Definition read_box (names : list (Z * string)) (box : Box) : result Reading :=
  class_name <- box_class_name names box ;;
  let confidence := conf box in
  corners <- box_corners box ;;
  Ok (class_name, confidence, corners).

(** The entry appended to [detected_objects]. *)
Definition detected_entry (rd : Reading) : pyval :=
  let '(class_name, confidence, (x1, y1, x2, y2)) := rd in
  VDict [ ("class", VStr class_name);
          ("confidence", VFloat confidence);
          ("bbox", VList [VInt x1; VInt y1; VInt x2; VInt y2]) ].

(** The value given to [object_bbox] on a match. *)
Definition object_entry (rd : Reading) : pyval :=
  let '(class_name, confidence, (x1, y1, x2, y2)) := rd in
  VDict [ ("x_min", VInt x1); ("y_min", VInt y1);
          ("x_max", VInt x2); ("y_max", VInt y2);
          ("class", VStr class_name);
          ("confidence", VFloat confidence) ].

(** [class_name.lower() == 'person'] *)
Definition is_person (class_name : string) : bool :=
  String.eqb (str_lower class_name) "person".

(** [detected_objects.append(...)] *)
Definition listed (st : ScanState) (rd : Reading) : ScanState :=
  {| object_in_hand := object_in_hand st;
     object_bbox := object_bbox st;
     cropped_image := cropped_image st;
     max_confidence := max_confidence st;
     detected_objects := (detected_objects st ++ [detected_entry rd])%list |}.

(** The crop of the frame around a box, widened by 20 pixels, as the
    data URL stored in [cropped_image]; the variable keeps its value when
    the crop is empty. *)
Definition crop_object (env : Env) (image : Image) (rd : Reading)
    (previous : pyval) : pyval :=
  let '(_, _, (x1, y1, x2, y2)) := rd in
  let crop_x1 := Z.max 0 (x1 - 20) in
  let crop_y1 := Z.max 0 (y1 - 20) in
  let crop_x2 := Z.min (width image) (x2 + 20) in
  let crop_y2 := Z.min (height image) (y2 + 20) in
  let cropped := crop image crop_y1 crop_y2 crop_x1 crop_x2 in
  if 0 <? size cropped
  then VStr ("data:image/jpeg;base64," ++ imencode_base64 env cropped)
  else previous.

(** The assignments made for a box found in the hand region. *)
Definition found (env : Env) (image : Image) (st : ScanState) (rd : Reading)
  : ScanState :=
  {| object_in_hand := true;
     object_bbox := object_entry rd;
     cropped_image := crop_object env image rd (cropped_image st);
     max_confidence := py_max (max_confidence st) (snd (fst rd));
     detected_objects := detected_objects st |}.

(** The centre of a box, by floor division. *)
Definition center (rd : Reading) : Z * Z :=
  let '(_, _, (x1, y1, x2, y2)) := rd in ((x1 + x2) / 2, (y1 + y2) / 2).

(** The body of the inner loop for what was read from one box: the state
    after it, and whether the loop ends there ([break]). *)
Definition scan_body (env : Env) (image : Image) (hand_bbox : pyval)
    (rd : Reading) (st : ScanState) : result (ScanState * bool) :=
  let '(center_x, center_y) := center rd in
  let st := listed st rd in
  if is_person (fst (fst rd)) then Ok (st, false)
  else
    inside <- in_hand_region hand_bbox center_x center_y ;;
    if inside then Ok (found env image st rd, true)
    else Ok (st, false).

(** [for box in r.boxes: ...]: the state after the loop, which ends at the
    first box found in the hand region. *)
Fixpoint scan_boxes (env : Env) (image : Image) (hand_bbox : pyval)
    (names : list (Z * string)) (bs : list Box) (st : ScanState)
  : result ScanState :=
  match bs with
  | [] => Ok st
  | box :: rest =>
      rd <- read_box names box ;;
      step <- scan_body env image hand_bbox rd st ;;
      if snd step then Ok (fst step)
      else scan_boxes env image hand_bbox names rest (fst step)
  end.

(** [for r in results: ...] *)
Fixpoint scan_results (env : Env) (image : Image) (hand_bbox : pyval)
    (results : list DetResult) (st : ScanState) : result ScanState :=
  match results with
  | [] => Ok st
  | r :: rest =>
      match boxes r with
      | Some bs =>
          st' <- scan_boxes env image hand_bbox (names r) bs st ;;
          if object_in_hand st' then Ok st'
          else scan_results env image hand_bbox rest st'
      | None => scan_results env image hand_bbox rest st
      end
  end.

Definition invalid_image_result : dict :=
  [ ("hand_detected", VBool false);
    ("wrist_detected", VBool false);
    ("object_in_hand", VBool false);
    ("message", VStr "Invalid image") ].

Definition detection_error_result (e : exn) : dict :=
  [ ("hand_detected", VBool false);
    ("wrist_detected", VBool false);
    ("object_in_hand", VBool false);
    ("message", VStr ("Error: " ++ str_exn e)) ].

(** The [try] block of the route. *)
Definition detect_hand_wrist_body (env : Env) (request : ClassificationRequest)
  : result dict :=
  decoded <- imdecode env (payload (image_base64 request)) ;;
  match decoded with
  | None => Ok invalid_image_result
  | Some image =>
      let hand_result := HandWristDetector.detect_hand_wrist env image in
      hand_detected <- getitem hand_result "hand_detected" ;;
      no_hand <-
        (if negb (truthy hand_detected) then Ok true
         else wrist_detected <- getitem hand_result "wrist_detected" ;;
              Ok (negb (truthy wrist_detected))) ;;
      if no_hand then
        Ok (dict_update hand_result
              [ ("object_in_hand", VBool false);
                ("cropped_image", VNone);
                ("object_bbox", VNone);
                ("detected_objects", VList []) ])
      else
        hand_bbox <- getitem hand_result "hand_bbox" ;;
        match yolo_detection_model env with
        | None =>
            Ok (dict_update hand_result
                  [ ("object_in_hand", VBool false);
                    ("message", VStr "Detection model not loaded") ])
        | Some predict =>
            results <- predict image (float_lit 3 10) (Some (float_lit 45 100)) ;;
            st <- scan_results env image hand_bbox results scan_start ;;
            top_confidence <-
              (if object_in_hand st then Ok (VFloat (max_confidence st))
               else getitem hand_result "confidence") ;;
            Ok (dict_update hand_result
                  [ ("object_in_hand", VBool (object_in_hand st));
                    ("cropped_image", cropped_image st);
                    ("object_bbox", object_bbox st);
                    ("detected_objects", VList (detected_objects st));
                    ("confidence", top_confidence);
                    ("message",
                     VStr (if object_in_hand st
                           then "Hand, wrist, and object detected"
                           else "Hand/wrist detected, waiting for object")) ])
        end
  end.

(** [detect_hand_wrist], the handler of [/detect-hand-wrist]: every
    exception of the body is turned into a result. *)
Definition detect_hand_wrist (env : Env) (request : ClassificationRequest)
  : http_response dict :=
  match detect_hand_wrist_body env request with
  | Ok d => Returned d
  | Raise e => Returned (detection_error_result e)
  end.

(** [detect_hand], the alias route. *)
Definition detect_hand (env : Env) (request : ClassificationRequest)
  : http_response dict :=
  detect_hand_wrist env request.

(** ** [/classify] *)

(** [classifier.stats] *)
Record Stats : Type := mkStats {
  total_classifications : Z;
  category_counts : list (string * Z);
  model_classifications : Z;
  llm_classifications : Z
}.

(** [counts[key] += 1] *)
Fixpoint count_up (counts : list (string * Z)) (key : string)
  : result (list (string * Z)) :=
  match counts with
  | [] => Raise (PyException "KeyError" ("'" ++ key ++ "'"))
  | (k, n) :: rest =>
      if String.eqb k key then Ok ((k, n + 1) :: rest)
      else rest' <- count_up rest key ;; Ok ((k, n) :: rest')
  end.

(** The choice between the two classification paths. *)
Definition classify (env : Env) (image : Image) (method : string) : dict :=
  if String.eqb method "model"
  then RecyclableWasteClassifier.classify_with_yolo_model env image
  else RecyclableWasteClassifier.classify_with_gemini env image.

(** A field of the response model, read from the verdict and validated as
    a [str] or as a [float]. *)
Definition field_str (d : dict) (k : string) : result string :=
  v <- getitem d k ;;
  match v with
  | VStr s => Ok s
  | _ => Raise (PyException "ValidationError" k)
  end.

Definition field_float (d : dict) (k : string) : result float :=
  v <- getitem d k ;;
  match v with
  | VFloat f => Ok f
  | VInt z => float_of_int z
  | _ => Raise (PyException "ValidationError" k)
  end.

(** The [try] block of the route, from the counters before the request to
    the counters after it and the outcome.  The notification of the
    websocket clients is a background task and is left out. *)
Definition classify_waste_body (env : Env) (stats : Stats)
    (request : ClassificationRequest) : Stats * result ClassificationResponse :=
  match imdecode env (payload (image_base64 request)) with
  | Raise e => (stats, Raise e)
  | Ok None => (stats, Raise (HTTPException 400 "Invalid image"))
  | Ok (Some image) =>
      let method :=
        str_lower (match classification_method request with
                   | Some m => if truthy (VStr m) then m else "model"
                   | None => "model"
                   end) in
      let result_ := classify env image method in
      let stats :=
        if String.eqb method "model" then
          {| total_classifications := total_classifications stats;
             category_counts := category_counts stats;
             model_classifications := model_classifications stats + 1;
             llm_classifications := llm_classifications stats |}
        else
          {| total_classifications := total_classifications stats;
             category_counts := category_counts stats;
             model_classifications := model_classifications stats;
             llm_classifications := llm_classifications stats + 1 |} in
      let qr := generate_qr_code env result_ in
      let stats :=
        {| total_classifications := total_classifications stats + 1;
           category_counts := category_counts stats;
           model_classifications := model_classifications stats;
           llm_classifications := llm_classifications stats |} in
      match (c <- field_str result_ "classification" ;;
             count_up (category_counts stats) c) with
      | Raise e => (stats, Raise e)
      | Ok counts =>
          let stats :=
            {| total_classifications := total_classifications stats;
               category_counts := counts;
               model_classifications := model_classifications stats;
               llm_classifications := llm_classifications stats |} in
          (stats,
           c <- field_str result_ "classification" ;;
           f <- field_float result_ "confidence" ;;
           i <- field_str result_ "item_name" ;;
           b <- field_str result_ "bin_color" ;;
           x <- field_str result_ "explanation" ;;
           Ok {| classification := c;
                 confidence := f;
                 item_name := i;
                 bin_color := b;
                 qr_code := qr;
                 explanation := x |})
      end
  end.

(** The response built from the fallback verdict after an exception. *)
Definition fallback_response (e : exn) : result ClassificationResponse :=
  let fallback := RecyclableWasteClassifier.get_fallback_classification in
  c <- field_str fallback "classification" ;;
  f <- field_float fallback "confidence" ;;
  i <- field_str fallback "item_name" ;;
  b <- field_str fallback "bin_color" ;;
  Ok {| classification := c;
        confidence := f;
        item_name := i;
        bin_color := b;
        qr_code := None;
        explanation := "Error: " ++ str_exn e ++ ". Using fallback." |}.

(** [classify_waste], the handler of [/classify]: an [HTTPException] is
    raised again, any other exception gives the fallback response. *)
Definition classify_waste (env : Env) (stats : Stats)
    (request : ClassificationRequest)
  : Stats * http_response ClassificationResponse :=
  let '(stats', outcome) := classify_waste_body env stats request in
  (stats',
   match outcome with
   | Ok response => Returned response
   | Raise (HTTPException code detail) => escaped (HTTPException code detail)
   | Raise e =>
       match fallback_response e with
       | Ok response => Returned response
       | Raise e' => escaped e'
       end
   end).

End Api.

(* ===================================================================== *)
(** * Sample frames and collaborators                                     *)
(* ===================================================================== *)

Module Samples.

Definition black : Z -> Z -> N * N * N := fun _ _ => (0, 0, 0)%N.

Definition frame_hd : Image := mkImage 1080 1920 black.

Definition keypoint (x y : Z) (n d : Z) : Keypoint :=
  mkKeypoint (float_of_Z x) (float_of_Z y) (float_lit n d).

Definition unseen : Keypoint := mkKeypoint zero zero zero.

(** The seventeen keypoints of a person, of which the arms are given. *)
Definition person (left_wrist right_wrist left_elbow right_elbow
                   left_shoulder right_shoulder : Keypoint) : Skeleton :=
  [ unseen; unseen; unseen; unseen; unseen;
    left_shoulder; right_shoulder; left_elbow; right_elbow;
    left_wrist; right_wrist;
    unseen; unseen; unseen; unseen; unseen; unseen ].

Definition sees (s : Skeleton)
  : Image -> float -> float -> result (list PoseResult) :=
  fun _ _ _ => Ok [ mkPoseResult (Some [s]) ].

Definition coco_names : list (Z * string) :=
  [ (0, "person"); (39, "bottle"); (41, "cup") ].

Definition box (class_id : Z) (percent : Z) (x1 y1 x2 y2 : Z) : Box :=
  mkBox (float_of_Z class_id) (float_lit percent 100)
        (float_of_Z x1, float_of_Z y1, float_of_Z x2, float_of_Z y2).

Definition finds (bs : list Box)
  : Image -> float -> option float -> result (list DetResult) :=
  fun _ _ _ => Ok [ mkDetResult (Some bs) coco_names ].

(** A process with the given pose model and detector, no classifier and
    no cloud client, whose decoder yields [decoded]. *)
Definition env_with
    (pose : option (Image -> float -> float -> result (list PoseResult)))
    (detector : option (Image -> float -> option float -> result (list DetResult)))
    (decoded : result (option Image)) : Env :=
  {| pose_model := pose;
     yolo_detection_model := detector;
     yolo_classification_model := None;
     genai_client := None;
     imdecode := fun _ => decoded;
     imencode_base64 := fun _ => "/9j/";
     generate_qr_code := fun _ => None |}.

Definition no_models : Env := env_with None None (Ok (Some frame_hd)).

Definition undecodable : Env := env_with None None (Ok None).

Definition request : Api.ClassificationRequest :=
  Api.mkRequest "data:image/jpeg;base64,AAAA" None None None.

Definition fresh_stats : Api.Stats :=
  Api.mkStats 0 [ ("Recyclable", 0); ("Non-Recyclable", 0) ] 0 0.

(** Both wrists at confidence 0.5, the left one near the right edge. *)
Definition tied_wrists : Skeleton :=
  person (keypoint 1200 300 5 10) (keypoint 100 100 5 10)
         (keypoint 1100 300 9 10) (keypoint 200 100 9 10) unseen unseen.

(** Both wrists at confidence 0.30. *)
Definition weak_wrists : Skeleton :=
  person (keypoint 1200 300 30 100) (keypoint 100 100 30 100)
         (keypoint 1100 300 9 10) (keypoint 200 100 9 10) unseen unseen.

(** A forearm of 800 pixels that points out of the right edge of a frame
    of 1920 by 1080. *)
Definition reaching_out : Skeleton :=
  person (keypoint 1900 540 9 10) unseen (keypoint 1100 540 9 10) unseen
         unseen unseen.

(** A hand in the middle of the frame. *)
Definition holding : Skeleton :=
  person (keypoint 600 300 9 10) unseen (keypoint 500 300 9 10) unseen
         unseen unseen.

(** Boxes of the detector for a frame. *)
Definition person_box : Box := box 0 90 0 0 1000 700.
Definition bottle_box : Box := box 39 80 600 300 700 400.
Definition cup_box : Box := box 41 70 620 300 720 400.

Definition person_reading : Api.Reading :=
  ("person", float_lit 90 100, (0, 0, 1000, 700)).
Definition bottle_reading : Api.Reading :=
  ("bottle", float_lit 80 100, (600, 300, 700, 400)).
Definition cup_reading : Api.Reading :=
  ("cup", float_lit 70 100, (620, 300, 720, 400)).

Definition three_boxes : list DetResult :=
  [ mkDetResult (Some [person_box; bottle_box; cup_box]) coco_names ].

(** A process that sees the hand of [holding] and the three boxes. *)
Definition holding_env : Env :=
  env_with (Some (sees holding))
           (Some (fun _ _ _ => Ok three_boxes))
           (Ok (Some frame_hd)).

End Samples.

Import HandWristDetector.

(** Every dict that [detect_hand_wrist] returns is of one of three
    kinds. *)
Inductive returned_by (env : Env) (image : Image) : dict -> Prop :=
| by_pose model results r kpts others d :
    pose_model env = Some model ->
    model image (float_lit 1 10) (float_lit 5 10) = Ok results ->
    In r results ->
    keypoints r = Some (kpts :: others) ->
    hand_from_keypoints (height image) (width image) kpts = Ok (Some d) ->
    returned_by env image d
| by_fallback :
    returned_by env image fallback_failed_result
| by_nothing message :
    returned_by env image (not_detected_result message).

(* ===================================================================== *)
(** * Vocabulary of the statements                                        *)
(* ===================================================================== *)

(** The rational number that a finite float stands for. *)
Definition value (f : float) : option Q :=
  match f with
  | S754_zero _ => Some (inject_Z 0)
  | S754_finite s m e =>
      let n := if s then Zneg m else Zpos m in
      Some (match e with
            | Z0 => inject_Z n
            | Zpos p => inject_Z (n * 2 ^ Zpos p)
            | Zneg p => Qmake n (2 ^ p)%positive
            end)
  | S754_infinity _ => None
  | S754_nan => None
  end.

(** The key is present and its value is not [None]. *)
Definition non_null (d : dict) (k : string) : Prop :=
  exists v, dict_get d k = Some v /\ v <> VNone.

(** The form of a hand detection result, in the words of its
    specification: a hand needs a wrist, a wrist comes with its box and
    position, the fallback reports no hand, and [method] holds one of
    three names. *)
Definition method_is_named (r : dict) : Prop :=
  exists m, dict_get r "method" = Some (VStr m) /\
            (m = "pose" \/ m = "fallback_failed" \/ m = "none").

Definition hand_result_invariant (r : dict) : Prop :=
  (dict_get r "hand_detected" = Some (VBool true) ->
   dict_get r "wrist_detected" = Some (VBool true)) /\
  (dict_get r "wrist_detected" = Some (VBool true) ->
   non_null r "hand_bbox" /\ non_null r "wrist_position") /\
  (dict_get r "method" = Some (VStr "fallback_failed") ->
   dict_get r "hand_detected" = Some (VBool false)).

(** The rectangle lies in the frame and is ordered. *)
Definition fully_clamped (w h : Z) (hand_bbox : dict) : Prop :=
  exists x_min y_min x_max y_max,
    hand_bbox = [ ("x_min", VInt x_min); ("y_min", VInt y_min);
                  ("x_max", VInt x_max); ("y_max", VInt y_max) ] /\
    0 <= x_min <= x_max /\ x_max <= w /\
    0 <= y_min <= y_max /\ y_max <= h.

(** A response of the framework that reports a client error. *)
Definition is_client_error {A : Type} (r : Api.http_response A) : Prop :=
  exists code detail, r = Api.HttpError code detail /\ 400 <= code < 500.


(** [p] occurs in [s] as a substring. *)
Definition occurs_in (p s : string) : Prop :=
  exists a b, s = a ++ p ++ b.

(** The character [c] occurs in [s]. *)
Fixpoint char_in (c : ascii) (s : string) : Prop :=
  match s with
  | EmptyString => False
  | String a s' => a = c \/ char_in c s'
  end.










(** The boxes of every result, each with the name table of its result, in
    the order in which the two loops of the detection route meet them. *)
Definition all_boxes (results : list DetResult) : list (list (Z * string) * Box) :=
  flat_map (fun r => match boxes r with
                     | Some bs => map (pair (names r)) bs
                     | None => []
                     end) results.

(** The loop body reads [rd] from the box. *)
Definition reads (nb : list (Z * string) * Box) (rd : Api.Reading) : Prop :=
  Api.read_box (fst nb) (snd nb) = Ok rd.

(** A hand region as [derive_hand_region] builds it. *)
Definition region (x_min y_min x_max y_max : Z) : dict :=
  [ ("x_min", VInt x_min); ("y_min", VInt y_min);
    ("x_max", VInt x_max); ("y_max", VInt y_max) ].

(** The point lies in the rectangle, its border included. *)
Definition inside (x_min y_min x_max y_max : Z) (p : Z * Z) : bool :=
  (x_min <=? fst p) && (fst p <=? x_max) && (y_min <=? snd p) && (snd p <=? y_max).

(** The object of the reading is held: it is not a person and its centre
    lies in the hand region. *)
Definition held (x_min y_min x_max y_max : Z) (rd : Api.Reading) : bool :=
  negb (Api.is_person (fst (fst rd)))
  && inside x_min y_min x_max y_max (Api.center rd).

(** The readings up to the first held one, that one included. *)
Fixpoint up_to_first (f : Api.Reading -> bool) (rds : list Api.Reading)
  : list Api.Reading :=
  match rds with
  | [] => []
  | rd :: rest => if f rd then [rd] else rd :: up_to_first f rest
  end.

(** The two loops of the detection route as one loop over [all_boxes]. *)
Fixpoint scan_flat (env : Env) (image : Image) (hand_bbox : pyval)
    (items : list (list (Z * string) * Box)) (st : Api.ScanState)
  : result Api.ScanState :=
  match items with
  | [] => Ok st
  | nb :: rest =>
      rd <- Api.read_box (fst nb) (snd nb) ;;
      step <- Api.scan_body env image hand_bbox rd st ;;
      if snd step then Ok (fst step)
      else scan_flat env image hand_bbox rest (fst step)
  end.

(** The response lists every box of the detector that can be read. *)
Definition lists_every_box (body : dict) (results : list DetResult) : Prop :=
  exists l,
    dict_get body "detected_objects" = Some (VList l) /\
    forall nb rd, In nb (all_boxes results) -> reads nb rd ->
                  In (Api.detected_entry rd) l.


(* ===================================================================== *)
(** * Further sample collaborators                                        *)
(* ===================================================================== *)

Module MoreSamples.

(** A classifier that sees a glass jar with confidence 0.9234. *)
Definition jar_result : ClsResult :=
  mkClsResult (Some (mkProbs 1 (float_lit 9234 10000)))
              [ (0, "banana peel"); (1, "glass jar") ].

Definition jar_classifier : Image -> result (list ClsResult) :=
  fun _ => Ok [ jar_result ].

(** A cloud client whose first model raises, whose second model answers
    with an empty text and whose third model answers. *)
Definition third_answers : string -> Image -> result (option string) :=
  fun model_name _ =>
    if String.eqb model_name "gemini-2.0-flash-exp"
    then Raise (PyException "ClientError" "404 model not found")
    else if String.eqb model_name "gemini-2.5-flash" then Ok (Some EmptyString)
    else Ok (Some "Non-Recyclable: Pizza Box. Greasy cardboard.").

(** A process with the given classifier and cloud client, no pose model
    and no detector. *)
Definition classifying
    (classifier : option (Image -> result (list ClsResult)))
    (client : option (string -> Image -> result (option string)))
    (decoded : result (option Image)) : Env :=
  {| pose_model := None;
     yolo_detection_model := None;
     yolo_classification_model := classifier;
     genai_client := client;
     imdecode := fun _ => decoded;
     imencode_base64 := fun _ => "/9j/";
     generate_qr_code := fun _ => Some "data:image/png;base64,iVBOR" |}.

(** A cup far from the hand of [Samples.holding], and a box whose class
    is not in the table of names. *)
Definition far_box : Box := Samples.box 41 70 1500 900 1600 1000.
Definition far_reading : Api.Reading :=
  ("cup", float_lit 70 100, (1500, 900, 1600, 1000)).
Definition unnamed_box : Box := Samples.box 7 70 600 300 700 400.

(** A skeleton whose left wrist has the float32 number nearest to 0.30
    as confidence, and whose right wrist has the next float32 number. *)
Definition at_the_threshold : Skeleton :=
  Samples.person
    (mkKeypoint (float_of_Z 1200) (float_of_Z 300)
       (S754_finite false 5404319767592960 (-54)))
    (mkKeypoint (float_of_Z 100) (float_of_Z 100)
       (S754_finite false 5404320304463872 (-54)))
    (Samples.keypoint 1100 300 9 10) (Samples.keypoint 200 100 9 10)
    Samples.unseen Samples.unseen.

(** A process that sees the hand of [Samples.holding], with the given
    detector. *)
Definition hand_seen
    (detector : option (Image -> float -> option float -> result (list DetResult)))
  : Env :=
  Samples.env_with (Some (Samples.sees Samples.holding)) detector
                   (Ok (Some Samples.frame_hd)).

(** A detector that fails. *)
Definition out_of_memory : Image -> float -> option float -> result (list DetResult) :=
  fun _ _ _ => Raise (PyException "RuntimeError" "out of memory").

End MoreSamples.

(** The two loops of [detect_person_fallback] as one loop over
    [all_boxes]. *)
Fixpoint fallback_flat (items : list (list (Z * string) * Box))
  : result (option dict) :=
  match items with
  | [] => Ok None
  | nb :: rest =>
      class_name <- box_class_name (fst nb) (snd nb) ;;
      if String.eqb (str_lower class_name) "person" then
        _ <- box_corners (snd nb) ;;
        Ok (Some fallback_failed_result)
      else fallback_flat rest
  end.

(** The loop of the fallback names the box, and not as a person. *)
Definition named_other (nb : list (Z * string) * Box) : Prop :=
  exists class_name,
    box_class_name (fst nb) (snd nb) = Ok class_name /\
    Api.is_person class_name = false.

(** One of the keywords occurs in the lowered class name. *)
Definition mentions (keywords : list string) (class_name : string) : Prop :=
  exists k, In k keywords /\ occurs_in k (str_lower class_name).

(** The form of a verdict: the seven keys in their order, one of the two
    categories with its bin colour and disposal code, and one of the three
    methods. *)
Definition verdict_well_formed (v : dict) : Prop :=
  exists category item_name explanation color code confidence method,
    v = [ ("classification", VStr category);
          ("item_name", VStr item_name);
          ("explanation", VStr explanation);
          ("bin_color", VStr color);
          ("disposal_code", VStr code);
          ("confidence", VFloat confidence);
          ("method", VStr method) ] /\
    ((category = "Recyclable" /\ color = "Green" /\ code = "REC") \/
     (category = "Non-Recyclable" /\ color = "Black" /\ code = "NR")) /\
    (method = "yolo_model" \/ method = "llm" \/ method = "fallback").

(** The cloud model gives no usable answer: the call raises, the response
    has no text, or the text is empty. *)
Definition declines (client : string -> Image -> result (option string))
    (image : Image) (model_name : string) : Prop :=
  (exists e, client model_name image = Raise e) \/
  client model_name image = Ok None \/
  client model_name image = Ok (Some EmptyString).

(** The local classifier gives no verdict for the frame: it is not
    loaded, it raises, it returns no result, its first result has no
    probabilities, or the top class is missing from the table of names. *)
Definition no_local_verdict (env : Env) (image : Image) : Prop :=
  yolo_classification_model env = None \/
  exists model,
    yolo_classification_model env = Some model /\
    ((exists e, model image = Raise e) \/
     model image = Ok [] \/
     (exists first rest,
         model image = Ok (first :: rest) /\
         (probs first = None \/
          exists p e, probs first = Some p /\
                      names_get (cls_names first) (top1 p) = Raise e))).

(** The request with its method left out. *)
Definition without_method (request : Api.ClassificationRequest)
  : Api.ClassificationRequest :=
  Api.mkRequest (Api.image_base64 request) (Api.bin_id request)
                (Api.location request) None.

(** The response of the detection route for a frame without hand: the
    hand result followed by the four keys of the object. *)
Definition no_hand_response (hand_result : dict) : dict :=
  (hand_result ++
   [ ("object_in_hand", VBool false);
     ("cropped_image", VNone);
     ("object_bbox", VNone);
     ("detected_objects", VList []) ])%list.

(** The response of the detection route for a hand when the object
    detector is not loaded. *)
Definition no_detector_response (hand_bbox position : dict) (c : float) (n : Z)
  : dict :=
  [ ("hand_detected", VBool true);
    ("wrist_detected", VBool true);
    ("hand_bbox", VDict hand_bbox);
    ("wrist_position", VDict position);
    ("confidence", VFloat c);
    ("keypoints_count", VInt n);
    ("message", VStr "Detection model not loaded");
    ("method", VStr "pose");
    ("object_in_hand", VBool false) ].

(** The response of the detection route for a hand and the outcome of the
    scan. *)
Definition merged_response (hand_bbox position : dict) (c : float) (n : Z)
    (st : Api.ScanState) : dict :=
  [ ("hand_detected", VBool true);
    ("wrist_detected", VBool true);
    ("hand_bbox", VDict hand_bbox);
    ("wrist_position", VDict position);
    ("confidence",
     if Api.object_in_hand st then VFloat (Api.max_confidence st) else VFloat c);
    ("keypoints_count", VInt n);
    ("message",
     VStr (if Api.object_in_hand st
           then "Hand, wrist, and object detected"
           else "Hand/wrist detected, waiting for object"));
    ("method", VStr "pose");
    ("object_in_hand", VBool (Api.object_in_hand st));
    ("cropped_image", Api.cropped_image st);
    ("object_bbox", Api.object_bbox st);
    ("detected_objects", VList (Api.detected_objects st)) ].

(** The ways in which the detection route answers a request. *)
Inductive detection_answer (env : Env) (request : Api.ClassificationRequest)
  : dict -> Prop :=
| answer_error e :
    detection_answer env request (Api.detection_error_result e)
| answer_invalid :
    imdecode env (Api.payload (Api.image_base64 request)) = Ok None ->
    detection_answer env request Api.invalid_image_result
| answer_no_hand image :
    imdecode env (Api.payload (Api.image_base64 request)) = Ok (Some image) ->
    detect_hand_wrist env image = fallback_failed_result \/
    (exists message, detect_hand_wrist env image = not_detected_result message) ->
    detection_answer env request (no_hand_response (detect_hand_wrist env image))
| answer_no_detector image x_min y_min x_max y_max position c n :
    imdecode env (Api.payload (Api.image_base64 request)) = Ok (Some image) ->
    detect_hand_wrist env image
    = detected_result true (region x_min y_min x_max y_max) position c n ->
    yolo_detection_model env = None ->
    detection_answer env request
      (no_detector_response (region x_min y_min x_max y_max) position c n)
| answer_merged image x_min y_min x_max y_max position c n predict results st :
    imdecode env (Api.payload (Api.image_base64 request)) = Ok (Some image) ->
    detect_hand_wrist env image
    = detected_result true (region x_min y_min x_max y_max) position c n ->
    yolo_detection_model env = Some predict ->
    predict image (float_lit 3 10) (Some (float_lit 45 100)) = Ok results ->
    Api.scan_results env image (VDict (region x_min y_min x_max y_max)) results
      Api.scan_start = Ok st ->
    detection_answer env request
      (merged_response (region x_min y_min x_max y_max) position c n st).

(* ===================================================================== *)
(** * The start of the process                                            *)
(* ===================================================================== *)

Module Startup.

(** A model that [YOLO(...)] has loaded, with the three ways in which
    [app.py] runs a model: [model(image, conf, iou)] of the pose model,
    [model.predict(image, conf, iou)] of the detector and [model(image)] of
    the classifier; [iou] is [None] where the call leaves it out. *)
Record Model : Type := mkModel {
  call_pose : Image -> float -> option float -> result (list PoseResult);
  predict : Image -> float -> option float -> result (list DetResult);
  call_classifier : Image -> result (list ClsResult)
}.

(** What the process finds on its host when it starts.

    - [path_exists p] is [Path(p).exists()];
    - [stat_size p] is [Path(p).stat().st_size];
    - [mkdir p] is [Path(p).mkdir(exist_ok=True)];
    - [YOLO p] loads the weights at [p], or downloads them when [p] is the
      name of a published model that is not on disk;
    - [getenv name] is [os.getenv(name)];
    - [genai_Client key] is [genai.Client(api_key=key)]. *)
Record Host : Type := mkHost {
  path_exists : string -> bool;
  stat_size : string -> result Z;
  mkdir : string -> result unit;
  YOLO : string -> result Model;
  getenv : string -> option string;
  genai_Client : string -> result (string -> Image -> result (option string))
}.

Definition pose_paths : list string :=
  [ "models/yolov8n-pose.pt"; "/app/models/yolov8n-pose.pt"; "yolov8n-pose.pt" ].

Definition detection_paths : list string :=
  [ "models/yolov8n.pt"; "/app/models/yolov8n.pt"; "yolov8n.pt" ].

Definition classification_paths : list string :=
  [ "/app/models/best.pt"; "models/best.pt"; "best.pt" ].

(** [np.zeros((640, 640, 3), dtype=np.uint8)] *)
Definition test_img : Image := mkImage 640 640 (fun _ _ => (0, 0, 0)%N).

(** The loop of [load_pose_model] over the paths: the model of the first
    path that exists, loaded, measured and tried on [test_img]; [None]
    when the loop ends without a path that exists. *)
Fixpoint pose_from_paths (host : Host) (paths : list string)
  : result (option Model) :=
  match paths with
  | [] => Ok None
  | path :: rest =>
      if path_exists host path then
        model <- YOLO host path ;;
        _ <- stat_size host path ;;
        _ <- call_pose model test_img (float_lit 1 10) None ;;
        Ok (Some model)
      else pose_from_paths host rest
  end.

(** The [try] block of [load_pose_model]. *)
Definition load_pose_model_body (host : Host) : result Model :=
  found <- pose_from_paths host pose_paths ;;
  match found with
  | Some model => Ok model
  | None =>
      model <- YOLO host "yolov8n-pose.pt" ;;
      _ <- mkdir host "models" ;;
      Ok model
  end.

(** [load_pose_model]: the value of [self.pose_model] after it. *)
Definition load_pose_model (host : Host) : option Model :=
  match load_pose_model_body host with
  | Ok model => Some model
  | Raise _ => None
  end.

(** A loop of [load_models] over paths: the model of the first path that
    exists; [None] when the loop reaches its [else]. *)
Fixpoint model_from_paths (host : Host) (paths : list string)
  : result (option Model) :=
  match paths with
  | [] => Ok None
  | path :: rest =>
      if path_exists host path then
        model <- YOLO host path ;;
        Ok (Some model)
      else model_from_paths host rest
  end.

(** [load_models]: the globals [yolo_detection_model] and
    [yolo_classification_model] after it, from their values before. *)
Definition load_models (host : Host) (detection classification : option Model)
  : option Model * option Model :=
  match mkdir host "models" with
  | Raise _ => (detection, classification)
  | Ok _ =>
      match (found <- model_from_paths host detection_paths ;;
             match found with
             | Some model => Ok model
             | None => YOLO host "yolov8n.pt"
             end) with
      | Raise _ => (detection, classification)
      | Ok model =>
          match model_from_paths host classification_paths with
          | Raise _ => (Some model, classification)
          | Ok (Some classifier) => (Some model, Some classifier)
          | Ok None => (Some model, classification)
          end
      end
  end.

(** [configure_gemini]: the value of [self.genai_client] after it. *)
Definition configure_gemini (host : Host)
  : option (string -> Image -> result (option string)) :=
  match getenv host "GEMINI_API_KEY" with
  | Some api_key =>
      if truthy (VStr api_key) then
        match genai_Client host api_key with
        | Ok client => Some client
        | Raise _ => None
        end
      else None
  | None => None
  end.

(** The handles of the process once the module is loaded:
    [classifier = RecyclableWasteClassifier()] runs [load_pose_model],
    [load_models] on globals that are [None], and [configure_gemini]. *)
Definition startup (host : Host)
    (decode : string -> result (option Image))
    (encode : Image -> string)
    (qr : dict -> option string) : Env :=
  let models := load_models host None None in
  {| pose_model :=
       option_map (fun model image conf iou => call_pose model image conf (Some iou))
                  (load_pose_model host);
     yolo_detection_model := option_map predict (fst models);
     yolo_classification_model := option_map call_classifier (snd models);
     genai_client := configure_gemini host;
     imdecode := decode;
     imencode_base64 := encode;
     generate_qr_code := qr |}.

(** [is not None] *)
Definition is_not_none {A : Type} (x : option A) : bool :=
  match x with
  | Some _ => true
  | None => false
  end.

(** [health_check], the handler of [/health], at the time [now]. *)
Definition health_check (host : Host) (env : Env) (now : string) : dict :=
  [ ("status", VStr "healthy");
    ("timestamp", VStr now);
    ("models_loaded",
     VDict [ ("yolo_detection", VBool (is_not_none (yolo_detection_model env)));
             ("yolo_pose", VBool (is_not_none (pose_model env)));
             ("yolo_classification",
              VBool (is_not_none (yolo_classification_model env)));
             ("gemini_configured",
              VBool (match getenv host "GEMINI_API_KEY" with
                     | Some api_key => truthy (VStr api_key)
                     | None => false
                     end)) ]);
    ("hand_detection", VStr "YOLOv8 Pose (CPU-optimized, no MediaPipe)") ].

End Startup.

(** Sample hosts. *)
Module SampleHosts.

(** A model that finds nothing. *)
Definition blind : Startup.Model :=
  Startup.mkModel (fun _ _ _ => Ok []) (fun _ _ _ => Ok []) (fun _ => Ok []).

(** A host on which the given paths exist, those among them that are not
    [broken] hold weights that load, every other load or download fails,
    and the key has the given value; the directory can be made when
    [writable]. *)
Definition host_with (files broken : list string) (writable : bool)
    (key : option string) : Startup.Host :=
  {| Startup.path_exists := fun p => existsb (String.eqb p) files;
     Startup.stat_size := fun p =>
       if existsb (String.eqb p) files then Ok 6534387
       else Raise (PyException "FileNotFoundError" p);
     Startup.mkdir := fun p =>
       if writable then Ok tt
       else Raise (PyException "PermissionError" p);
     Startup.YOLO := fun p =>
       if existsb (String.eqb p) files && negb (existsb (String.eqb p) broken)
       then Ok blind
       else Raise (PyException "RuntimeError" p);
     Startup.getenv := fun name =>
       if String.eqb name "GEMINI_API_KEY" then key else None;
     Startup.genai_Client := fun _ =>
       Raise (PyException "ValueError" "invalid api key") |}.

(** A host on which every published model can be downloaded, and nothing
    else is there. *)
Definition downloading (writable : bool) : Startup.Host :=
  {| Startup.path_exists := fun _ => false;
     Startup.stat_size := fun p => Raise (PyException "FileNotFoundError" p);
     Startup.mkdir := fun p =>
       if writable then Ok tt
       else Raise (PyException "PermissionError" p);
     Startup.YOLO := fun _ => Ok blind;
     Startup.getenv := fun _ => None;
     Startup.genai_Client := fun _ =>
       Raise (PyException "ValueError" "invalid api key") |}.

End SampleHosts.

(** None of the paths before the chosen one exists on the host, and the
    chosen one does. *)
Definition first_existing (host : Startup.Host) (paths : list string)
    (path : string) : Prop :=
  exists pre post,
    paths = (pre ++ path :: post)%list /\
    Forall (fun p => Startup.path_exists host p = false) pre /\
    Startup.path_exists host path = true.

(** None of the paths exists on the host. *)
Definition none_exists (host : Startup.Host) (paths : list string) : Prop :=
  Forall (fun p => Startup.path_exists host p = false) paths.

(* ===================================================================== *)
(** * The websocket clients                                               *)
(* ===================================================================== *)

Module Sockets.

(** A websocket, by the identity of its object. *)
Definition WebSocket : Type := nat.

(** [ws.send_json(message)] as the coroutine sees it: from the socket,
    the message and [connected_websockets] at the time of the call, the
    list at the time the call is over (other handlers run while the
    coroutine waits) and the outcome of the call. *)
Definition Network : Type :=
  WebSocket -> dict -> list WebSocket -> list WebSocket * result unit.

(** [connected_websockets.remove(ws)] *)
Fixpoint list_remove (ws : WebSocket) (connected : list WebSocket)
  : result (list WebSocket) :=
  match connected with
  | [] => Raise (PyException "ValueError" "list.remove(x): x not in list")
  | first :: rest =>
      if Nat.eqb first ws then Ok rest
      else rest' <- list_remove ws rest ;; Ok (first :: rest')
  end.

(** [for ws in connected_websockets.copy(): ...]: the list after the loop
    and its outcome; a send that raises has its socket removed, and a
    removal that raises ends the loop. *)
Fixpoint notify_loop (send_json : Network) (message : dict)
    (copy : list WebSocket) (connected : list WebSocket)
  : list WebSocket * result unit :=
  match copy with
  | [] => (connected, Ok tt)
  | ws :: rest =>
      let '(connected, sent) := send_json ws message connected in
      match sent with
      | Ok _ => notify_loop send_json message rest connected
      | Raise _ =>
          match list_remove ws connected with
          | Ok connected => notify_loop send_json message rest connected
          | Raise e => (connected, Raise e)
          end
      end
  end.

(** [notify_websocket_clients] *)
Definition notify_websocket_clients (send_json : Network) (message : dict)
    (connected : list WebSocket) : list WebSocket * result unit :=
  match connected with
  | [] => (connected, Ok tt)
  | _ => notify_loop send_json message connected connected
  end.

(** [websocket_endpoint] up to its loop: the socket is appended once it
    is accepted. *)
Definition websocket_opened (accept : result unit) (ws : WebSocket)
    (connected : list WebSocket) : list WebSocket * result unit :=
  match accept with
  | Ok _ => ((connected ++ [ws])%list, Ok tt)
  | Raise e => (connected, Raise e)
  end.

(** [websocket_endpoint] from the exception that ends its loop: on
    [WebSocketDisconnect] the socket is removed, any other exception
    leaves the handler as it is. *)
Definition websocket_closed (ws : WebSocket) (e : exn)
    (connected : list WebSocket) : list WebSocket * result unit :=
  match e with
  | PyException type _ =>
      if String.eqb type "WebSocketDisconnect" then
        match list_remove ws connected with
        | Ok connected => (connected, Ok tt)
        | Raise e' => (connected, Raise e')
        end
      else (connected, Raise e)
  | HTTPException _ _ => (connected, Raise e)
  end.

End Sockets.

(** No handler changes the list while a message is sent, and the sockets
    that take a message are those of [delivered]. *)
Definition quiet (send_json : Sockets.Network)
    (delivered : Sockets.WebSocket -> bool) : Prop :=
  forall ws message connected,
    fst (send_json ws message connected) = connected /\
    (snd (send_json ws message connected) = Ok tt <-> delivered ws = true).


(* ===================================================================== *)
(** * Properties of the hand and wrist detector                           *)
(* ===================================================================== *)


(** Inversion of a [bind] that is known to succeed. *)
Ltac bind_inv H :=
  match type of H with
  | bind ?c _ = _ =>
      let E := fresh "E" in
      destruct c eqn:E; cbn [bind] in H; [| discriminate H]
  end.

Lemma fallback_boxes_some names bs d :
  fallback_boxes names bs = Ok (Some d) -> d = fallback_failed_result.
Proof.
  induction bs as [| box rest IH]; simpl; intros H.
  - discriminate.
  - bind_inv H.
    destruct (String.eqb (str_lower a) "person").
    + bind_inv H. congruence.
    + auto.
Qed.

Lemma fallback_results_some results d :
  fallback_results results = Ok (Some d) -> d = fallback_failed_result.
Proof.
  induction results as [| r rest IH]; simpl; intros H.
  - discriminate.
  - destruct (boxes r) as [bs |]; [| auto].
    bind_inv H. destruct a as [d' |].
    + apply fallback_boxes_some in E. congruence.
    + auto.
Qed.

Lemma detect_person_fallback_some env image d :
  detect_person_fallback env image = Some d -> d = fallback_failed_result.
Proof.
  unfold detect_person_fallback.
  destruct (yolo_detection_model env) as [predict |]; [| discriminate].
  destruct (predict image (float_lit 15 100) None) as [results | e]; simpl.
  - destruct (fallback_results results) as [found | e] eqn:E; [| discriminate].
    intros ->. eapply fallback_results_some; eauto.
  - discriminate.
Qed.

Lemma kpts_index_ok kpts i k : kpts_index kpts i = Ok k -> nth_error kpts i = Some k.
Proof.
  unfold kpts_index. destruct (nth_error kpts i); congruence.
Qed.

Lemma kpts_index_below kpts i j k :
  nth_error kpts j = Some k -> (i <= j)%nat ->
  exists k', kpts_index kpts i = Ok k' /\ nth_error kpts i = Some k'.
Proof.
  intros Hj Hij. unfold kpts_index.
  destruct (nth_error kpts i) as [k' |] eqn:E.
  - eauto.
  - apply nth_error_None in E.
    assert (j < List.length kpts)%nat by (apply nth_error_Some; congruence).
    lia.
Qed.

Lemma hand_from_keypoints_some h w kpts d :
  hand_from_keypoints h w kpts = Ok (Some d) ->
  exists lw rw,
    nth_error kpts LEFT_WRIST = Some lw /\
    nth_error kpts RIGHT_WRIST = Some rw /\
    wrist_accepted (kp_conf lw) || wrist_accepted (kp_conf rw) = true /\
    exists wx wy cx cy,
      let wrist := match select_dominant_arm (kp_conf lw) (kp_conf rw) with
                   | Left => lw | Right => rw end in
      int_of_float (kp_x wrist) = Ok wx /\
      int_of_float (kp_y wrist) = Ok wy /\
      d = detected_result true (derive_hand_region w h cx cy)
            [("x", VInt wx); ("y", VInt wy)] (kp_conf wrist)
            (Z.of_nat (List.length kpts)).
Proof.
  unfold hand_from_keypoints. intros H.
  bind_inv H. rename a into lw, E into Elw.
  bind_inv H. rename a into rw, E into Erw.
  bind_inv H. rename a into le.
  bind_inv H. rename a into re.
  bind_inv H. rename a into ls.
  bind_inv H. rename a into rs.
  apply kpts_index_ok in Elw, Erw.
  exists lw, rw. split; [assumption |]. split; [assumption |].
  destruct (wrist_accepted (kp_conf lw) || wrist_accepted (kp_conf rw)); [| discriminate].
  split; [reflexivity |].
  destruct (select_dominant_arm (kp_conf lw) (kp_conf rw)).
  - bind_inv H. bind_inv H. bind_inv H. bind_inv H. bind_inv H.
    destruct a3 as [dx dy]. bind_inv H. bind_inv H.
    injection H as <-. eauto 10.
  - bind_inv H. bind_inv H. bind_inv H. bind_inv H. bind_inv H.
    destruct a3 as [dx dy]. bind_inv H. bind_inv H.
    injection H as <-. eauto 10.
Qed.

Lemma hand_from_keypoints_rejected h w kpts lw rw :
  nth_error kpts LEFT_WRIST = Some lw ->
  nth_error kpts RIGHT_WRIST = Some rw ->
  wrist_accepted (kp_conf lw) = false ->
  wrist_accepted (kp_conf rw) = false ->
  hand_from_keypoints h w kpts = Ok None.
Proof.
  intros Hl Hr Al Ar. unfold hand_from_keypoints.
  destruct (kpts_index_below kpts LEFT_WRIST _ _ Hr) as (k1 & -> & E1); [unfold LEFT_WRIST, RIGHT_WRIST; lia |].
  destruct (kpts_index_below kpts RIGHT_WRIST _ _ Hr) as (k2 & -> & E2); [lia |].
  destruct (kpts_index_below kpts LEFT_ELBOW _ _ Hr) as (k3 & -> & E3); [unfold LEFT_ELBOW, RIGHT_WRIST; lia |].
  destruct (kpts_index_below kpts RIGHT_ELBOW _ _ Hr) as (k4 & -> & E4); [unfold RIGHT_ELBOW, RIGHT_WRIST; lia |].
  destruct (kpts_index_below kpts LEFT_SHOULDER _ _ Hr) as (k5 & -> & E5); [unfold LEFT_SHOULDER, RIGHT_WRIST; lia |].
  destruct (kpts_index_below kpts RIGHT_SHOULDER _ _ Hr) as (k6 & -> & E6); [unfold RIGHT_SHOULDER, RIGHT_WRIST; lia |].
  cbn [bind]. assert (k1 = lw) by congruence. assert (k2 = rw) by congruence. subst.
  rewrite Al, Ar. reflexivity.
Qed.

Lemma after_fallback_cases env image message :
  after_fallback env image message = fallback_failed_result \/
  after_fallback env image message = not_detected_result message.
Proof.
  unfold after_fallback.
  destruct (detect_person_fallback env image) as [d |] eqn:E; [| auto].
  apply detect_person_fallback_some in E. subst d. left. reflexivity.
Qed.

Lemma pose_results_some h w results d :
  pose_results h w results = Ok (Some d) ->
  exists r kpts others,
    In r results /\ keypoints r = Some (kpts :: others) /\
    hand_from_keypoints h w kpts = Ok (Some d).
Proof.
  induction results as [| r rest IH]; simpl; intros H.
  - discriminate.
  - destruct (keypoints r) as [[| kpts others] |] eqn:K.
    + destruct (IH H) as (r' & k' & o' & ? & ? & ?). exists r', k', o'. auto.
    + bind_inv H. destruct a as [d' |].
      * injection H as ->. exists r, kpts, others. auto.
      * destruct (IH H) as (r' & k' & o' & ? & ? & ?). exists r', k', o'. auto.
    + destruct (IH H) as (r' & k' & o' & ? & ? & ?). exists r', k', o'. auto.
Qed.

Lemma pose_results_none h w results :
  (forall r kpts others,
      In r results -> keypoints r = Some (kpts :: others) ->
      hand_from_keypoints h w kpts = Ok None) ->
  pose_results h w results = Ok None.
Proof.
  induction results as [| r rest IH]; simpl; intros H.
  - reflexivity.
  - destruct (keypoints r) as [[| kpts others] |] eqn:K.
    + apply IH. intros; eapply H; eauto.
    + rewrite (H r kpts others (or_introl eq_refl) K). simpl.
      apply IH. intros; eapply H; eauto.
    + apply IH. intros; eapply H; eauto.
Qed.

Lemma detect_hand_wrist_returned env image :
  returned_by env image (detect_hand_wrist env image).
Proof.
  assert (T : forall m, returned_by env image (after_fallback env image m)).
  { intros m. destruct (after_fallback_cases env image m) as [-> | ->]; constructor. }
  unfold detect_hand_wrist.
  destruct (pose_model env) as [model |] eqn:M; [| apply T].
  destruct (model image (float_lit 1 10) (float_lit 5 10)) as [results | e] eqn:R;
    simpl; [| apply T].
  destruct (pose_results (height image) (width image) results) as [[d |] | e] eqn:P;
    [| apply T | apply T].
  destruct (pose_results_some _ _ _ _ P) as (r & kpts & others & ? & ? & ?).
  eapply by_pose; eauto.
Qed.

(** C2 (as amended).  Every dict returned by [detect_hand_wrist] keeps the
    invariant of a hand detection result: a detected hand comes with a
    detected wrist, a detected wrist comes with a hand box and a wrist
    position that are not [None], and the fallback reports no hand.  Its
    [method] key is either absent, which happens only when no hand is
    reported, or holds [pose] or [fallback_failed]. *)
Theorem detect_hand_wrist_well_formed (env : Env) (image : Image) :
  let r := detect_hand_wrist env image in
  hand_result_invariant r /\
  (dict_get r "method" = None \/
   dict_get r "method" = Some (VStr "pose") \/
   dict_get r "method" = Some (VStr "fallback_failed")) /\
  (dict_get r "method" = None ->
   dict_get r "hand_detected" = Some (VBool false)).
Proof.
  intros r. subst r.
  destruct (detect_hand_wrist_returned env image)
    as [model results r kpts others d _ _ _ _ H | | message].
  - apply hand_from_keypoints_some in H.
    destruct H as (lw & rw & _ & _ & _ & wx & wy & cx & cy & _ & _ & ->).
    unfold hand_result_invariant, non_null. simpl.
    repeat split; try discriminate; auto.
    + eexists; split; [reflexivity | discriminate].
    + eexists; split; [reflexivity | discriminate].
  - unfold hand_result_invariant, non_null. simpl.
    repeat split; try discriminate; auto.
  - unfold hand_result_invariant, non_null. simpl.
    repeat split; try discriminate; auto.
Qed.

(** C2 (counterexample).  With no pose model and no detector the result
    has no [method] key, so the key is not present with one of the three
    names. *)
Lemma method_key_absent :
  let r := detect_hand_wrist Samples.no_models Samples.frame_hd in
  dict_get r "method" = None /\
  ~ (hand_result_invariant r /\ method_is_named r).
Proof.
  split; [reflexivity |].
  intros [_ (m & H & _)]. discriminate H.
Qed.

Lemma digits2_pos_bounds (m : positive) :
  2 ^ (Zpos (digits2_pos m) - 1) <= Zpos m < 2 ^ Zpos (digits2_pos m).
Proof.
  induction m as [p IH | p IH |]; simpl digits2_pos.
  - rewrite Pos2Z.inj_succ.
    replace (Z.succ (Zpos (digits2_pos p)) - 1) with (Z.succ (Zpos (digits2_pos p) - 1)) by lia.
    rewrite !Z.pow_succ_r by lia. lia.
  - rewrite Pos2Z.inj_succ.
    replace (Z.succ (Zpos (digits2_pos p)) - 1) with (Z.succ (Zpos (digits2_pos p) - 1)) by lia.
    rewrite !Z.pow_succ_r by lia. lia.
  - simpl. lia.
Qed.

Lemma float32_threshold :
  float32 WRIST_CONFIDENCE_THRESHOLD = S754_finite false 5404319767592960 (-54).
Proof. vm_compute. reflexivity. Qed.

(** On the binary64 numbers the test of the wrist is the strict
    comparison with the float32 number nearest to 0.30, which is
    10066330 / 2^25 = 0.300000011920928955078125. *)
Lemma wrist_accepted_value (w : float) (q : Q) :
  valid_binary prec emax w = true ->
  value w = Some q ->
  (wrist_accepted w = true <-> (10066330 # 33554432 < q)%Q).
Proof.
  unfold wrist_accepted, fgt.
  rewrite float32_threshold.
  destruct w as [s | s | | s m e]; try discriminate.
  - intros _ H. injection H as <-. split; [discriminate | intros H; discriminate H].
  - intros V H. injection H as <-.
    destruct s.
    { split; [discriminate |]. intros H. exfalso.
      destruct e as [| p | p]; cbv [Qlt Qnum Qden inject_Z] in H.
      - lia.
      - assert (0 < 2 ^ Zpos p) by (apply Z.pow_pos_nonneg; lia). nia.
      - lia. }
    cbv [valid_binary bounded canonical_mantissa fexp emin prec emax] in V.
    apply andb_true_iff in V. destruct V as [C L].
    apply Z.eqb_eq in C.
    pose proof (digits2_pos_bounds m) as D.
    unfold SFltb, SFcompare.
    destruct e as [| p | p].
    + cbv [Qlt Qnum Qden inject_Z]. simpl Z.compare. split; [lia | reflexivity].
    + cbv [Qlt Qnum Qden inject_Z]. simpl Z.compare. split; [intros _ | reflexivity].
      clear C L D.
      assert (0 < 2 ^ Zpos p) by (apply Z.pow_pos_nonneg; lia). nia.
    + cbv [Qlt Qnum Qden].
      rewrite Pos2Z.inj_pow.
      destruct (Z.compare_spec (-54) (Zneg p)) as [E | E | E].
      * injection E as <-.
        change (2 ^ 54) with 18014398509481984.
        rewrite Pos.compare_cont_spec. simpl Pos.switch_Eq.
        clear C L D.
        change (Pos.compare 5404319767592960 m)
          with (Z.compare 5404319767592960 (Zpos m)).
        destruct (Z.compare_spec 5404319767592960 (Zpos m)) as [Em | Em | Em].
        -- split; [discriminate | intros H; exfalso; lia].
        -- split; [intros _; lia | reflexivity].
        -- split; [discriminate | intros H; exfalso; lia].
      * split; [intros _ | reflexivity].
        assert (Hd : Zpos (digits2_pos m) = 53) by lia.
        rewrite Hd in D. change (2 ^ (53 - 1)) with 4503599627370496 in D.
        assert (2 ^ Zpos p <= 2 ^ 53) by (apply Z.pow_le_mono_r; lia).
        change (2 ^ 53) with 9007199254740992 in *. lia.
      * split; [discriminate | intros H; exfalso].
        assert (Hd : Zpos (digits2_pos m) <= 53) by lia.
        assert (2 ^ Zpos (digits2_pos m) <= 2 ^ 53) by (apply Z.pow_le_mono_r; lia).
        assert (2 ^ 55 <= 2 ^ Zpos p) by (apply Z.pow_le_mono_r; lia).
        change (2 ^ 53) with 9007199254740992 in *.
        change (2 ^ 55) with 36028797018963968 in *. lia.
Qed.

(** A skeleton with an accepted wrist whose analysis does not raise gives
    a detected hand, with the confidence of the wrist of the greater
    confidence, the right one when neither is greater. *)
Lemma hand_from_keypoints_accepted h w kpts lw rw found :
  nth_error kpts LEFT_WRIST = Some lw ->
  nth_error kpts RIGHT_WRIST = Some rw ->
  wrist_accepted (kp_conf lw) || wrist_accepted (kp_conf rw) = true ->
  hand_from_keypoints h w kpts = Ok found ->
  exists hand_bbox wrist_position,
    found = Some (detected_result true hand_bbox wrist_position
                    (if fgt (kp_conf lw) (kp_conf rw) then kp_conf lw else kp_conf rw)
                    (Z.of_nat (List.length kpts))).
Proof.
  intros Hl Hr A H. unfold hand_from_keypoints in H.
  bind_inv H. rename a into lw', E into Elw.
  bind_inv H. rename a into rw', E into Erw.
  bind_inv H. rename a into le.
  bind_inv H. rename a into re.
  bind_inv H. rename a into ls.
  bind_inv H. rename a into rs.
  apply kpts_index_ok in Elw, Erw.
  assert (lw' = lw) by congruence. assert (rw' = rw) by congruence. subst lw' rw'.
  rewrite A in H. unfold select_dominant_arm in H.
  destruct (fgt (kp_conf lw) (kp_conf rw)).
  - bind_inv H. bind_inv H. bind_inv H. bind_inv H. bind_inv H.
    destruct a3 as [dx dy]. bind_inv H. bind_inv H.
    injection H as <-. eauto.
  - bind_inv H. bind_inv H. bind_inv H. bind_inv H. bind_inv H.
    destruct a3 as [dx dy]. bind_inv H. bind_inv H.
    injection H as <-. eauto.
Qed.

(** C3.  The wrist of a keypoint tensor is accepted exactly when its
    confidence is greater than 0.30, strictly, the comparison being made
    in float32: the threshold is the float32 number nearest to 0.30,
    10066330 / 2^25, and a confidence is accepted exactly when its value
    is greater than that number.  The confidence 0.30 itself, as float32
    and as the literal, is not accepted.  In the detector: when a wrist
    of the first skeleton is accepted and the analysis of the skeleton
    does not raise, a hand and a wrist are reported, with the confidence
    of the chosen wrist; when, for the first person of every pose result,
    neither wrist is accepted, the detector takes the fallback path and
    reports no hand; and a hand is reported only for a skeleton one of
    whose wrists is accepted. *)
Theorem wrist_threshold_is_strict (env : Env) (image : Image)
    (model : Image -> float -> float -> result (list PoseResult))
    (r : PoseResult) (rest : list PoseResult)
    (kpts : Skeleton) (others : list Skeleton) (lw rw : Keypoint) (w : float) :
  pose_model env = Some model ->
  model image (float_lit 1 10) (float_lit 5 10) = Ok (r :: rest) ->
  keypoints r = Some (kpts :: others) ->
  nth_error kpts LEFT_WRIST = Some lw ->
  nth_error kpts RIGHT_WRIST = Some rw ->
  let threshold := S754_finite false 5404319767592960 (-54) in
  float32 (float_lit 30 100) = threshold /\
  (wrist_accepted w = true <-> SFltb threshold w = true) /\
  (forall q, valid_binary prec emax w = true -> value w = Some q ->
             (wrist_accepted w = true <-> (10066330 # 33554432 < q)%Q)) /\
  wrist_accepted threshold = false /\
  wrist_accepted (float_lit 30 100) = false /\
  (wrist_accepted (kp_conf lw) = true \/ wrist_accepted (kp_conf rw) = true ->
   forall found,
     hand_from_keypoints (height image) (width image) kpts = Ok found ->
     found = Some (detect_hand_wrist env image) /\
     dict_get (detect_hand_wrist env image) "hand_detected" = Some (VBool true) /\
     dict_get (detect_hand_wrist env image) "wrist_detected" = Some (VBool true) /\
     dict_get (detect_hand_wrist env image) "confidence"
     = Some (VFloat (if SFltb (kp_conf rw) (kp_conf lw)
                     then kp_conf lw else kp_conf rw))) /\
  ((forall r' kpts' others',
       In r' (r :: rest) -> keypoints r' = Some (kpts' :: others') ->
       exists lw' rw',
         nth_error kpts' LEFT_WRIST = Some lw' /\
         nth_error kpts' RIGHT_WRIST = Some rw' /\
         SFltb threshold (kp_conf lw') = false /\
         SFltb threshold (kp_conf rw') = false) ->
   detect_hand_wrist env image
   = after_fallback env image "No person or hands detected" /\
   dict_get (detect_hand_wrist env image) "hand_detected" = Some (VBool false)) /\
  (dict_get (detect_hand_wrist env image) "hand_detected" = Some (VBool true) ->
   exists r' kpts' others' lw' rw',
     In r' (r :: rest) /\ keypoints r' = Some (kpts' :: others') /\
     nth_error kpts' LEFT_WRIST = Some lw' /\
     nth_error kpts' RIGHT_WRIST = Some rw' /\
     (SFltb threshold (kp_conf lw') = true \/
      SFltb threshold (kp_conf rw') = true)).
Proof.
  intros M R K Hl Hr threshold.
  assert (T : forall x, wrist_accepted x = SFltb threshold x).
  { intros x. unfold wrist_accepted, fgt. rewrite float32_threshold. reflexivity. }
  split; [apply float32_threshold |].
  split; [rewrite T; tauto |].
  split; [intros q; apply wrist_accepted_value |].
  split; [rewrite T; reflexivity |].
  split; [rewrite T; vm_compute; reflexivity |].
  split; [| split].
  - intros A found H.
    assert (A' : wrist_accepted (kp_conf lw) || wrist_accepted (kp_conf rw) = true).
    { apply orb_true_iff. exact A. }
    destruct (hand_from_keypoints_accepted _ _ _ _ _ _ Hl Hr A' H)
      as (hand_bbox & wrist_position & ->).
    assert (E : detect_hand_wrist env image
                = detected_result true hand_bbox wrist_position
                    (if fgt (kp_conf lw) (kp_conf rw) then kp_conf lw else kp_conf rw)
                    (Z.of_nat (List.length kpts))).
    { unfold detect_hand_wrist. rewrite M, R. cbn [bind pose_results].
      rewrite K, H. reflexivity. }
    rewrite E. repeat split.
  - intros Weak.
    assert (E : detect_hand_wrist env image
                = after_fallback env image "No person or hands detected").
    { unfold detect_hand_wrist. rewrite M, R. cbn [bind].
      rewrite pose_results_none; [reflexivity |].
      intros r' kpts' others' Hin K'.
      destruct (Weak r' kpts' others' Hin K') as (lw' & rw' & Hl' & Hr' & Al & Ar).
      rewrite <- T in Al, Ar.
      eapply hand_from_keypoints_rejected; eauto. }
    split; [exact E |].
    rewrite E.
    destruct (after_fallback_cases env image "No person or hands detected")
      as [-> | ->]; reflexivity.
  - intros Hd.
    destruct (detect_hand_wrist_returned env image)
      as [model' results r' kpts' others' d M' R' Hin K' H | | message];
      [| discriminate | discriminate].
    rewrite M in M'. injection M' as <-. rewrite R in R'. injection R' as <-.
    apply hand_from_keypoints_some in H.
    destruct H as (lw' & rw' & Hl' & Hr' & A & _).
    exists r', kpts', others', lw', rw'.
    rewrite !T in A. apply orb_true_iff in A. auto 10.
Qed.

Lemma wrist_threshold_is_strict_witness :
  let env := Samples.env_with (Some (Samples.sees MoreSamples.at_the_threshold)) None
               (Ok (Some Samples.frame_hd)) in
  let weak := Samples.env_with (Some (Samples.sees Samples.weak_wrists)) None
                (Ok (Some Samples.frame_hd)) in
  wrist_accepted (S754_finite false 5404319767592960 (-54)) = false /\
  wrist_accepted (S754_finite false 5404320304463872 (-54)) = true /\
  dict_get (detect_hand_wrist env Samples.frame_hd) "hand_detected"
  = Some (VBool true) /\
  dict_get (detect_hand_wrist env Samples.frame_hd) "confidence"
  = Some (VFloat (S754_finite false 5404320304463872 (-54))) /\
  dict_get (detect_hand_wrist weak Samples.frame_hd) "hand_detected"
  = Some (VBool false).
Proof.
  intros env weak.
  destruct (wrist_threshold_is_strict env Samples.frame_hd
              (Samples.sees MoreSamples.at_the_threshold)
              (mkPoseResult (Some [MoreSamples.at_the_threshold])) []
              MoreSamples.at_the_threshold []
              (mkKeypoint (float_of_Z 1200) (float_of_Z 300)
                 (S754_finite false 5404319767592960 (-54)))
              (mkKeypoint (float_of_Z 100) (float_of_Z 100)
                 (S754_finite false 5404320304463872 (-54)))
              (S754_finite false 5404320304463872 (-54))
              eq_refl eq_refl eq_refl eq_refl eq_refl)
    as (_ & Hw & _ & Ht & _ & Ha & _).
  destruct (wrist_threshold_is_strict weak Samples.frame_hd
              (Samples.sees Samples.weak_wrists)
              (mkPoseResult (Some [Samples.weak_wrists])) []
              Samples.weak_wrists []
              (Samples.keypoint 1200 300 30 100) (Samples.keypoint 100 100 30 100)
              (float_lit 30 100)
              eq_refl eq_refl eq_refl eq_refl eq_refl)
    as (_ & _ & _ & _ & _ & _ & Hb & _).
  split; [exact Ht |].
  split; [apply Hw; vm_compute; reflexivity |].
  eassert (H : hand_from_keypoints 1080 1920 MoreSamples.at_the_threshold = Ok _)
    by (vm_compute; reflexivity).
  destruct (Ha (or_intror (proj2 Hw eq_refl)) _ H) as (_ & Hd & _ & Hc).
  split; [exact Hd |]. split; [exact Hc |].
  apply Hb. intros r' kpts' others' [<- | []] K. simpl in K. injection K as <-.
  exists (Samples.keypoint 1200 300 30 100), (Samples.keypoint 100 100 30 100).
  repeat split; vm_compute; reflexivity.
Defined.

(** The converse: a hand is reported only for a skeleton one of whose
    wrists is accepted. *)
Lemma hand_needs_accepted_wrist (env : Env) (image : Image) :
  dict_get (detect_hand_wrist env image) "hand_detected" = Some (VBool true) ->
  exists model results r kpts others lw rw,
    pose_model env = Some model /\
    model image (float_lit 1 10) (float_lit 5 10) = Ok results /\
    In r results /\ keypoints r = Some (kpts :: others) /\
    nth_error kpts LEFT_WRIST = Some lw /\
    nth_error kpts RIGHT_WRIST = Some rw /\
    wrist_accepted (kp_conf lw) || wrist_accepted (kp_conf rw) = true.
Proof.
  destruct (detect_hand_wrist_returned env image)
    as [model results r kpts others d M R Hin K H | | message];
    [| discriminate | discriminate].
  intros _. apply hand_from_keypoints_some in H.
  destruct H as (lw & rw & Hl & Hr & A & _).
  exists model, results, r, kpts, others, lw, rw. auto 10.
Qed.

(** C4 (as amended).  The left arm is chosen exactly when the confidence
    of the left wrist is greater than that of the right wrist; in every
    other case, equal confidences among them, the right arm is chosen.
    The reported confidence and wrist position are those of the chosen
    wrist. *)
Theorem dominant_arm_is_left_only_when_greater (h w : Z) (kpts : Skeleton)
    (lw rw : Keypoint) (d : dict) :
  nth_error kpts LEFT_WRIST = Some lw ->
  nth_error kpts RIGHT_WRIST = Some rw ->
  hand_from_keypoints h w kpts = Ok (Some d) ->
  let side := select_dominant_arm (kp_conf lw) (kp_conf rw) in
  let wrist := match side with Left => lw | Right => rw end in
  (side = Left <-> fgt (kp_conf lw) (kp_conf rw) = true) /\
  (side = Right <-> fgt (kp_conf lw) (kp_conf rw) = false) /\
  (SFeqb (kp_conf lw) (kp_conf rw) = true -> side = Right) /\
  dict_get d "confidence" = Some (VFloat (kp_conf wrist)) /\
  exists wx wy,
    int_of_float (kp_x wrist) = Ok wx /\
    int_of_float (kp_y wrist) = Ok wy /\
    dict_get d "wrist_position" = Some (VDict [("x", VInt wx); ("y", VInt wy)]).
Proof.
  intros Hl Hr H side wrist.
  apply hand_from_keypoints_some in H.
  destruct H as (lw' & rw' & Hl' & Hr' & _ & wx & wy & cx & cy & Hx & Hy & ->).
  assert (lw' = lw) by congruence. assert (rw' = rw) by congruence. subst lw' rw'.
  assert (T : SFeqb (kp_conf lw) (kp_conf rw) = true ->
              fgt (kp_conf lw) (kp_conf rw) = false).
  { unfold SFeqb, fgt, SFltb. intros E.
    destruct (SFcompare (kp_conf lw) (kp_conf rw)) as [[] |] eqn:C; try discriminate.
    destruct (kp_conf lw) as [[] | [] | | [] ? ?], (kp_conf rw) as [[] | [] | | [] ? ?];
      simpl in C |- *; try discriminate; try reflexivity.
    - destruct (e ?= e0) eqn:Ce; try discriminate.
      apply Z.compare_eq in Ce. subst e0. rewrite Z.compare_refl.
      destruct (Pos.compare_cont Eq m m0) eqn:Cm; try discriminate.
      apply Pos.compare_eq in Cm. subst m0. rewrite Pos.compare_cont_refl. reflexivity.
    - destruct (e ?= e0) eqn:Ce; try discriminate.
      apply Z.compare_eq in Ce. subst e0. rewrite Z.compare_refl.
      destruct (Pos.compare_cont Eq m m0) eqn:Cm; try discriminate.
      apply Pos.compare_eq in Cm. subst m0. rewrite Pos.compare_cont_refl. reflexivity. }
  subst side wrist. unfold select_dominant_arm in *.
  destruct (fgt (kp_conf lw) (kp_conf rw)) eqn:G.
  - repeat split; try congruence; try discriminate.
    + intros E. apply T in E. discriminate.
    + exists wx, wy. auto.
  - repeat split; try congruence; try discriminate.
    exists wx, wy. auto.
Qed.

Lemma dominant_arm_is_left_only_when_greater_witness :
  let env := Samples.env_with (Some (Samples.sees Samples.tied_wrists)) None
               (Ok (Some Samples.frame_hd)) in
  let d := detect_hand_wrist env Samples.frame_hd in
  let lw := Samples.keypoint 1200 300 5 10 in
  let rw := Samples.keypoint 100 100 5 10 in
  let side := select_dominant_arm (kp_conf lw) (kp_conf rw) in
  let wrist := match side with Left => lw | Right => rw end in
  (side = Left <-> fgt (kp_conf lw) (kp_conf rw) = true) /\
  (side = Right <-> fgt (kp_conf lw) (kp_conf rw) = false) /\
  (SFeqb (kp_conf lw) (kp_conf rw) = true -> side = Right) /\
  dict_get d "confidence" = Some (VFloat (kp_conf wrist)) /\
  exists wx wy,
    int_of_float (kp_x wrist) = Ok wx /\
    int_of_float (kp_y wrist) = Ok wy /\
    dict_get d "wrist_position" = Some (VDict [("x", VInt wx); ("y", VInt wy)]).
Proof.
  intros env d lw rw.
  apply (dominant_arm_is_left_only_when_greater 1080 1920 Samples.tied_wrists lw rw d).
  - reflexivity.
  - reflexivity.
  - vm_compute. reflexivity.
Defined.

(** C4 (counterexample).  With both wrists at confidence 0.5 the selection
    is the right arm, not the left one, and the detector reports the
    position of the right wrist. *)
Lemma tie_goes_to_the_right_arm :
  let half := float_lit 5 10 in
  let env := Samples.env_with (Some (Samples.sees Samples.tied_wrists)) None
               (Ok (Some Samples.frame_hd)) in
  SFeqb half half = true /\
  select_dominant_arm half half = Right /\
  select_dominant_arm half half <> Left /\
  dict_get (detect_hand_wrist env Samples.frame_hd) "wrist_position"
    = Some (VDict [("x", VInt 100); ("y", VInt 100)]).
Proof.
  repeat split; try (vm_compute; reflexivity).
  vm_compute. discriminate.
Qed.

(** The two clamps that [derive_hand_region] does apply, and the order of
    the rectangle when the square around the hand centre meets the
    frame. *)
Lemma derive_hand_region_bounds (w h cx cy : Z) :
  exists x_min y_min x_max y_max,
    derive_hand_region w h cx cy
      = [ ("x_min", VInt x_min); ("y_min", VInt y_min);
          ("x_max", VInt x_max); ("y_max", VInt y_max) ] /\
    0 <= x_min /\ x_max <= w /\ 0 <= y_min /\ y_max <= h /\
    (0 <= w -> - box_size <= cx <= w + box_size -> x_min <= x_max) /\
    (0 <= h -> - box_size <= cy <= h + box_size -> y_min <= y_max).
Proof.
  unfold derive_hand_region, box_size.
  do 4 eexists. split; [reflexivity |]. lia.
Qed.

(** C5 (the code at the failing input).  For a wrist at (1900, 540) and an
    elbow at (1100, 540) in a frame of 1920 by 1080 the hand centre is
    (2180, 540): the rectangle starts at 1930, right of the frame and of
    its own end at 1920, and so is not fully clamped. *)
Theorem hand_region_not_clamped :
  let env := Samples.env_with (Some (Samples.sees Samples.reaching_out)) None
               (Ok (Some Samples.frame_hd)) in
  let r := detect_hand_wrist env Samples.frame_hd in
  dict_get r "hand_detected" = Some (VBool true) /\
  dict_get r "hand_bbox"
    = Some (VDict [ ("x_min", VInt 1930); ("y_min", VInt 290);
                    ("x_max", VInt 1920); ("y_max", VInt 790) ]) /\
  ~ fully_clamped 1920 1080
      [ ("x_min", VInt 1930); ("y_min", VInt 290);
        ("x_max", VInt 1920); ("y_max", VInt 790) ].
Proof.
  split; [vm_compute; reflexivity |].
  split; [vm_compute; reflexivity |].
  intros (x_min & y_min & x_max & y_max & E & Hx & _).
  injection E as <- <- <- <-. lia.
Qed.

(* ===================================================================== *)
(** * Properties of the classifier and of the routes                      *)
(* ===================================================================== *)

Import RecyclableWasteClassifier.

(** C1.  When the local classifier is not loaded and the cloud client is
    not configured, [classify] returns the fallback verdict whatever the
    method: Non-Recyclable, Unknown Item, confidence 0.50, method
    fallback. *)
Theorem classify_total_failure (env : Env) (image : Image) (method : string) :
  yolo_classification_model env = None ->
  genai_client env = None ->
  let verdict := Api.classify env image method in
  verdict = get_fallback_classification /\
  dict_get verdict "classification" = Some (VStr "Non-Recyclable") /\
  dict_get verdict "item_name" = Some (VStr "Unknown Item") /\
  dict_get verdict "confidence" = Some (VFloat (float_lit 50 100)) /\
  dict_get verdict "method" = Some (VStr "fallback").
Proof.
  intros Hc Hg verdict.
  assert (E : verdict = get_fallback_classification).
  { subst verdict. unfold Api.classify, classify_with_yolo_model, classify_with_gemini.
    rewrite Hc, Hg. destruct (String.eqb method "model"); reflexivity. }
  rewrite E. repeat split; reflexivity.
Qed.

Lemma classify_total_failure_witness :
  let verdict := Api.classify Samples.no_models Samples.frame_hd "model" in
  verdict = get_fallback_classification /\
  dict_get verdict "classification" = Some (VStr "Non-Recyclable") /\
  dict_get verdict "item_name" = Some (VStr "Unknown Item") /\
  dict_get verdict "confidence" = Some (VFloat (float_lit 50 100)) /\
  dict_get verdict "method" = Some (VStr "fallback").
Proof.
  apply (classify_total_failure Samples.no_models Samples.frame_hd "model");
    reflexivity.
Defined.

(** C9 (as amended).  When the decoder returns no image, the detection
    route returns an ordinary result that says so (no hand, no wrist, no
    object, message Invalid image), and the classify route raises the
    client error 400 Invalid image and leaves the counters as they
    were. *)
Theorem invalid_image_handling (env : Env) (stats : Api.Stats)
    (request : Api.ClassificationRequest) :
  imdecode env (Api.payload (Api.image_base64 request)) = Ok None ->
  Api.detect_hand_wrist env request = Api.Returned Api.invalid_image_result /\
  Api.classify_waste env stats request
    = (stats, Api.HttpError 400 "Invalid image") /\
  is_client_error (snd (Api.classify_waste env stats request)).
Proof.
  intros D.
  assert (C : Api.classify_waste env stats request
              = (stats, Api.HttpError 400 "Invalid image")).
  { unfold Api.classify_waste, Api.classify_waste_body. rewrite D. reflexivity. }
  split.
  - unfold Api.detect_hand_wrist, Api.detect_hand_wrist_body. rewrite D. reflexivity.
  - split; [exact C |]. rewrite C. exists 400, "Invalid image". simpl.
    split; [reflexivity | lia].
Qed.

Lemma invalid_image_handling_witness :
  Api.detect_hand_wrist Samples.undecodable Samples.request
    = Api.Returned Api.invalid_image_result /\
  Api.classify_waste Samples.undecodable Samples.fresh_stats Samples.request
    = (Samples.fresh_stats, Api.HttpError 400 "Invalid image") /\
  is_client_error
    (snd (Api.classify_waste Samples.undecodable Samples.fresh_stats Samples.request)).
Proof.
  apply (invalid_image_handling Samples.undecodable Samples.fresh_stats Samples.request).
  reflexivity.
Defined.

(** C9 (counterexample).  For an input that does not decode, the detection
    route does not answer with a client error, and the classify route
    returns no response at all, fallback or other: it raises. *)
Lemma invalid_image_routes_reversed :
  ~ is_client_error (Api.detect_hand_wrist Samples.undecodable Samples.request) /\
  ~ (exists response,
        snd (Api.classify_waste Samples.undecodable Samples.fresh_stats Samples.request)
        = Api.Returned response).
Proof.
  split.
  - intros (code & detail & H & _). discriminate H.
  - intros (response & H). discriminate H.
Qed.

(* ===================================================================== *)
(** * Properties of the string operations                                 *)
(* ===================================================================== *)

Lemma append_assoc (a b c : string) : (a ++ b) ++ c = a ++ (b ++ c).
Proof.
  induction a as [| x a IH]; simpl; [reflexivity | now rewrite IH].
Qed.

Lemma starts_with_iff (p s : string) :
  starts_with p s = true <-> exists t, s = p ++ t.
Proof.
  revert s. induction p as [| a p IH]; intros s; simpl.
  - split; [intros _; exists s; reflexivity | reflexivity].
  - destruct s as [| b s].
    + split; [discriminate | intros (t & H); discriminate H].
    + rewrite andb_true_iff, Ascii.eqb_eq, IH. split.
      * intros (-> & t & ->). exists t. reflexivity.
      * intros (t & H). injection H as -> ->. split; [reflexivity | eauto].
Qed.

Lemma str_in_iff (p s : string) : str_in p s = true <-> occurs_in p s.
Proof.
  induction s as [| c s IH].
  - simpl. rewrite orb_false_r, starts_with_iff. split.
    + intros (t & H). exists EmptyString, t. exact H.
    + intros ([| x a] & b & H); [exists b; exact H | discriminate H].
  - cbn [str_in]. rewrite orb_true_iff, starts_with_iff, IH. split.
    + intros [(t & H) | (a & b & H)].
      * exists EmptyString, t. exact H.
      * exists (String c a), b. simpl. now rewrite H.
    + intros ([| x a] & b & H).
      * left. exists b. exact H.
      * right. simpl in H. injection H as -> ->. exists a, b. reflexivity.
Qed.

Lemma char_in_iff (c : ascii) (s : string) :
  char_in c s <-> occurs_in (String c EmptyString) s.
Proof.
  induction s as [| x s IH]; simpl.
  - split; [intros [] | intros ([| ? ?] & b & H); discriminate H].
  - rewrite IH. split.
    + intros [-> | (a & b & ->)].
      * exists EmptyString, s. reflexivity.
      * exists (String x a), b. reflexivity.
    + intros ([| y a] & b & H); simpl in H; injection H as -> ->.
      * left. reflexivity.
      * right. exists a, b. reflexivity.
Qed.

Lemma str_in_char (c : ascii) (s : string) :
  str_in (String c EmptyString) s = true <-> char_in c s.
Proof.
  rewrite str_in_iff. symmetry. apply char_in_iff.
Qed.

Lemma char_in_app (c : ascii) (a b : string) :
  char_in c (a ++ b) <-> char_in c a \/ char_in c b.
Proof.
  induction a as [| x a IH]; simpl; [tauto | rewrite IH; tauto].
Qed.






















(* ===================================================================== *)
(** * Properties of the scan over the detected boxes                      *)
(* ===================================================================== *)

Section Scan.

Variable env : Env.
Variable image : Image.

Lemma in_hand_region_region (x_min y_min x_max y_max cx cy : Z) :
  Api.in_hand_region (VDict (region x_min y_min x_max y_max)) cx cy
  = Ok (inside x_min y_min x_max y_max (cx, cy)).
Proof.
  unfold Api.in_hand_region, inside. simpl.
  destruct (x_min <=? cx); simpl; [| reflexivity].
  destruct (cx <=? x_max); simpl; [| reflexivity].
  destruct (y_min <=? cy); simpl; reflexivity.
Qed.

Lemma inside_iff (x_min y_min x_max y_max cx cy : Z) :
  inside x_min y_min x_max y_max (cx, cy) = true
  <-> x_min <= cx <= x_max /\ y_min <= cy <= y_max.
Proof.
  unfold inside. simpl. rewrite !andb_true_iff, !Z.leb_le. tauto.
Qed.

Section Region.

Variables x_min y_min x_max y_max : Z.

Lemma scan_body_region (rd : Api.Reading) (st : Api.ScanState) :
  Api.scan_body env image (VDict (region x_min y_min x_max y_max)) rd st
  = Ok (if held x_min y_min x_max y_max rd
        then (Api.found env image (Api.listed st rd) rd, true)
        else (Api.listed st rd, false)).
Proof.
  unfold Api.scan_body, held.
  destruct (Api.center rd) as [cx cy].
  destruct (Api.is_person (fst (fst rd))); simpl; [reflexivity |].
  rewrite in_hand_region_region. simpl.
  destruct (inside x_min y_min x_max y_max (cx, cy)); reflexivity.
Qed.

(** Boxes that are read and not held are listed and passed over. *)
Lemma scan_flat_passes (pre : list (list (Z * string) * Box))
    (rds : list Api.Reading) (rest : list (list (Z * string) * Box))
    (st : Api.ScanState) :
  Forall2 reads pre rds ->
  Forall (fun rd => held x_min y_min x_max y_max rd = false) rds ->
  scan_flat env image (VDict (region x_min y_min x_max y_max)) (pre ++ rest) st
  = scan_flat env image (VDict (region x_min y_min x_max y_max)) rest
      (fold_left Api.listed rds st).
Proof.
  intros R. revert st. induction R as [| nb rd pre rds Hr R IH]; intros st Hn.
  - reflexivity.
  - inversion Hn as [| ? ? Hrd Hrest]; subst.
    simpl. unfold reads in Hr. rewrite Hr. simpl.
    rewrite scan_body_region, Hrd. simpl. apply IH, Hrest.
Qed.

(** The first box that is read and held ends the scan. *)
Lemma scan_flat_stops (nb : list (Z * string) * Box) (rd : Api.Reading)
    (post : list (list (Z * string) * Box)) (st : Api.ScanState) :
  reads nb rd -> held x_min y_min x_max y_max rd = true ->
  scan_flat env image (VDict (region x_min y_min x_max y_max)) (nb :: post) st
  = Ok (Api.found env image (Api.listed st rd) rd).
Proof.
  intros Hr Hh. simpl. unfold reads in Hr. rewrite Hr. simpl.
  rewrite scan_body_region, Hh. reflexivity.
Qed.

End Region.

Variable hand_bbox : pyval.

Lemma scan_body_flag (rd : Api.Reading) (st st' : Api.ScanState) (stop : bool) :
  Api.scan_body env image hand_bbox rd st = Ok (st', stop) ->
  (stop = false /\ st' = Api.listed st rd)
  \/ (stop = true /\ st' = Api.found env image (Api.listed st rd) rd).
Proof.
  unfold Api.scan_body. destruct (Api.center rd) as [cx cy].
  destruct (Api.is_person (fst (fst rd))).
  - intros H. injection H as <- <-. auto.
  - intros H. bind_inv H. destruct a; injection H as <- <-; auto.
Qed.

Lemma scan_boxes_flat (names : list (Z * string)) (bs : list Box)
    (st : Api.ScanState) :
  Api.scan_boxes env image hand_bbox names bs st
  = scan_flat env image hand_bbox (map (pair names) bs) st.
Proof.
  revert st. induction bs as [| box rest IH]; intros st; simpl; [reflexivity |].
  destruct (Api.read_box names box) as [rd | e]; simpl; [| reflexivity].
  destruct (Api.scan_body env image hand_bbox rd st) as [[st' stop] | e]; simpl;
    [| reflexivity].
  destruct stop; [reflexivity | apply IH].
Qed.

Lemma scan_flat_app (l1 l2 : list (list (Z * string) * Box)) (st : Api.ScanState) :
  Api.object_in_hand st = false ->
  scan_flat env image hand_bbox (l1 ++ l2) st
  = (st1 <- scan_flat env image hand_bbox l1 st ;;
     if Api.object_in_hand st1 then Ok st1
     else scan_flat env image hand_bbox l2 st1).
Proof.
  revert st. induction l1 as [| nb rest IH]; intros st Hst; simpl.
  - now rewrite Hst.
  - destruct (Api.read_box (fst nb) (snd nb)) as [rd | e]; simpl; [| reflexivity].
    destruct (Api.scan_body env image hand_bbox rd st) as [[st' stop] | e] eqn:B;
      simpl; [| reflexivity].
    destruct (scan_body_flag _ _ _ _ B) as [[-> ->] | [-> ->]]; simpl.
    + apply IH. exact Hst.
    + reflexivity.
Qed.

Lemma scan_results_flat (results : list DetResult) (st : Api.ScanState) :
  Api.object_in_hand st = false ->
  Api.scan_results env image hand_bbox results st
  = scan_flat env image hand_bbox (all_boxes results) st.
Proof.
  revert st. induction results as [| r rest IH]; intros st Hst; simpl.
  - reflexivity.
  - destruct (boxes r) as [bs |]; simpl.
    + rewrite scan_flat_app by exact Hst. rewrite scan_boxes_flat.
      destruct (scan_flat env image hand_bbox (map (pair (names r)) bs) st)
        as [st1 | e] eqn:F; simpl; [| reflexivity].
      destruct (Api.object_in_hand st1) eqn:O; [reflexivity |].
      apply IH, O.
    + apply IH, Hst.
Qed.

End Scan.

Lemma detected_objects_listed (rds : list Api.Reading) (st : Api.ScanState) :
  Api.detected_objects (fold_left Api.listed rds st)
  = (Api.detected_objects st ++ map Api.detected_entry rds)%list.
Proof.
  revert st. induction rds as [| rd rest IH]; intros st; simpl.
  - now rewrite app_nil_r.
  - rewrite IH. simpl. now rewrite <- app_assoc.
Qed.

Lemma listed_keeps (rds : list Api.Reading) (st : Api.ScanState) :
  Api.object_in_hand (fold_left Api.listed rds st) = Api.object_in_hand st /\
  Api.object_bbox (fold_left Api.listed rds st) = Api.object_bbox st /\
  Api.cropped_image (fold_left Api.listed rds st) = Api.cropped_image st /\
  Api.max_confidence (fold_left Api.listed rds st) = Api.max_confidence st.
Proof.
  revert st. induction rds as [| rd rest IH]; intros st; simpl; [auto |].
  destruct (IH (Api.listed st rd)) as (-> & -> & -> & ->). auto.
Qed.

Lemma up_to_first_all (f : Api.Reading -> bool) (rds : list Api.Reading) :
  Forall (fun rd => f rd = false) rds -> up_to_first f rds = rds.
Proof.
  induction 1 as [| rd rest Hrd _ IH]; simpl; [reflexivity |].
  now rewrite Hrd, IH.
Qed.

(** When every box can be read, the scan lists the readings up to the
    first held one. *)
Lemma scan_flat_listing (env : Env) (image : Image) (x_min y_min x_max y_max : Z)
    (items : list (list (Z * string) * Box)) (rds : list Api.Reading)
    (st : Api.ScanState) :
  Forall2 reads items rds ->
  exists st',
    scan_flat env image (VDict (region x_min y_min x_max y_max)) items st = Ok st' /\
    Api.detected_objects st'
    = (Api.detected_objects st
       ++ map Api.detected_entry (up_to_first (held x_min y_min x_max y_max) rds))%list.
Proof.
  intros R. revert st. induction R as [| nb rd items rds Hr R IH]; intros st.
  - exists st. simpl. now rewrite app_nil_r.
  - simpl. unfold reads in Hr. rewrite Hr. simpl. rewrite scan_body_region.
    destruct (held x_min y_min x_max y_max rd); simpl.
    + eexists. split; reflexivity.
    + destruct (IH (Api.listed st rd)) as (st' & E1 & E2).
      exists st'. split; [exact E1 |]. rewrite E2. simpl. now rewrite <- app_assoc.
Qed.

(** The route on a frame with a hand, when the detector is loaded and
    answers: the response is the hand result merged with the outcome of
    the scan. *)
Lemma detect_hand_wrist_merged (env : Env) (request : Api.ClassificationRequest)
    (image : Image)
    (predict : Image -> float -> option float -> result (list DetResult))
    (results : list DetResult) :
  imdecode env (Api.payload (Api.image_base64 request)) = Ok (Some image) ->
  dict_get (detect_hand_wrist env image) "hand_detected" = Some (VBool true) ->
  yolo_detection_model env = Some predict ->
  predict image (float_lit 3 10) (Some (float_lit 45 100)) = Ok results ->
  exists x_min y_min x_max y_max position c n,
    detect_hand_wrist env image
    = detected_result true (region x_min y_min x_max y_max) position c n /\
    Api.detect_hand_wrist_body env request
    = (st <- Api.scan_results env image (VDict (region x_min y_min x_max y_max))
               results Api.scan_start ;;
       Ok [ ("hand_detected", VBool true);
            ("wrist_detected", VBool true);
            ("hand_bbox", VDict (region x_min y_min x_max y_max));
            ("wrist_position", VDict position);
            ("confidence",
             if Api.object_in_hand st then VFloat (Api.max_confidence st)
             else VFloat c);
            ("keypoints_count", VInt n);
            ("message",
             VStr (if Api.object_in_hand st
                   then "Hand, wrist, and object detected"
                   else "Hand/wrist detected, waiting for object"));
            ("method", VStr "pose");
            ("object_in_hand", VBool (Api.object_in_hand st));
            ("cropped_image", Api.cropped_image st);
            ("object_bbox", Api.object_bbox st);
            ("detected_objects", VList (Api.detected_objects st)) ]).
Proof.
  intros D Hh M P.
  pose proof (detect_hand_wrist_returned env image) as R.
  remember (detect_hand_wrist env image) as hr eqn:Ehr.
  destruct R as [model rs r kpts others d _ _ _ _ H | | message];
    [| discriminate Hh | discriminate Hh].
  apply hand_from_keypoints_some in H.
  destruct H as (lw & rw & _ & _ & _ & wx & wy & cx & cy & _ & _ & E).
  unfold derive_hand_region in E. fold (region (Z.max 0 (cx - box_size))
    (Z.max 0 (cy - box_size)) (Z.min (width image) (cx + box_size))
    (Z.min (height image) (cy + box_size))) in E.
  do 7 eexists. split; [exact E |].
  unfold Api.detect_hand_wrist_body. rewrite D. simpl. rewrite <- Ehr, E. simpl.
  rewrite M, P. simpl.
  destruct (Api.scan_results _ _ _ _ _) as [st | e]; simpl; [| reflexivity].
  destruct (Api.object_in_hand st); reflexivity.
Qed.

(** What [held] tests, written out: the class is not [person] in any
    case of letters, and the centre of the box, by floor division, lies
    in the rectangle, the border included. *)
Lemma held_iff (x_min y_min x_max y_max : Z) (class_name : string)
    (confidence : float) (x1 y1 x2 y2 : Z) :
  held x_min y_min x_max y_max (class_name, confidence, (x1, y1, x2, y2)) = true
  <-> str_lower class_name <> "person" /\
      x_min <= (x1 + x2) / 2 <= x_max /\ y_min <= (y1 + y2) / 2 <= y_max.
Proof.
  unfold held, Api.is_person, Api.center. cbn [fst snd].
  rewrite andb_true_iff, negb_true_iff, inside_iff, String.eqb_neq. tauto.
Qed.

Lemma passed_not_held (x_min y_min x_max y_max : Z) (rds : list Api.Reading) :
  Forall (fun rd : Api.Reading =>
            let '(class_name, _, (x1, y1, x2, y2)) := rd in
            str_lower class_name = "person" \/
            ~ (x_min <= (x1 + x2) / 2 <= x_max /\
               y_min <= (y1 + y2) / 2 <= y_max)) rds ->
  Forall (fun rd => held x_min y_min x_max y_max rd = false) rds.
Proof.
  intros H. eapply Forall_impl; [| exact H].
  intros [[class_name confidence] [[[x1 y1] x2] y2]] P.
  destruct (held x_min y_min x_max y_max (class_name, confidence, (x1, y1, x2, y2)))
    eqn:E; [| reflexivity].
  apply held_iff in E. tauto.
Qed.

(** What the loop body reads from a box, written out. *)
Lemma reads_box (names : list (Z * string)) (box : Box) (class_id : Z)
    (class_name : string) (a1 b1 a2 b2 : float) (x1 y1 x2 y2 : Z) :
  int_of_float (cls box) = Ok class_id ->
  names_get names class_id = Ok class_name ->
  xyxy box = (a1, b1, a2, b2) ->
  int_of_float a1 = Ok x1 -> int_of_float b1 = Ok y1 ->
  int_of_float a2 = Ok x2 -> int_of_float b2 = Ok y2 ->
  reads (names, box) (class_name, conf box, (x1, y1, x2, y2)).
Proof.
  intros C N X A1 B1 A2 B2.
  unfold reads, Api.read_box, box_class_name, box_corners. cbn [fst snd].
  rewrite C. cbn [bind]. rewrite N. cbn [bind].
  rewrite X, A1, B1, A2, B2. reflexivity.
Qed.

(** The scan when every box is passed over, and when a box is held after
    boxes that are passed over. *)
Lemma scan_results_passes (env : Env) (image : Image) (x_min y_min x_max y_max : Z)
    (results : list DetResult) (rds : list Api.Reading) :
  Forall2 reads (all_boxes results) rds ->
  Forall (fun rd => held x_min y_min x_max y_max rd = false) rds ->
  Api.scan_results env image (VDict (region x_min y_min x_max y_max)) results
    Api.scan_start
  = Ok (fold_left Api.listed rds Api.scan_start).
Proof.
  intros R N. rewrite scan_results_flat by reflexivity.
  rewrite <- (app_nil_r (all_boxes results)).
  rewrite (scan_flat_passes _ _ _ _ _ _ _ _ _ _ R N). reflexivity.
Qed.

Lemma scan_results_finds (env : Env) (image : Image) (x_min y_min x_max y_max : Z)
    (results : list DetResult) (pre : list (list (Z * string) * Box))
    (rds : list Api.Reading) (nb : list (Z * string) * Box)
    (post : list (list (Z * string) * Box)) (rd : Api.Reading) :
  all_boxes results = (pre ++ nb :: post)%list ->
  Forall2 reads pre rds ->
  Forall (fun rd => held x_min y_min x_max y_max rd = false) rds ->
  reads nb rd ->
  held x_min y_min x_max y_max rd = true ->
  Api.scan_results env image (VDict (region x_min y_min x_max y_max)) results
    Api.scan_start
  = Ok (Api.found env image
          (Api.listed (fold_left Api.listed rds Api.scan_start) rd) rd).
Proof.
  intros E R N Hr Hh. rewrite scan_results_flat by reflexivity. rewrite E.
  rewrite (scan_flat_passes _ _ _ _ _ _ _ _ _ _ R N).
  apply scan_flat_stops; assumption.
Qed.

(** C6.  The scan goes through the boxes in the order of the detector.
    A box whose class is [person], or whose centre
    [((x1 + x2) // 2, (y1 + y2) // 2)] lies outside the hand region, is
    listed and passed over.  The first other box, one whose centre has
    [x_min <= cx <= x_max] and [y_min <= cy <= y_max], the border of the
    region included, sets [object_in_hand], has its corners, class and
    confidence recorded in [object_bbox], and ends the scan: the boxes
    after it are neither tested nor listed, whatever they are.  A box
    whose centre is outside the region, be it by one pixel, sets
    nothing. *)
Theorem first_match_in_hand (env : Env) (image : Image)
    (x_min y_min x_max y_max : Z) (results : list DetResult)
    (pre : list (list (Z * string) * Box)) (rds : list Api.Reading) :
  Forall2 reads pre rds ->
  Forall (fun rd : Api.Reading =>
            let '(class_name, _, (x1, y1, x2, y2)) := rd in
            str_lower class_name = "person" \/
            ~ (x_min <= (x1 + x2) / 2 <= x_max /\
               y_min <= (y1 + y2) / 2 <= y_max)) rds ->
  let hand_bbox :=
    VDict [ ("x_min", VInt x_min); ("y_min", VInt y_min);
            ("x_max", VInt x_max); ("y_max", VInt y_max) ] in
  (all_boxes results = pre ->
   exists st,
     Api.scan_results env image hand_bbox results Api.scan_start = Ok st /\
     Api.object_in_hand st = false /\
     Api.object_bbox st = VNone /\
     Api.cropped_image st = VNone /\
     Api.detected_objects st = map Api.detected_entry rds) /\
  (forall names box post class_id class_name a1 b1 a2 b2 x1 y1 x2 y2,
      all_boxes results = (pre ++ (names, box) :: post)%list ->
      int_of_float (cls box) = Ok class_id ->
      names_get names class_id = Ok class_name ->
      xyxy box = (a1, b1, a2, b2) ->
      int_of_float a1 = Ok x1 -> int_of_float b1 = Ok y1 ->
      int_of_float a2 = Ok x2 -> int_of_float b2 = Ok y2 ->
      str_lower class_name <> "person" ->
      x_min <= (x1 + x2) / 2 <= x_max ->
      y_min <= (y1 + y2) / 2 <= y_max ->
      exists st,
        Api.scan_results env image hand_bbox results Api.scan_start = Ok st /\
        Api.object_in_hand st = true /\
        Api.object_bbox st
        = VDict [ ("x_min", VInt x1); ("y_min", VInt y1);
                  ("x_max", VInt x2); ("y_max", VInt y2);
                  ("class", VStr class_name);
                  ("confidence", VFloat (conf box)) ] /\
        Api.detected_objects st
        = (map Api.detected_entry rds
           ++ [ VDict [ ("class", VStr class_name);
                        ("confidence", VFloat (conf box));
                        ("bbox", VList [VInt x1; VInt y1; VInt x2; VInt y2]) ] ])%list) /\
  (forall names box class_id class_name a1 b1 a2 b2 x1 y1 x2 y2,
      all_boxes results = (pre ++ [(names, box)])%list ->
      int_of_float (cls box) = Ok class_id ->
      names_get names class_id = Ok class_name ->
      xyxy box = (a1, b1, a2, b2) ->
      int_of_float a1 = Ok x1 -> int_of_float b1 = Ok y1 ->
      int_of_float a2 = Ok x2 -> int_of_float b2 = Ok y2 ->
      (x1 + x2) / 2 = x_min - 1 \/ (x1 + x2) / 2 = x_max + 1 \/
      (y1 + y2) / 2 = y_min - 1 \/ (y1 + y2) / 2 = y_max + 1 ->
      exists st,
        Api.scan_results env image hand_bbox results Api.scan_start = Ok st /\
        Api.object_in_hand st = false /\
        Api.object_bbox st = VNone).
Proof.
  intros R N hand_bbox.
  change hand_bbox with (VDict (region x_min y_min x_max y_max)).
  pose proof (passed_not_held _ _ _ _ _ N) as N'.
  split; [| split].
  - intros E. rewrite <- E in R.
    rewrite (scan_results_passes env image _ _ _ _ _ _ R N').
    eexists. split; [reflexivity |].
    destruct (listed_keeps rds Api.scan_start) as (-> & -> & -> & _).
    rewrite detected_objects_listed. repeat split.
  - intros names box post class_id class_name a1 b1 a2 b2 x1 y1 x2 y2
           E C Nm X A1 B1 A2 B2 P Hx Hy.
    pose proof (reads_box _ _ _ _ _ _ _ _ _ _ _ _ C Nm X A1 B1 A2 B2) as Hr.
    assert (Hh : held x_min y_min x_max y_max
                   (class_name, conf box, (x1, y1, x2, y2)) = true)
      by (apply held_iff; auto).
    rewrite (scan_results_finds env image _ _ _ _ _ _ _ _ _ _ E R N' Hr Hh).
    eexists. split; [reflexivity |].
    cbn [Api.found Api.listed Api.object_in_hand Api.object_bbox
         Api.detected_objects Api.object_entry Api.detected_entry].
    rewrite detected_objects_listed. repeat split.
  - intros names box class_id class_name a1 b1 a2 b2 x1 y1 x2 y2
           E C Nm X A1 B1 A2 B2 Out.
    pose proof (reads_box _ _ _ _ _ _ _ _ _ _ _ _ C Nm X A1 B1 A2 B2) as Hr.
    assert (Hh : held x_min y_min x_max y_max
                   (class_name, conf box, (x1, y1, x2, y2)) = false).
    { destruct (held x_min y_min x_max y_max (class_name, conf box, (x1, y1, x2, y2)))
        eqn:H; [| reflexivity].
      apply held_iff in H. lia. }
    assert (R' : Forall2 reads (all_boxes results)
                   (rds ++ [(class_name, conf box, (x1, y1, x2, y2))])).
    { rewrite E. apply Forall2_app; [exact R | constructor; [exact Hr | constructor]]. }
    assert (N'' : Forall (fun rd => held x_min y_min x_max y_max rd = false)
                    (rds ++ [(class_name, conf box, (x1, y1, x2, y2))])).
    { apply Forall_app. split; [exact N' | constructor; [exact Hh | constructor]]. }
    rewrite (scan_results_passes env image _ _ _ _ _ _ R' N'').
    eexists. split; [reflexivity |].
    destruct (listed_keeps (rds ++ [(class_name, conf box, (x1, y1, x2, y2))])
                Api.scan_start) as (-> & -> & _).
    split; reflexivity.
Qed.

Lemma first_match_in_hand_witness :
  exists st,
    Api.scan_results Samples.holding_env Samples.frame_hd
      (VDict [ ("x_min", VInt 650); ("y_min", VInt 50);
               ("x_max", VInt 885); ("y_max", VInt 550) ])
      Samples.three_boxes Api.scan_start = Ok st /\
    Api.object_in_hand st = true /\
    Api.object_bbox st
    = VDict [ ("x_min", VInt 600); ("y_min", VInt 300);
              ("x_max", VInt 700); ("y_max", VInt 400);
              ("class", VStr "bottle");
              ("confidence", VFloat (conf Samples.bottle_box)) ] /\
    Api.detected_objects st
    = (map Api.detected_entry [Samples.person_reading]
       ++ [ VDict [ ("class", VStr "bottle");
                    ("confidence", VFloat (conf Samples.bottle_box));
                    ("bbox", VList [VInt 600; VInt 300; VInt 700; VInt 400]) ] ])%list.
Proof.
  refine (proj1 (proj2
            (first_match_in_hand Samples.holding_env Samples.frame_hd
               650 50 885 550 Samples.three_boxes
               [(Samples.coco_names, Samples.person_box)]
               [Samples.person_reading] _ _))
            Samples.coco_names Samples.bottle_box
            [(Samples.coco_names, Samples.cup_box)]
            39 "bottle" (float_of_Z 600) (float_of_Z 300)
            (float_of_Z 700) (float_of_Z 400) 600 300 700 400
            _ _ _ _ _ _ _ _ _ _ _).
  - constructor; [vm_compute; reflexivity | constructor].
  - constructor; [left; reflexivity | constructor].
  - reflexivity.
  - vm_compute. reflexivity.
  - reflexivity.
  - reflexivity.
  - vm_compute. reflexivity.
  - vm_compute. reflexivity.
  - vm_compute. reflexivity.
  - vm_compute. reflexivity.
  - discriminate.
  - cbn. lia.
  - cbn. lia.
Defined.

(** C8 (as amended).  For a frame in which a hand and a wrist were
    detected, when the detector is loaded and answers with boxes that can
    be read, the response has a [detected_objects] list that holds, in the
    order of the detector, the boxes up to the first one found in the hand,
    that one included.  It holds every box when none is in the hand. *)
Theorem detected_objects_up_to_match (env : Env)
    (request : Api.ClassificationRequest) (image : Image)
    (predict : Image -> float -> option float -> result (list DetResult))
    (results : list DetResult) (rds : list Api.Reading) :
  imdecode env (Api.payload (Api.image_base64 request)) = Ok (Some image) ->
  dict_get (detect_hand_wrist env image) "hand_detected" = Some (VBool true) ->
  yolo_detection_model env = Some predict ->
  predict image (float_lit 3 10) (Some (float_lit 45 100)) = Ok results ->
  Forall2 reads (all_boxes results) rds ->
  exists x_min y_min x_max y_max body,
    dict_get (detect_hand_wrist env image) "wrist_detected" = Some (VBool true) /\
    dict_get (detect_hand_wrist env image) "hand_bbox"
    = Some (VDict (region x_min y_min x_max y_max)) /\
    Api.detect_hand_wrist env request = Api.Returned body /\
    dict_get body "detected_objects"
    = Some (VList (map Api.detected_entry
                     (up_to_first (held x_min y_min x_max y_max) rds))) /\
    (Forall (fun rd => held x_min y_min x_max y_max rd = false) rds ->
     dict_get body "detected_objects" = Some (VList (map Api.detected_entry rds))).
Proof.
  intros D Hh M P R.
  destruct (detect_hand_wrist_merged env request image predict results D Hh M P)
    as (x_min & y_min & x_max & y_max & position & c & n & E & B).
  destruct (scan_flat_listing env image x_min y_min x_max y_max _ _ Api.scan_start R)
    as (st & S & L).
  rewrite <- scan_results_flat in S by reflexivity.
  rewrite S in B. simpl in B, L.
  eexists x_min, y_min, x_max, y_max, _.
  rewrite E. split; [reflexivity |]. split; [reflexivity |].
  unfold Api.detect_hand_wrist. rewrite B. split; [reflexivity |].
  assert (G : forall v, dict_get
     [("hand_detected", VBool true); ("wrist_detected", VBool true);
      ("hand_bbox", VDict (region x_min y_min x_max y_max));
      ("wrist_position", VDict position);
      ("confidence", v);
      ("keypoints_count", VInt n);
      ("message",
       VStr (if Api.object_in_hand st
             then "Hand, wrist, and object detected"
             else "Hand/wrist detected, waiting for object"));
      ("method", VStr "pose");
      ("object_in_hand", VBool (Api.object_in_hand st));
      ("cropped_image", Api.cropped_image st);
      ("object_bbox", Api.object_bbox st);
      ("detected_objects", VList (Api.detected_objects st))] "detected_objects"
     = Some (VList (Api.detected_objects st))) by reflexivity.
  rewrite G, L. split; [reflexivity |].
  intros N. now rewrite up_to_first_all.
Qed.

Lemma detected_objects_up_to_match_witness :
  exists x_min y_min x_max y_max body,
    dict_get (detect_hand_wrist Samples.holding_env Samples.frame_hd) "wrist_detected"
    = Some (VBool true) /\
    dict_get (detect_hand_wrist Samples.holding_env Samples.frame_hd) "hand_bbox"
    = Some (VDict (region x_min y_min x_max y_max)) /\
    Api.detect_hand_wrist Samples.holding_env Samples.request = Api.Returned body /\
    dict_get body "detected_objects"
    = Some (VList (map Api.detected_entry
                     (up_to_first (held x_min y_min x_max y_max)
                        [Samples.person_reading; Samples.bottle_reading;
                         Samples.cup_reading]))) /\
    (Forall (fun rd => held x_min y_min x_max y_max rd = false)
       [Samples.person_reading; Samples.bottle_reading; Samples.cup_reading] ->
     dict_get body "detected_objects"
     = Some (VList (map Api.detected_entry
                      [Samples.person_reading; Samples.bottle_reading;
                       Samples.cup_reading]))).
Proof.
  apply (detected_objects_up_to_match Samples.holding_env Samples.request
           Samples.frame_hd (fun _ _ _ => Ok Samples.three_boxes)
           Samples.three_boxes).
  - reflexivity.
  - vm_compute. reflexivity.
  - reflexivity.
  - reflexivity.
  - repeat constructor; vm_compute; reflexivity.
Defined.

(** C8 (counterexample).  The detector returns a person, a bottle in the
    hand and a cup; the response lists the person and the bottle only, so
    it does not list every box. *)
Lemma detected_objects_stop_at_match :
  exists body,
    Api.detect_hand_wrist Samples.holding_env Samples.request = Api.Returned body /\
    dict_get body "detected_objects"
    = Some (VList (map Api.detected_entry
                     [Samples.person_reading; Samples.bottle_reading])) /\
    ~ lists_every_box body Samples.three_boxes.
Proof.
  eexists. split; [vm_compute; reflexivity |].
  split; [vm_compute; reflexivity |].
  intros (l & Hl & Hall).
  vm_compute in Hl. injection Hl as <-.
  specialize (Hall (Samples.coco_names, Samples.cup_box) Samples.cup_reading).
  assert (H : In (Api.detected_entry Samples.cup_reading)
                 (map Api.detected_entry
                    [Samples.person_reading; Samples.bottle_reading])).
  { apply Hall; [simpl; auto | vm_compute; reflexivity]. }
  simpl in H. destruct H as [H | [H | []]]; discriminate H.
Qed.

(** C10.  In the merged response of a frame with a hand, the
    [confidence] key depends on the scan.  When every box is passed over
    (a person, or a centre outside the hand region), no object is
    reported and [confidence] is the confidence of the hand detection,
    unchanged.  When a box that is not a person has its centre in the
    hand region, after boxes that are passed over, the object is
    reported and [confidence] is [max(0.0, c)] for the detection
    confidence [c] of that box, in place of the confidence of the wrist:
    it is [c] itself for every confidence above zero, as the confidences
    of a detector are. *)
Theorem merged_confidence (env : Env) (request : Api.ClassificationRequest)
    (image : Image)
    (predict : Image -> float -> option float -> result (list DetResult))
    (results : list DetResult) (x_min y_min x_max y_max : Z)
    (wrist_confidence : float)
    (pre : list (list (Z * string) * Box)) (rds : list Api.Reading) :
  imdecode env (Api.payload (Api.image_base64 request)) = Ok (Some image) ->
  dict_get (detect_hand_wrist env image) "hand_detected" = Some (VBool true) ->
  dict_get (detect_hand_wrist env image) "hand_bbox"
  = Some (VDict [ ("x_min", VInt x_min); ("y_min", VInt y_min);
                  ("x_max", VInt x_max); ("y_max", VInt y_max) ]) ->
  dict_get (detect_hand_wrist env image) "confidence"
  = Some (VFloat wrist_confidence) ->
  yolo_detection_model env = Some predict ->
  predict image (float_lit 3 10) (Some (float_lit 45 100)) = Ok results ->
  Forall2 reads pre rds ->
  Forall (fun rd : Api.Reading =>
            let '(class_name, _, (x1, y1, x2, y2)) := rd in
            str_lower class_name = "person" \/
            ~ (x_min <= (x1 + x2) / 2 <= x_max /\
               y_min <= (y1 + y2) / 2 <= y_max)) rds ->
  (all_boxes results = pre ->
   exists body,
     Api.detect_hand_wrist env request = Api.Returned body /\
     dict_get body "object_in_hand" = Some (VBool false) /\
     dict_get body "object_bbox" = Some VNone /\
     dict_get body "confidence" = Some (VFloat wrist_confidence)) /\
  (forall names box post class_id class_name a1 b1 a2 b2 x1 y1 x2 y2,
      all_boxes results = (pre ++ (names, box) :: post)%list ->
      int_of_float (cls box) = Ok class_id ->
      names_get names class_id = Ok class_name ->
      xyxy box = (a1, b1, a2, b2) ->
      int_of_float a1 = Ok x1 -> int_of_float b1 = Ok y1 ->
      int_of_float a2 = Ok x2 -> int_of_float b2 = Ok y2 ->
      str_lower class_name <> "person" ->
      x_min <= (x1 + x2) / 2 <= x_max ->
      y_min <= (y1 + y2) / 2 <= y_max ->
      exists body,
        Api.detect_hand_wrist env request = Api.Returned body /\
        dict_get body "object_in_hand" = Some (VBool true) /\
        dict_get body "object_bbox"
        = Some (VDict [ ("x_min", VInt x1); ("y_min", VInt y1);
                        ("x_max", VInt x2); ("y_max", VInt y2);
                        ("class", VStr class_name);
                        ("confidence", VFloat (conf box)) ]) /\
        dict_get body "confidence"
        = Some (VFloat (if SFltb (S754_zero false) (conf box)
                        then conf box else S754_zero false)) /\
        (SFltb (S754_zero false) (conf box) = true ->
         dict_get body "confidence" = Some (VFloat (conf box)))).
Proof.
  intros D Hh Hb Hc M P R N.
  destruct (detect_hand_wrist_merged env request image predict results D Hh M P)
    as (x_min' & y_min' & x_max' & y_max' & position & c & n & E & B).
  rewrite E in Hb, Hc. cbn in Hb, Hc.
  injection Hb as <- <- <- <-. injection Hc as <-.
  pose proof (passed_not_held _ _ _ _ _ N) as N'.
  unfold Api.detect_hand_wrist. rewrite B. split.
  - intros Eb. rewrite <- Eb in R.
    rewrite (scan_results_passes env image _ _ _ _ _ _ R N'). cbn [bind].
    destruct (listed_keeps rds Api.scan_start) as (K1 & K2 & _).
    rewrite K1, K2. eexists. split; [reflexivity |]. repeat split.
  - intros names box post class_id class_name a1 b1 a2 b2 x1 y1 x2 y2
           Eb C Nm X A1 B1 A2 B2 Pn Hx Hy.
    pose proof (reads_box _ _ _ _ _ _ _ _ _ _ _ _ C Nm X A1 B1 A2 B2) as Hr.
    assert (Hd : held x_min' y_min' x_max' y_max'
                   (class_name, conf box, (x1, y1, x2, y2)) = true)
      by (apply held_iff; auto).
    rewrite (scan_results_finds env image _ _ _ _ _ _ _ _ _ _ Eb R N' Hr Hd).
    cbn [bind Api.found Api.object_in_hand Api.object_bbox Api.max_confidence
         Api.listed Api.object_entry fst snd].
    destruct (listed_keeps rds Api.scan_start) as (_ & _ & _ & K4).
    rewrite K4. cbn [Api.scan_start Api.max_confidence].
    unfold py_max, fgt, zero.
    eexists. split; [reflexivity |].
    split; [reflexivity |]. split; [reflexivity |]. split; [reflexivity |].
    intros Pos. cbn [dict_get String.eqb Ascii.eqb Bool.eqb]. rewrite Pos. reflexivity.
Qed.

Lemma merged_confidence_witness :
  exists body,
    Api.detect_hand_wrist Samples.holding_env Samples.request = Api.Returned body /\
    dict_get body "object_in_hand" = Some (VBool true) /\
    dict_get body "object_bbox"
    = Some (VDict [ ("x_min", VInt 600); ("y_min", VInt 300);
                    ("x_max", VInt 700); ("y_max", VInt 400);
                    ("class", VStr "bottle");
                    ("confidence", VFloat (conf Samples.bottle_box)) ]) /\
    dict_get body "confidence"
    = Some (VFloat (if SFltb (S754_zero false) (conf Samples.bottle_box)
                    then conf Samples.bottle_box else S754_zero false)) /\
    (SFltb (S754_zero false) (conf Samples.bottle_box) = true ->
     dict_get body "confidence" = Some (VFloat (conf Samples.bottle_box))).
Proof.
  refine (proj2
            (merged_confidence Samples.holding_env Samples.request Samples.frame_hd
               (fun _ _ _ => Ok Samples.three_boxes) Samples.three_boxes
               385 50 885 550 (float_lit 9 10)
               [(Samples.coco_names, Samples.person_box)]
               [Samples.person_reading] _ _ _ _ _ _ _ _)
            Samples.coco_names Samples.bottle_box
            [(Samples.coco_names, Samples.cup_box)]
            39 "bottle" (float_of_Z 600) (float_of_Z 300)
            (float_of_Z 700) (float_of_Z 400) 600 300 700 400
            _ _ _ _ _ _ _ _ _ _ _).
  - reflexivity.
  - vm_compute. reflexivity.
  - vm_compute. reflexivity.
  - vm_compute. reflexivity.
  - reflexivity.
  - reflexivity.
  - constructor; [vm_compute; reflexivity | constructor].
  - constructor; [left; reflexivity | constructor].
  - reflexivity.
  - vm_compute. reflexivity.
  - reflexivity.
  - reflexivity.
  - vm_compute. reflexivity.
  - vm_compute. reflexivity.
  - vm_compute. reflexivity.
  - vm_compute. reflexivity.
  - discriminate.
  - cbn. lia.
  - cbn. lia.
Defined.

(* ===================================================================== *)
(** * Further properties of the hand and wrist detector                   *)
(* ===================================================================== *)

Lemma fallback_boxes_flat (names : list (Z * string)) (bs : list Box) :
  fallback_boxes names bs = fallback_flat (map (pair names) bs).
Proof.
  induction bs as [| box rest IH]; simpl; [reflexivity |].
  destruct (box_class_name names box) as [cn | e]; simpl; [| reflexivity].
  destruct (String.eqb (str_lower cn) "person"); [reflexivity | exact IH].
Qed.

Lemma fallback_flat_app (l1 l2 : list (list (Z * string) * Box)) :
  fallback_flat (l1 ++ l2)
  = (found <- fallback_flat l1 ;;
     match found with
     | Some d => Ok (Some d)
     | None => fallback_flat l2
     end).
Proof.
  induction l1 as [| nb rest IH]; simpl.
  - destruct (fallback_flat l2) as [[d |] | e]; reflexivity.
  - destruct (box_class_name (fst nb) (snd nb)) as [cn | e]; simpl; [| reflexivity].
    destruct (String.eqb (str_lower cn) "person"); [| exact IH].
    destruct (box_corners (snd nb)); reflexivity.
Qed.

Lemma fallback_results_flat (results : list DetResult) :
  fallback_results results = fallback_flat (all_boxes results).
Proof.
  induction results as [| r rest IH]; simpl; [reflexivity |].
  destruct (boxes r) as [bs |]; simpl; [| exact IH].
  rewrite fallback_flat_app, fallback_boxes_flat, IH. reflexivity.
Qed.

Lemma fallback_flat_passes (pre rest : list (list (Z * string) * Box)) :
  Forall named_other pre ->
  fallback_flat (pre ++ rest) = fallback_flat rest.
Proof.
  induction 1 as [| nb pre (cn & Hn & Hp) _ IH]; simpl; [reflexivity |].
  rewrite Hn. simpl. unfold Api.is_person in Hp. rewrite Hp. exact IH.
Qed.

(** X1.  The fallback goes through the boxes of the detector in order.
    While it meets boxes that it can name and that are not persons it goes
    on; without any person it returns nothing; the first person decides:
    the fallback result when the corners of that box convert to integers,
    and nothing when they do not. *)
Theorem fallback_first_person_decides (env : Env) (image : Image)
    (predict : Image -> float -> option float -> result (list DetResult))
    (results : list DetResult) (pre : list (list (Z * string) * Box)) :
  yolo_detection_model env = Some predict ->
  predict image (float_lit 15 100) None = Ok results ->
  Forall named_other pre ->
  (all_boxes results = pre -> detect_person_fallback env image = None) /\
  (forall nb post class_name,
      all_boxes results = (pre ++ nb :: post)%list ->
      box_class_name (fst nb) (snd nb) = Ok class_name ->
      Api.is_person class_name = true ->
      (forall corners,
          box_corners (snd nb) = Ok corners ->
          detect_person_fallback env image = Some fallback_failed_result) /\
      (forall e,
          box_corners (snd nb) = Raise e ->
          detect_person_fallback env image = None)).
Proof.
  intros M P N.
  assert (E : forall rest,
             all_boxes results = (pre ++ rest)%list ->
             detect_person_fallback env image
             = match fallback_flat rest with Ok found => found | Raise _ => None end).
  { intros rest A. unfold detect_person_fallback. rewrite M, P. cbn [bind].
    rewrite fallback_results_flat, A, (fallback_flat_passes _ _ N). reflexivity. }
  split.
  - intros A. rewrite (E []); [reflexivity | now rewrite app_nil_r].
  - intros nb post cn A Hn Hp. rewrite (E _ A). simpl. rewrite Hn. simpl.
    unfold Api.is_person in Hp. rewrite Hp.
    split; [intros corners -> | intros e ->]; reflexivity.
Qed.

Lemma fallback_first_person_decides_witness :
  detect_person_fallback Samples.holding_env Samples.frame_hd
  = Some fallback_failed_result.
Proof.
  refine (proj1 (proj2
            (fallback_first_person_decides Samples.holding_env Samples.frame_hd
               (fun _ _ _ => Ok Samples.three_boxes) Samples.three_boxes []
               _ _ _)
            (Samples.coco_names, Samples.person_box)
            [(Samples.coco_names, Samples.bottle_box);
             (Samples.coco_names, Samples.cup_box)]
            "person" _ _ _) (0, 0, 1000, 700) _).
  - reflexivity.
  - reflexivity.
  - constructor.
  - reflexivity.
  - vm_compute. reflexivity.
  - vm_compute. reflexivity.
  - vm_compute. reflexivity.
Defined.

Lemma kpts_index_short (kpts : Skeleton) (i : nat) :
  (List.length kpts <= i)%nat ->
  kpts_index kpts i
  = Raise (PyException "IndexError"
             ("index " ++ string_of_Z (Z.of_nat i)
              ++ " is out of bounds for axis 0 with size "
              ++ string_of_Z (Z.of_nat (List.length kpts)))).
Proof.
  intros H. unfold kpts_index.
  destruct (nth_error kpts i) eqn:E; [| reflexivity].
  assert (i < List.length kpts)%nat by (apply nth_error_Some; congruence). lia.
Qed.

(** X2.  A first skeleton with fewer than eleven keypoints stops the pose
    path: the index error is caught, later pose results are not looked
    at, and the detector answers with the fallback or with a result that
    carries the text of the error; it reports no hand. *)
Theorem short_skeleton_is_swallowed (env : Env) (image : Image)
    (model : Image -> float -> float -> result (list PoseResult))
    (r : PoseResult) (rest : list PoseResult)
    (kpts : Skeleton) (others : list Skeleton) :
  pose_model env = Some model ->
  model image (float_lit 1 10) (float_lit 5 10) = Ok (r :: rest) ->
  keypoints r = Some (kpts :: others) ->
  (List.length kpts <= 10)%nat ->
  let missing := if (List.length kpts <=? 9)%nat then 9 else 10 in
  detect_hand_wrist env image
  = after_fallback env image
      ("Error: index " ++ string_of_Z missing
       ++ " is out of bounds for axis 0 with size "
       ++ string_of_Z (Z.of_nat (List.length kpts))) /\
  dict_get (detect_hand_wrist env image) "hand_detected" = Some (VBool false).
Proof.
  intros M R K L missing.
  assert (E : detect_hand_wrist env image
              = after_fallback env image
                  ("Error: index " ++ string_of_Z missing
                   ++ " is out of bounds for axis 0 with size "
                   ++ string_of_Z (Z.of_nat (List.length kpts)))).
  { unfold detect_hand_wrist. rewrite M, R. cbn [bind pose_results]. rewrite K.
    unfold hand_from_keypoints. subst missing.
    destruct (Nat.leb_spec (List.length kpts) 9) as [H9 | H9].
    - rewrite (kpts_index_short kpts LEFT_WRIST) by exact H9. reflexivity.
    - destruct (nth_error kpts LEFT_WRIST) as [k |] eqn:N.
      + unfold kpts_index at 1. rewrite N. cbn [bind].
        rewrite (kpts_index_short kpts RIGHT_WRIST) by exact L. reflexivity.
      + apply nth_error_None in N. unfold LEFT_WRIST in N. lia. }
  split; [exact E |]. rewrite E.
  match goal with
  | |- context [after_fallback env image ?m] =>
      destruct (after_fallback_cases env image m) as [-> | ->]; reflexivity
  end.
Qed.

Lemma short_skeleton_is_swallowed_witness :
  let env := Samples.env_with
               (Some (fun _ _ _ =>
                        Ok [ mkPoseResult (Some [[Samples.unseen; Samples.unseen]]);
                             mkPoseResult (Some [Samples.holding]) ]))
               None (Ok (Some Samples.frame_hd)) in
  detect_hand_wrist env Samples.frame_hd
  = after_fallback env Samples.frame_hd
      ("Error: index " ++ string_of_Z 9
       ++ " is out of bounds for axis 0 with size " ++ string_of_Z 2) /\
  dict_get (detect_hand_wrist env Samples.frame_hd) "hand_detected"
  = Some (VBool false).
Proof.
  intros env.
  apply (short_skeleton_is_swallowed env Samples.frame_hd
           (fun _ _ _ =>
              Ok [ mkPoseResult (Some [[Samples.unseen; Samples.unseen]]);
                   mkPoseResult (Some [Samples.holding]) ])
           (mkPoseResult (Some [[Samples.unseen; Samples.unseen]]))
           [mkPoseResult (Some [Samples.holding])]
           [Samples.unseen; Samples.unseen] []).
  - reflexivity.
  - reflexivity.
  - reflexivity.
  - simpl. lia.
Defined.

(** X3.  When the hand centre is within 250 pixels of the frame, the hand
    region lies in the frame and is ordered, and it is at most 500 pixels
    wide and high; when the centre is at least 250 pixels away from every
    border, the region is the square of side 500 around it. *)
Theorem hand_region_within_frame (w h cx cy : Z) :
  0 <= w -> 0 <= h ->
  - box_size <= cx <= w + box_size ->
  - box_size <= cy <= h + box_size ->
  fully_clamped w h (derive_hand_region w h cx cy) /\
  (exists x_min y_min x_max y_max,
      derive_hand_region w h cx cy = region x_min y_min x_max y_max /\
      x_max - x_min <= 2 * box_size /\ y_max - y_min <= 2 * box_size) /\
  (box_size <= cx <= w - box_size -> box_size <= cy <= h - box_size ->
   derive_hand_region w h cx cy
   = region (cx - box_size) (cy - box_size) (cx + box_size) (cy + box_size)).
Proof.
  intros Hw Hh Hx Hy. unfold fully_clamped, derive_hand_region, region, box_size in *.
  split; [| split].
  - do 4 eexists. split; [reflexivity |]. lia.
  - do 4 eexists. split; [reflexivity |]. lia.
  - intros Ix Iy.
    rewrite (Z.max_r 0 (cx - 250)), (Z.max_r 0 (cy - 250)),
      (Z.min_r w (cx + 250)), (Z.min_r h (cy + 250)) by lia.
    reflexivity.
Qed.

Lemma hand_region_within_frame_witness :
  fully_clamped 1920 1080 (derive_hand_region 1920 1080 635 300) /\
  (exists x_min y_min x_max y_max,
      derive_hand_region 1920 1080 635 300 = region x_min y_min x_max y_max /\
      x_max - x_min <= 2 * box_size /\ y_max - y_min <= 2 * box_size) /\
  (box_size <= 635 <= 1920 - box_size -> box_size <= 300 <= 1080 - box_size ->
   derive_hand_region 1920 1080 635 300
   = region (635 - box_size) (300 - box_size) (635 + box_size) (300 + box_size)).
Proof.
  apply (hand_region_within_frame 1920 1080 635 300); unfold box_size; lia.
Defined.

Lemma nth_error_past (head : list Keypoint) (a b : Keypoint)
    (tail : list Keypoint) (n : nat) :
  List.length head = 5%nat ->
  nth_error (head ++ a :: b :: tail)%list (7 + n) = nth_error tail n.
Proof.
  intros H. rewrite nth_error_app2 by lia. rewrite H.
  replace (7 + n - 5)%nat with (S (S n)) by lia. reflexivity.
Qed.

Lemma kpts_index_past (head : list Keypoint) (a b a' b' : Keypoint)
    (tail : list Keypoint) (n : nat) :
  List.length head = 5%nat ->
  kpts_index (head ++ a :: b :: tail)%list (7 + n)
  = kpts_index (head ++ a' :: b' :: tail)%list (7 + n).
Proof.
  intros H. unfold kpts_index.
  rewrite !nth_error_past by exact H.
  rewrite !length_app. reflexivity.
Qed.

Lemma kpts_index_shoulder (head : list Keypoint) (a b : Keypoint)
    (tail : list Keypoint) :
  List.length head = 5%nat ->
  kpts_index (head ++ a :: b :: tail)%list LEFT_SHOULDER = Ok a /\
  kpts_index (head ++ a :: b :: tail)%list RIGHT_SHOULDER = Ok b.
Proof.
  intros H. unfold kpts_index, LEFT_SHOULDER, RIGHT_SHOULDER.
  rewrite !nth_error_app2 by lia. rewrite H. split; reflexivity.
Qed.

(** X4.  When both elbows have a confidence of at least 0.2, the shoulders
    take no part in the result: two skeletons that differ in their two
    shoulder keypoints only give the same outcome, whatever the shoulders
    hold. *)
Theorem confident_elbow_ignores_shoulders (h w : Z) (head : list Keypoint)
    (ls rs ls' rs' : Keypoint) (tail : list Keypoint) (le re : Keypoint) :
  List.length head = 5%nat ->
  nth_error tail 0 = Some le ->
  nth_error tail 1 = Some re ->
  flt (kp_conf le) (float_lit 2 10) = false ->
  flt (kp_conf re) (float_lit 2 10) = false ->
  hand_from_keypoints h w (head ++ ls :: rs :: tail)%list
  = hand_from_keypoints h w (head ++ ls' :: rs' :: tail)%list.
Proof.
  intros H Hle Hre Cl Cr. unfold hand_from_keypoints.
  change LEFT_WRIST with (7 + 2)%nat. change RIGHT_WRIST with (7 + 3)%nat.
  change LEFT_ELBOW with (7 + 0)%nat. change RIGHT_ELBOW with (7 + 1)%nat.
  rewrite (kpts_index_past head ls rs ls' rs' tail 2 H).
  rewrite (kpts_index_past head ls rs ls' rs' tail 3 H).
  rewrite (kpts_index_past head ls rs ls' rs' tail 0 H).
  rewrite (kpts_index_past head ls rs ls' rs' tail 1 H).
  destruct (kpts_index (head ++ ls' :: rs' :: tail)%list (7 + 2)) as [lw |]; [| reflexivity].
  destruct (kpts_index (head ++ ls' :: rs' :: tail)%list (7 + 3)) as [rw |]; [| reflexivity].
  assert (El : kpts_index (head ++ ls' :: rs' :: tail)%list (7 + 0) = Ok le).
  { unfold kpts_index. rewrite nth_error_past by exact H. now rewrite Hle. }
  assert (Er : kpts_index (head ++ ls' :: rs' :: tail)%list (7 + 1) = Ok re).
  { unfold kpts_index. rewrite nth_error_past by exact H. now rewrite Hre. }
  rewrite El, Er.
  destruct (kpts_index_shoulder head ls rs tail H) as [-> ->].
  destruct (kpts_index_shoulder head ls' rs' tail H) as [-> ->].
  cbn [bind].
  destruct (wrist_accepted (kp_conf lw) || wrist_accepted (kp_conf rw)); [| reflexivity].
  rewrite !length_app. cbn [List.length].
  destruct (select_dominant_arm (kp_conf lw) (kp_conf rw)).
  - rewrite Cl. reflexivity.
  - rewrite Cr. reflexivity.
Qed.

Lemma confident_elbow_ignores_shoulders_witness :
  let head := [Samples.unseen; Samples.unseen; Samples.unseen; Samples.unseen;
               Samples.unseen] in
  let le := Samples.keypoint 500 300 9 10 in
  let re := Samples.keypoint 200 100 9 10 in
  let tail := [le; re; Samples.keypoint 600 300 9 10; Samples.unseen] in
  hand_from_keypoints 1080 1920 (head ++ Samples.unseen :: Samples.unseen :: tail)%list
  = hand_from_keypoints 1080 1920
      (head ++ mkKeypoint S754_nan S754_nan zero :: Samples.unseen :: tail)%list.
Proof.
  intros head le re tail.
  apply (confident_elbow_ignores_shoulders 1080 1920 head
           Samples.unseen Samples.unseen (mkKeypoint S754_nan S754_nan zero)
           Samples.unseen tail le re).
  - reflexivity.
  - reflexivity.
  - reflexivity.
  - vm_compute. reflexivity.
  - vm_compute. reflexivity.
Defined.

(* ===================================================================== *)
(** * Further properties of the classifier                                *)
(* ===================================================================== *)

Lemma existsb_mentions (keywords : list string) (class_name : string) :
  existsb (fun k => str_in k (str_lower class_name)) keywords = true
  <-> mentions keywords class_name.
Proof.
  unfold mentions. rewrite existsb_exists.
  split; intros (k & Hk & H); exists k; (split; [exact Hk |]); apply str_in_iff, H.
Qed.

(** X5.  The category of a class name: a recyclable keyword anywhere in
    the lowered name gives Recyclable, whatever else the name holds and
    whatever the confidence; otherwise a non-recyclable keyword gives
    Non-Recyclable; a name without keyword is Recyclable exactly when the
    confidence is greater than 0.7. *)
Theorem keyword_precedence (class_name : string) (confidence : float) :
  let category :=
    dict_get (map_class_to_category class_name confidence) "category" in
  (mentions recyclable class_name -> category = Some (VStr "Recyclable")) /\
  (~ mentions recyclable class_name -> mentions non_recyclable class_name ->
   category = Some (VStr "Non-Recyclable")) /\
  (~ mentions recyclable class_name -> ~ mentions non_recyclable class_name ->
   (fgt confidence (float_lit 7 10) = true -> category = Some (VStr "Recyclable")) /\
   (fgt confidence (float_lit 7 10) = false ->
    category = Some (VStr "Non-Recyclable"))).
Proof.
  unfold map_class_to_category.
  destruct (existsb (fun k => str_in k (str_lower class_name)) recyclable) eqn:R;
    [apply existsb_mentions in R
    | assert (~ mentions recyclable class_name)
        by (rewrite <- existsb_mentions; congruence)].
  - cbn. repeat split; tauto.
  - destruct (existsb (fun k => str_in k (str_lower class_name)) non_recyclable) eqn:N;
      [apply existsb_mentions in N
      | assert (~ mentions non_recyclable class_name)
          by (rewrite <- existsb_mentions; congruence)].
    + cbn. repeat split; tauto.
    + cbn [dict_get String.eqb Ascii.eqb Bool.eqb].
      split; [tauto |]. split; [tauto |]. intros _ _.
      split; intros ->; reflexivity.
Qed.

Lemma map_class_to_category_cases (class_name : string) (confidence : float) :
  exists category reason,
    map_class_to_category class_name confidence
    = [ ("category", VStr category); ("reason", VStr reason) ] /\
    (category = "Recyclable" \/ category = "Non-Recyclable").
Proof.
  unfold map_class_to_category.
  destruct (existsb _ recyclable); [eauto |].
  destruct (existsb _ non_recyclable); [eauto |].
  destruct (fgt confidence (float_lit 7 10)); eauto.
Qed.

Lemma parse_gemini_response_ok (text : string) :
  exists d, parse_gemini_response text = Ok d /\ verdict_well_formed d.
Proof.
  unfold parse_gemini_response, response_classification, verdict_well_formed.
  destruct (str_in "recyclable" (str_lower text)
            && negb (str_in "non-recyclable" (str_lower text))).
  - eexists. split; [reflexivity |]. do 7 eexists. split; [reflexivity |]. auto 10.
  - eexists. split; [reflexivity |]. do 7 eexists. split; [reflexivity |]. auto 10.
Qed.

Lemma yolo_verdict_some (results : list ClsResult) (d : dict) :
  yolo_verdict results = Ok (Some d) ->
  exists first rest p class_name,
    results = first :: rest /\ probs first = Some p /\
    names_get (cls_names first) (top1 p) = Ok class_name /\
    verdict_well_formed d /\
    dict_get d "classification"
    = dict_get (map_class_to_category class_name (top1conf p)) "category" /\
    dict_get d "item_name" = Some (VStr (str_title class_name)) /\
    dict_get d "confidence" = Some (VFloat (top1conf p)) /\
    dict_get d "method" = Some (VStr "yolo_model").
Proof.
  unfold yolo_verdict. destruct results as [| first rest]; [discriminate |].
  destruct (probs first) as [p |] eqn:P; [| discriminate].
  intros H. bind_inv H. rename a into class_name.
  exists first, rest, p, class_name.
  split; [reflexivity |]. split; [exact P |]. split; [exact E |].
  destruct (map_class_to_category_cases class_name (top1conf p))
    as (category & reason & C & [-> | ->]); rewrite C in H |- *;
    cbn [bind getitem subscript dict_get String.eqb Ascii.eqb Bool.eqb str_of
         category_field WASTE_CATEGORIES] in H;
    injection H as <-; unfold verdict_well_formed;
    (split; [do 7 eexists; split; [reflexivity |]; auto 10 |]); repeat split.
Qed.

Lemma try_models_some (client : string -> Image -> result (option string))
    (image : Image) (candidates : list string) (d : dict) :
  try_models client image candidates = Some d ->
  exists text, parse_gemini_response text = Ok d.
Proof.
  induction candidates as [| name rest IH]; simpl; [discriminate |].
  destruct (client name image) as [[text |] | e]; cbn [bind]; try exact IH.
  unfold truthy. destruct (negb (String.eqb text EmptyString)); [| exact IH].
  destruct (parse_gemini_response text) as [d' | e] eqn:P; cbn [bind]; [| exact IH].
  intros H. injection H as <-. eauto.
Qed.

Lemma classify_with_gemini_well_formed (env : Env) (image : Image) :
  verdict_well_formed (classify_with_gemini env image).
Proof.
  assert (F : verdict_well_formed get_fallback_classification).
  { unfold verdict_well_formed, get_fallback_classification.
    do 7 eexists. split; [reflexivity |]. auto 10. }
  unfold classify_with_gemini.
  destruct (genai_client env) as [client |]; [| exact F].
  destruct (try_models client image model_names) as [d |] eqn:T; [| exact F].
  destruct (try_models_some _ _ _ _ T) as (text & P).
  destruct (parse_gemini_response_ok text) as (d' & P' & W). congruence.
Qed.

Lemma classify_shape (env : Env) (image : Image) (method : string) :
  verdict_well_formed (Api.classify env image method).
Proof.
  unfold Api.classify.
  destruct (String.eqb method "model"); [| apply classify_with_gemini_well_formed].
  unfold classify_with_yolo_model.
  destruct (yolo_classification_model env) as [model |];
    [| apply classify_with_gemini_well_formed].
  destruct (model image) as [results | e]; cbn [bind];
    [| apply classify_with_gemini_well_formed].
  destruct (yolo_verdict results) as [[d |] | e] eqn:Y;
    try apply classify_with_gemini_well_formed.
  destruct (yolo_verdict_some _ _ Y) as (? & ? & ? & ? & _ & _ & _ & W & _). exact W.
Qed.

(** X6.  Whatever the models and the cloud client do, the verdict of
    [classify] has the seven keys of a verdict, one of the two categories
    with the bin colour and disposal code of that category (Green and REC,
    or Black and NR), and one of the methods yolo_model, llm and
    fallback. *)
Theorem classify_verdict_well_formed (env : Env) (image : Image) (method : string) :
  verdict_well_formed (Api.classify env image method) /\
  (dict_get (Api.classify env image method) "method" = Some (VStr "yolo_model") ->
   String.eqb method "model" = true /\ yolo_classification_model env <> None).
Proof.
  split; [apply classify_shape |].
  unfold Api.classify.
  assert (G : dict_get (classify_with_gemini env image) "method"
              <> Some (VStr "yolo_model")).
  { unfold classify_with_gemini.
    destruct (genai_client env) as [client |]; [| discriminate].
    destruct (try_models client image model_names) as [d |] eqn:T; [| discriminate].
    destruct (try_models_some _ _ _ _ T) as (text & P).
    unfold parse_gemini_response in P.
    destruct (getitem WASTE_CATEGORIES (response_classification text)) as [info |];
      cbn [bind] in P; [| discriminate P].
    destruct (subscript info "color"); cbn [bind] in P; [| discriminate P].
    destruct (subscript info "disposal_code"); cbn [bind] in P; [| discriminate P].
    injection P as <-. discriminate. }
  destruct (String.eqb method "model"); [| intros H; contradiction].
  unfold classify_with_yolo_model.
  destruct (yolo_classification_model env) as [model |]; [| intros H; contradiction].
  intros _. split; [reflexivity | discriminate].
Qed.

(** X7.  When the local classifier gives no verdict for the frame, the
    method makes no difference: [classify] with method model returns what
    the cloud path returns, as it does for every other method. *)
Theorem local_failure_falls_through (env : Env) (image : Image) (method : string) :
  no_local_verdict env image ->
  Api.classify env image "model" = classify_with_gemini env image /\
  Api.classify env image method = Api.classify env image "model".
Proof.
  intros H.
  assert (E : classify_with_yolo_model env image = classify_with_gemini env image).
  { unfold classify_with_yolo_model.
    destruct H as [-> | (model & -> & [(e & ->) | [-> | (first & rest & -> & H)]])];
      try reflexivity.
    cbn [bind yolo_verdict].
    destruct H as [-> | (p & e & -> & N)]; [reflexivity |].
    rewrite N. reflexivity. }
  unfold Api.classify. cbn [String.eqb Ascii.eqb Bool.eqb].
  split; [exact E |].
  destruct (String.eqb method "model"); [reflexivity | now rewrite E].
Qed.

Lemma local_failure_falls_through_witness :
  Api.classify Samples.no_models Samples.frame_hd "model"
  = classify_with_gemini Samples.no_models Samples.frame_hd /\
  Api.classify Samples.no_models Samples.frame_hd "llm"
  = Api.classify Samples.no_models Samples.frame_hd "model".
Proof.
  apply (local_failure_falls_through Samples.no_models Samples.frame_hd "llm").
  left. reflexivity.
Defined.





Lemma try_models_passes (client : string -> Image -> result (option string))
    (image : Image) (pre rest : list string) :
  Forall (declines client image) pre ->
  try_models client image (pre ++ rest) = try_models client image rest.
Proof.
  induction 1 as [| name pre D _ IH]; simpl; [reflexivity |].
  destruct D as [(e & ->) | [-> | ->]]; exact IH.
Qed.

(** X9.  The cloud models are asked in their fixed order.  A model that
    raises, answers without text or answers with an empty text is passed
    over; the first text that is not empty is parsed and is the verdict,
    and the models after it play no part; when every model is passed
    over, the verdict is the fallback verdict. *)
Theorem first_answer_decides (env : Env) (image : Image)
    (client : string -> Image -> result (option string)) (pre : list string) :
  genai_client env = Some client ->
  Forall (declines client image) pre ->
  (model_names = pre ->
   classify_with_gemini env image = get_fallback_classification) /\
  (forall model_name post text,
      model_names = (pre ++ model_name :: post)%list ->
      client model_name image = Ok (Some text) ->
      text <> EmptyString ->
      parse_gemini_response text = Ok (classify_with_gemini env image) /\
      dict_get (classify_with_gemini env image) "method" = Some (VStr "llm") /\
      dict_get (classify_with_gemini env image) "explanation" = Some (VStr text)).
Proof.
  intros G D. unfold classify_with_gemini. rewrite G. split.
  - intros E. rewrite E, <- (app_nil_r pre), (try_models_passes _ _ _ _ D).
    reflexivity.
  - intros name post text E A T.
    rewrite E, (try_models_passes _ _ _ _ D). simpl. rewrite A. cbn [bind].
    destruct (String.eqb_spec text EmptyString) as [-> | _]; [contradiction |].
    cbn [negb].
    destruct (parse_gemini_response_ok text) as (d & P & _). rewrite P. cbn [bind].
    split; [reflexivity |].
    unfold parse_gemini_response in P.
    destruct (getitem WASTE_CATEGORIES (response_classification text)) as [info |];
      cbn [bind] in P; [| discriminate P].
    destruct (subscript info "color"); cbn [bind] in P; [| discriminate P].
    destruct (subscript info "disposal_code"); cbn [bind] in P; [| discriminate P].
    injection P as <-. split; reflexivity.
Qed.

Lemma first_answer_decides_witness :
  let env := MoreSamples.classifying None (Some MoreSamples.third_answers)
               (Ok (Some Samples.frame_hd)) in
  let text := "Non-Recyclable: Pizza Box. Greasy cardboard." in
  parse_gemini_response text = Ok (classify_with_gemini env Samples.frame_hd) /\
  dict_get (classify_with_gemini env Samples.frame_hd) "method" = Some (VStr "llm") /\
  dict_get (classify_with_gemini env Samples.frame_hd) "explanation"
  = Some (VStr text).
Proof.
  intros env text.
  refine (proj2 (first_answer_decides env Samples.frame_hd MoreSamples.third_answers
                   ["gemini-2.0-flash-exp"; "gemini-2.5-flash"] _ _)
            "gemini-2.5-pro" [] text _ _ _).
  - reflexivity.
  - constructor.
    + left. eexists. reflexivity.
    + constructor; [| constructor]. right. right. reflexivity.
  - reflexivity.
  - reflexivity.
  - discriminate.
Defined.

(* ===================================================================== *)
(** * Further properties of the routes                                    *)
(* ===================================================================== *)

Lemma verdict_fields (v : dict) :
  verdict_well_formed v ->
  exists category item_name explanation color confidence,
    Api.field_str v "classification" = Ok category /\
    Api.field_float v "confidence" = Ok confidence /\
    Api.field_str v "item_name" = Ok item_name /\
    Api.field_str v "bin_color" = Ok color /\
    Api.field_str v "explanation" = Ok explanation /\
    ((category = "Recyclable" /\ color = "Green") \/
     (category = "Non-Recyclable" /\ color = "Black")).
Proof.
  intros (category & item & explanation & color & code & confidence & method
          & -> & C & _).
  exists category, item, explanation, color, confidence.
  repeat split; try reflexivity. tauto.
Qed.

Lemma count_up_raises (counts : list (string * Z)) (key : string) (e : exn) :
  Api.count_up counts key = Raise e ->
  e = PyException "KeyError" ("'" ++ key ++ "'").
Proof.
  induction counts as [| [k n] rest IH]; simpl.
  - intros H. injection H as <-. reflexivity.
  - destruct (String.eqb k key); [discriminate |].
    destruct (Api.count_up rest key) as [rest' | e']; cbn [bind]; [discriminate |].
    intros H. injection H as <-. apply IH. reflexivity.
Qed.

(** X10.  The classify route never answers with a server error.  When the
    decoder does not itself raise an [HTTPException], the answer is the
    client error 400 exactly when the decoder returns no image, and in
    every other case, an exception of the decoder and counters without the
    category among them, it is a response with one of the two categories
    and the bin colour of that category. *)
Theorem classify_waste_always_answers (env : Env) (stats : Api.Stats)
    (request : Api.ClassificationRequest) :
  (forall code detail,
      imdecode env (Api.payload (Api.image_base64 request))
      <> Raise (HTTPException code detail)) ->
  let answer := snd (Api.classify_waste env stats request) in
  (imdecode env (Api.payload (Api.image_base64 request)) = Ok None /\
   answer = Api.HttpError 400 "Invalid image") \/
  (imdecode env (Api.payload (Api.image_base64 request)) <> Ok None /\
   exists response,
     answer = Api.Returned response /\
     ((Api.classification response = "Recyclable" /\
       Api.bin_color response = "Green") \/
      (Api.classification response = "Non-Recyclable" /\
       Api.bin_color response = "Black"))).
Proof.
  intros NoHttp answer. subst answer.
  unfold Api.classify_waste, Api.classify_waste_body.
  destruct (imdecode env (Api.payload (Api.image_base64 request)))
    as [[image |] | [t m | code detail]] eqn:D.
  - right. split; [discriminate |].
    set (method := str_lower _).
    destruct (verdict_fields _ (classify_shape env image method))
      as (category & item & explanation & color & confidence
          & Hc & Hf & Hi & Hb & Hx & Hcat).
    rewrite Hc. cbn [bind].
    match goal with
    | |- context [Api.count_up ?counts category] =>
        destruct (Api.count_up counts category) as [counts' | e] eqn:U
    end.
    + rewrite Hf, Hi, Hb, Hx. cbn. eexists. split; [reflexivity |]. exact Hcat.
    + rewrite (count_up_raises _ _ _ U). cbn.
      eexists. split; [reflexivity |]. cbn. auto.
  - left. split; reflexivity.
  - right. split; [discriminate |]. cbn. eexists. split; [reflexivity |]. cbn. auto.
  - exfalso. exact (NoHttp code detail eq_refl).
Qed.

Lemma classify_waste_always_answers_witness :
  let env := MoreSamples.classifying None (Some MoreSamples.third_answers)
               (Raise (PyException "Error" "Incorrect padding")) in
  let answer := snd (Api.classify_waste env Samples.fresh_stats Samples.request) in
  (imdecode env (Api.payload (Api.image_base64 Samples.request)) = Ok None /\
   answer = Api.HttpError 400 "Invalid image") \/
  (imdecode env (Api.payload (Api.image_base64 Samples.request)) <> Ok None /\
   exists response,
     answer = Api.Returned response /\
     ((Api.classification response = "Recyclable" /\
       Api.bin_color response = "Green") \/
      (Api.classification response = "Non-Recyclable" /\
       Api.bin_color response = "Black"))).
Proof.
  intros env.
  apply (classify_waste_always_answers env Samples.fresh_stats Samples.request).
  intros code detail. simpl. discriminate.
Defined.

(** X11.  A request whose image decodes, with counters that hold the two
    categories, adds one to the total, one to the counter of its method
    (the local model for method model, the cloud model otherwise) and one
    to the count of the category of the response, and nothing else; so
    counters in which the total is the sum of the two method counters and
    the sum of the two category counts stay so. *)
Theorem classify_waste_counts (env : Env) (stats : Api.Stats)
    (request : Api.ClassificationRequest) (image : Image) (r n : Z) :
  imdecode env (Api.payload (Api.image_base64 request)) = Ok (Some image) ->
  Api.category_counts stats = [ ("Recyclable", r); ("Non-Recyclable", n) ] ->
  exists response r' n',
    snd (Api.classify_waste env stats request) = Api.Returned response /\
    let stats' := fst (Api.classify_waste env stats request) in
    Api.total_classifications stats' = Api.total_classifications stats + 1 /\
    Api.model_classifications stats' + Api.llm_classifications stats'
    = Api.model_classifications stats + Api.llm_classifications stats + 1 /\
    Api.model_classifications stats <= Api.model_classifications stats' /\
    Api.llm_classifications stats <= Api.llm_classifications stats' /\
    Api.category_counts stats' = [ ("Recyclable", r'); ("Non-Recyclable", n') ] /\
    ((Api.classification response = "Recyclable" /\ r' = r + 1 /\ n' = n) \/
     (Api.classification response = "Non-Recyclable" /\ r' = r /\ n' = n + 1)) /\
    (Api.total_classifications stats
     = Api.model_classifications stats + Api.llm_classifications stats ->
     Api.total_classifications stats'
     = Api.model_classifications stats' + Api.llm_classifications stats') /\
    (Api.total_classifications stats = r + n ->
     Api.total_classifications stats' = r' + n').
Proof.
  intros D C.
  unfold Api.classify_waste, Api.classify_waste_body. rewrite D.
  set (method := str_lower _).
  destruct (verdict_fields _ (classify_shape env image method))
    as (category & item & explanation & color & confidence
        & Hc & Hf & Hi & Hb & Hx & Hcat).
  rewrite Hc. cbn [bind].
  destruct (String.eqb method "model");
    cbn [Api.category_counts Api.total_classifications Api.model_classifications
         Api.llm_classifications];
    rewrite C; destruct Hcat as [[-> _] | [-> _]];
    cbn [Api.count_up String.eqb Ascii.eqb Bool.eqb bind];
    rewrite ?Hc, Hf, Hi, Hb, Hx; cbn [bind fst snd];
    do 3 eexists; (split; [reflexivity |]);
    cbn [Api.category_counts Api.total_classifications Api.model_classifications
         Api.llm_classifications Api.classification];
    repeat split; try lia; auto.
Qed.

Lemma classify_waste_counts_witness :
  let env := MoreSamples.classifying (Some MoreSamples.jar_classifier) None
               (Ok (Some Samples.frame_hd)) in
  exists response r' n',
    snd (Api.classify_waste env Samples.fresh_stats Samples.request)
    = Api.Returned response /\
    let stats' := fst (Api.classify_waste env Samples.fresh_stats Samples.request) in
    Api.total_classifications stats'
    = Api.total_classifications Samples.fresh_stats + 1 /\
    Api.model_classifications stats' + Api.llm_classifications stats'
    = Api.model_classifications Samples.fresh_stats
      + Api.llm_classifications Samples.fresh_stats + 1 /\
    Api.model_classifications Samples.fresh_stats
    <= Api.model_classifications stats' /\
    Api.llm_classifications Samples.fresh_stats <= Api.llm_classifications stats' /\
    Api.category_counts stats' = [ ("Recyclable", r'); ("Non-Recyclable", n') ] /\
    ((Api.classification response = "Recyclable" /\ r' = 0 + 1 /\ n' = 0) \/
     (Api.classification response = "Non-Recyclable" /\ r' = 0 /\ n' = 0 + 1)) /\
    (Api.total_classifications Samples.fresh_stats
     = Api.model_classifications Samples.fresh_stats
       + Api.llm_classifications Samples.fresh_stats ->
     Api.total_classifications stats'
     = Api.model_classifications stats' + Api.llm_classifications stats') /\
    (Api.total_classifications Samples.fresh_stats = 0 + 0 ->
     Api.total_classifications stats' = r' + n').
Proof.
  intros env.
  apply (classify_waste_counts env Samples.fresh_stats Samples.request
           Samples.frame_hd 0 0); reflexivity.
Defined.

(** X12.  The method of a request is read without regard to case, and a
    request without method, or with an empty one, takes the local model:
    a request whose method lowers to model is answered, and counted, as
    the same request with no method at all. *)
Theorem method_defaults_to_model (env : Env) (stats : Api.Stats)
    (request : Api.ClassificationRequest) (m : string) :
  Api.classification_method request = Some m ->
  str_lower m = "model" \/ m = EmptyString ->
  Api.classify_waste env stats request
  = Api.classify_waste env stats (without_method request).
Proof.
  intros Hm H.
  unfold Api.classify_waste, Api.classify_waste_body, without_method.
  cbn [Api.image_base64 Api.classification_method]. rewrite Hm.
  assert (E : str_lower (if truthy (VStr m) then m else "model") = str_lower "model").
  { destruct H as [H | ->]; [| reflexivity].
    unfold truthy. destruct (String.eqb m EmptyString); cbn [negb];
      [reflexivity | rewrite H; reflexivity]. }
  rewrite E. reflexivity.
Qed.

Lemma method_defaults_to_model_witness :
  let env := MoreSamples.classifying (Some MoreSamples.jar_classifier) None
               (Ok (Some Samples.frame_hd)) in
  let request := Api.mkRequest "AAAA" None (Some "lobby") (Some "MoDeL") in
  Api.classify_waste env Samples.fresh_stats request
  = Api.classify_waste env Samples.fresh_stats (without_method request).
Proof.
  intros env request.
  apply (method_defaults_to_model env Samples.fresh_stats request "MoDeL").
  - reflexivity.
  - left. reflexivity.
Defined.

Lemma split_all_plain (c : ascii) (s : string) :
  ~ char_in c s -> split_all c s = [s].
Proof.
  induction s as [| x s IH]; simpl; [reflexivity |].
  intros H. destruct (Ascii.eqb_spec x c) as [-> | _]; [tauto |].
  rewrite IH by tauto. reflexivity.
Qed.

Lemma split_all_first (c : ascii) (a b : string) :
  ~ char_in c a -> split_all c (a ++ String c b) = a :: split_all c b.
Proof.
  induction a as [| x a IH]; simpl.
  - intros _. now rewrite Ascii.eqb_refl.
  - intros H. destruct (Ascii.eqb_spec x c) as [-> | _]; [tauto |].
    rewrite IH by tauto. reflexivity.
Qed.

(** X13.  The payload of a request: a text without comma is taken whole;
    of a data URL, a prefix and the data with a comma between them, the
    data are taken; and what follows a second comma is dropped. *)
Theorem payload_of_data_url (prefix data rest : string) :
  ~ char_in "," prefix ->
  ~ char_in "," data ->
  Api.payload data = data /\
  Api.payload (prefix ++ "," ++ data) = data /\
  Api.payload (prefix ++ "," ++ data ++ "," ++ rest) = data.
Proof.
  intros Hp Hd. unfold Api.payload. repeat split.
  - destruct (str_in "," data) eqn:E; [| reflexivity].
    apply str_in_char in E. contradiction.
  - assert (E : str_in "," (prefix ++ "," ++ data) = true).
    { apply str_in_char, char_in_app. right. simpl. auto. }
    rewrite E. change (prefix ++ "," ++ data) with (prefix ++ String "," data).
    rewrite split_all_first by exact Hp. rewrite split_all_plain by exact Hd.
    reflexivity.
  - assert (E : str_in "," (prefix ++ "," ++ data ++ "," ++ rest) = true).
    { apply str_in_char, char_in_app. right. simpl. auto. }
    rewrite E.
    change (prefix ++ "," ++ data ++ "," ++ rest)
      with (prefix ++ String "," (data ++ String "," rest)).
    rewrite split_all_first by exact Hp. rewrite split_all_first by exact Hd.
    reflexivity.
Qed.

Lemma payload_of_data_url_witness :
  Api.payload "/9j/4AAQ" = "/9j/4AAQ" /\
  Api.payload ("data:image/jpeg;base64" ++ "," ++ "/9j/4AAQ") = "/9j/4AAQ" /\
  Api.payload ("data:image/jpeg;base64" ++ "," ++ "/9j/4AAQ" ++ "," ++ "tail")
  = "/9j/4AAQ".
Proof.
  apply (payload_of_data_url "data:image/jpeg;base64" "/9j/4AAQ" "tail").
  - simpl. intros H. repeat (destruct H as [H | H]; [discriminate H |]). exact H.
  - simpl. intros H. repeat (destruct H as [H | H]; [discriminate H |]). exact H.
Defined.

Lemma hand_result_cases (env : Env) (image : Image) :
  (detect_hand_wrist env image = fallback_failed_result \/
   exists message, detect_hand_wrist env image = not_detected_result message)
  \/ exists x_min y_min x_max y_max position c n,
       detect_hand_wrist env image
       = detected_result true (region x_min y_min x_max y_max) position c n.
Proof.
  pose proof (detect_hand_wrist_returned env image) as R.
  remember (detect_hand_wrist env image) as hr eqn:Ehr.
  destruct R as [model rs r kpts others d _ _ _ _ H | | message];
    [| left; left; reflexivity | left; right; exists message; reflexivity].
  right. apply hand_from_keypoints_some in H.
  destruct H as (lw & rw & _ & _ & _ & wx & wy & cx & cy & _ & _ & E).
  unfold derive_hand_region in E. do 7 eexists. exact E.
Qed.

(** Every answer of the detection route is of one of five kinds. *)
Lemma detect_route_cases (env : Env) (request : Api.ClassificationRequest) :
  exists body,
    Api.detect_hand_wrist env request = Api.Returned body /\
    detection_answer env request body.
Proof.
  unfold Api.detect_hand_wrist, Api.detect_hand_wrist_body.
  destruct (imdecode env (Api.payload (Api.image_base64 request)))
    as [[image |] | e] eqn:D; cbn [bind].
  - destruct (hand_result_cases env image)
      as [F | (x_min & y_min & x_max & y_max & position & c & n & E)].
    + pose proof (answer_no_hand env request image D F) as A.
      destruct F as [F | [message F]]; rewrite F in A |- *;
        (eexists; split; [reflexivity | exact A]).
    + rewrite E. cbn [getitem dict_get detected_result String.eqb Ascii.eqb Bool.eqb
                      bind truthy negb].
      destruct (yolo_detection_model env) as [predict |] eqn:M.
      * destruct (predict image (float_lit 3 10) (Some (float_lit 45 100)))
          as [results | e] eqn:P; cbn [bind];
          [| eexists; split; [reflexivity | constructor]].
        destruct (Api.scan_results env image
                    (VDict (region x_min y_min x_max y_max)) results Api.scan_start)
          as [st | e] eqn:S; cbn [bind];
          [| eexists; split; [reflexivity | constructor]].
        exists (merged_response (region x_min y_min x_max y_max) position c n st).
        split; [unfold merged_response; destruct (Api.object_in_hand st);
                simpl; reflexivity |].
        eapply answer_merged; eauto.
      * eexists. split; [reflexivity |].
        exact (answer_no_detector env request image _ _ _ _ _ _ _ D E M).
  - eexists. split; [reflexivity | apply answer_invalid, D].
  - eexists. split; [reflexivity | constructor].
Qed.

(** X14.  The detection route answers every request, with the keys
    [hand_detected], [wrist_detected], [object_in_hand] and [message];
    an object is reported only with a hand, and a hand only with a wrist. *)
Theorem detection_route_invariant (env : Env) (request : Api.ClassificationRequest) :
  exists body h w o message,
    Api.detect_hand_wrist env request = Api.Returned body /\
    dict_get body "hand_detected" = Some (VBool h) /\
    dict_get body "wrist_detected" = Some (VBool w) /\
    dict_get body "object_in_hand" = Some (VBool o) /\
    dict_get body "message" = Some (VStr message) /\
    (o = true -> h = true) /\ (h = true -> w = true).
Proof.
  destruct (detect_route_cases env request) as (body & R & A).
  exists body.
  destruct A as [e | D | image D [F | [message F]]
                 | image x_min y_min x_max y_max position c n D E M
                 | image x_min y_min x_max y_max position c n predict results st
                     D E M P S].
  - exists false, false, false. eexists. repeat split; auto; reflexivity.
  - exists false, false, false. eexists. repeat split; auto; reflexivity.
  - rewrite F in R |- *. exists false, false, false. eexists.
    repeat split; auto; reflexivity.
  - rewrite F in R |- *. exists false, false, false, message.
    repeat split; auto; reflexivity.
  - exists true, true, false. eexists. repeat split; auto; reflexivity.
  - exists true, true, (Api.object_in_hand st). eexists.
    repeat split; auto; reflexivity.
Qed.

(** The scan over a hand region, read backwards: either every box was
    read and none was held, or the scan ended at the first held box. *)
Lemma scan_flat_inversion (env : Env) (image : Image) (x_min y_min x_max y_max : Z)
    (items : list (list (Z * string) * Box)) (st st' : Api.ScanState) :
  scan_flat env image (VDict (region x_min y_min x_max y_max)) items st = Ok st' ->
  (exists rds,
      Forall2 reads items rds /\
      Forall (fun rd => held x_min y_min x_max y_max rd = false) rds /\
      st' = fold_left Api.listed rds st)
  \/ (exists pre nb post rds rd,
        items = (pre ++ nb :: post)%list /\
        Forall2 reads pre rds /\
        Forall (fun rd => held x_min y_min x_max y_max rd = false) rds /\
        reads nb rd /\ held x_min y_min x_max y_max rd = true /\
        st' = Api.found env image (Api.listed (fold_left Api.listed rds st) rd) rd).
Proof.
  revert st. induction items as [| nb rest IH]; intros st H; simpl in H.
  - injection H as <-. left. exists []. repeat split; constructor.
  - bind_inv H. rename a into rd, E into Hr.
    rewrite scan_body_region in H.
    destruct (held x_min y_min x_max y_max rd) eqn:Hh; cbn [bind fst snd] in H.
    + injection H as <-. right. exists [], nb, rest, [], rd.
      repeat split; auto.
    + destruct (IH _ H) as [(rds & R & N & ->)
                           | (pre & nb' & post & rds & rd' & -> & R & N & Hr' & Hh' & ->)].
      * left. exists (rd :: rds). repeat split; auto.
      * right. exists (nb :: pre), nb', post, (rd :: rds), rd'.
        repeat split; auto.
Qed.

(** X15.  An object is reported only if it was held: when the answer has
    [object_in_hand] true, the detector returned a box that is not a
    person and whose centre lies in the hand region of the answer, no box
    before it was held, that box is the one in [object_bbox], and
    [detected_objects] lists the boxes up to it and none after it. *)
Theorem reported_object_was_held (env : Env) (request : Api.ClassificationRequest)
    (body : dict) :
  Api.detect_hand_wrist env request = Api.Returned body ->
  dict_get body "object_in_hand" = Some (VBool true) ->
  exists image predict results x_min y_min x_max y_max pre nb post rds rd,
    imdecode env (Api.payload (Api.image_base64 request)) = Ok (Some image) /\
    yolo_detection_model env = Some predict /\
    predict image (float_lit 3 10) (Some (float_lit 45 100)) = Ok results /\
    dict_get body "hand_bbox" = Some (VDict (region x_min y_min x_max y_max)) /\
    all_boxes results = (pre ++ nb :: post)%list /\
    Forall2 reads pre rds /\
    Forall (fun rd => held x_min y_min x_max y_max rd = false) rds /\
    reads nb rd /\ held x_min y_min x_max y_max rd = true /\
    dict_get body "object_bbox" = Some (Api.object_entry rd) /\
    dict_get body "detected_objects"
    = Some (VList (map Api.detected_entry (rds ++ [rd]))).
Proof.
  intros R O.
  destruct (detect_route_cases env request) as (body' & R' & A).
  rewrite R in R'. injection R' as <-.
  destruct A as [e | D | image D [F | [message F]]
                 | image x_min y_min x_max y_max position c n D E M
                 | image x_min y_min x_max y_max position c n predict results st
                     D E M P S];
    try discriminate O; try (rewrite F in O; discriminate O).
  assert (Ho : Api.object_in_hand st = true).
  { cbn in O. congruence. }
  pose proof S as S'. rewrite scan_results_flat in S' by reflexivity.
  apply scan_flat_inversion in S'.
  destruct S' as [(rds & _ & _ & ->)
                 | (pre & nb & post & rds & rd & Eb & Rp & N & Hr & Hh & ->)].
  - destruct (listed_keeps rds Api.scan_start) as (K & _). rewrite K in Ho.
    discriminate Ho.
  - exists image, predict, results, x_min, y_min, x_max, y_max, pre, nb, post, rds, rd.
    repeat split; auto.
    cbn [merged_response dict_get String.eqb Ascii.eqb Bool.eqb Api.found Api.listed
         Api.detected_objects].
    rewrite detected_objects_listed, map_app. reflexivity.
Qed.

Lemma reported_object_was_held_witness :
  exists body,
    Api.detect_hand_wrist Samples.holding_env Samples.request = Api.Returned body /\
    exists image predict results x_min y_min x_max y_max pre nb post rds rd,
      imdecode Samples.holding_env
        (Api.payload (Api.image_base64 Samples.request)) = Ok (Some image) /\
      yolo_detection_model Samples.holding_env = Some predict /\
      predict image (float_lit 3 10) (Some (float_lit 45 100)) = Ok results /\
      dict_get body "hand_bbox" = Some (VDict (region x_min y_min x_max y_max)) /\
      all_boxes results = (pre ++ nb :: post)%list /\
      Forall2 reads pre rds /\
      Forall (fun rd => held x_min y_min x_max y_max rd = false) rds /\
      reads nb rd /\ held x_min y_min x_max y_max rd = true /\
      dict_get body "object_bbox" = Some (Api.object_entry rd) /\
      dict_get body "detected_objects"
      = Some (VList (map Api.detected_entry (rds ++ [rd]))).
Proof.
  eexists. split; [vm_compute; reflexivity |].
  apply (reported_object_was_held Samples.holding_env Samples.request).
  - vm_compute. reflexivity.
  - reflexivity.
Defined.

(** X16.  A hand that waits holds nothing: when the answer has a hand,
    no object and a list of detected objects, every box of the detector
    was read, none of them was held, the list has all of them in the
    order of the detector, and no crop and no object box are given. *)
Theorem waiting_means_nothing_held (env : Env) (request : Api.ClassificationRequest)
    (body : dict) (l : list pyval) :
  Api.detect_hand_wrist env request = Api.Returned body ->
  dict_get body "hand_detected" = Some (VBool true) ->
  dict_get body "object_in_hand" = Some (VBool false) ->
  dict_get body "detected_objects" = Some (VList l) ->
  exists image predict results x_min y_min x_max y_max rds,
    imdecode env (Api.payload (Api.image_base64 request)) = Ok (Some image) /\
    yolo_detection_model env = Some predict /\
    predict image (float_lit 3 10) (Some (float_lit 45 100)) = Ok results /\
    dict_get body "hand_bbox" = Some (VDict (region x_min y_min x_max y_max)) /\
    Forall2 reads (all_boxes results) rds /\
    Forall (fun rd => held x_min y_min x_max y_max rd = false) rds /\
    l = map Api.detected_entry rds /\
    dict_get body "message" = Some (VStr "Hand/wrist detected, waiting for object") /\
    dict_get body "confidence"
    = dict_get (detect_hand_wrist env image) "confidence" /\
    dict_get body "object_bbox" = Some VNone /\
    dict_get body "cropped_image" = Some VNone.
Proof.
  intros R Hh O L.
  destruct (detect_route_cases env request) as (body' & R' & A).
  rewrite R in R'. injection R' as <-.
  destruct A as [e | D | image D [F | [message F]]
                 | image x_min y_min x_max y_max position c n D E M
                 | image x_min y_min x_max y_max position c n predict results st
                     D E M P S];
    try discriminate Hh; try (rewrite F in Hh; discriminate Hh);
    try discriminate L.
  assert (Ho : Api.object_in_hand st = false).
  { cbn in O. congruence. }
  pose proof S as S'. rewrite scan_results_flat in S' by reflexivity.
  apply scan_flat_inversion in S'.
  destruct S' as [(rds & Rr & N & ->)
                 | (pre & nb & post & rds & rd & Eb & Rp & N & Hr & Hd & ->)];
    [| discriminate Ho].
  exists image, predict, results, x_min, y_min, x_max, y_max, rds.
  destruct (listed_keeps rds Api.scan_start) as (K1 & K2 & K3 & _).
  unfold merged_response in L |- *.
  cbn [dict_get String.eqb Ascii.eqb Bool.eqb] in L |- *.
  rewrite K1, K2, K3. rewrite detected_objects_listed in L.
  injection L as <-. rewrite E.
  repeat split; auto.
Qed.

Lemma waiting_means_nothing_held_witness :
  let env := MoreSamples.hand_seen
               (Some (Samples.finds [Samples.person_box; MoreSamples.far_box])) in
  exists body,
    Api.detect_hand_wrist env Samples.request = Api.Returned body /\
    exists image predict results x_min y_min x_max y_max rds,
      imdecode env (Api.payload (Api.image_base64 Samples.request))
      = Ok (Some image) /\
      yolo_detection_model env = Some predict /\
      predict image (float_lit 3 10) (Some (float_lit 45 100)) = Ok results /\
      dict_get body "hand_bbox" = Some (VDict (region x_min y_min x_max y_max)) /\
      Forall2 reads (all_boxes results) rds /\
      Forall (fun rd => held x_min y_min x_max y_max rd = false) rds /\
      map Api.detected_entry [Samples.person_reading; MoreSamples.far_reading]
      = map Api.detected_entry rds /\
      dict_get body "message"
      = Some (VStr "Hand/wrist detected, waiting for object") /\
      dict_get body "confidence"
      = dict_get (detect_hand_wrist env image) "confidence" /\
      dict_get body "object_bbox" = Some VNone /\
      dict_get body "cropped_image" = Some VNone.
Proof.
  intros env. eexists. split; [vm_compute; reflexivity |].
  apply (waiting_means_nothing_held env Samples.request).
  - vm_compute. reflexivity.
  - reflexivity.
  - reflexivity.
  - vm_compute. reflexivity.
Defined.

(** X17.  A hand without a detector: when a hand is found and the
    detection model is not loaded, the answer is the hand result with the
    message [Detection model not loaded] and [object_in_hand] false; it
    has none of the keys [detected_objects], [object_bbox] and
    [cropped_image] that every other answer with a hand has. *)
Theorem hand_without_detector (env : Env) (request : Api.ClassificationRequest)
    (image : Image) :
  imdecode env (Api.payload (Api.image_base64 request)) = Ok (Some image) ->
  dict_get (detect_hand_wrist env image) "hand_detected" = Some (VBool true) ->
  yolo_detection_model env = None ->
  exists body,
    Api.detect_hand_wrist env request = Api.Returned body /\
    dict_get body "message" = Some (VStr "Detection model not loaded") /\
    dict_get body "object_in_hand" = Some (VBool false) /\
    dict_get body "hand_detected" = Some (VBool true) /\
    dict_get body "hand_bbox" = dict_get (detect_hand_wrist env image) "hand_bbox" /\
    dict_get body "confidence"
    = dict_get (detect_hand_wrist env image) "confidence" /\
    dict_get body "detected_objects" = None /\
    dict_get body "object_bbox" = None /\
    dict_get body "cropped_image" = None.
Proof.
  intros D Hh M.
  destruct (hand_result_cases env image)
    as [[F | [message F]] | (x_min & y_min & x_max & y_max & position & c & n & E)];
    try (rewrite F in Hh; discriminate Hh).
  unfold Api.detect_hand_wrist, Api.detect_hand_wrist_body.
  rewrite D. cbn [bind]. rewrite E, M.
  eexists. split; [reflexivity |]. repeat split; reflexivity.
Qed.

Lemma hand_without_detector_witness :
  let env := MoreSamples.hand_seen None in
  exists body,
    Api.detect_hand_wrist env Samples.request = Api.Returned body /\
    dict_get body "message" = Some (VStr "Detection model not loaded") /\
    dict_get body "object_in_hand" = Some (VBool false) /\
    dict_get body "hand_detected" = Some (VBool true) /\
    dict_get body "hand_bbox"
    = dict_get (detect_hand_wrist env Samples.frame_hd) "hand_bbox" /\
    dict_get body "confidence"
    = dict_get (detect_hand_wrist env Samples.frame_hd) "confidence" /\
    dict_get body "detected_objects" = None /\
    dict_get body "object_bbox" = None /\
    dict_get body "cropped_image" = None.
Proof.
  intros env.
  apply (hand_without_detector env Samples.request Samples.frame_hd).
  - reflexivity.
  - vm_compute. reflexivity.
  - reflexivity.
Defined.

(** X18.  A failure of the detector hides the hand: when a hand is found
    and the call of the detection model raises, the answer says that no
    hand and no wrist were detected, with the text of the exception as
    message. *)
Theorem detector_failure_hides_the_hand (env : Env)
    (request : Api.ClassificationRequest) (image : Image)
    (predict : Image -> float -> option float -> result (list DetResult))
    (e : exn) :
  imdecode env (Api.payload (Api.image_base64 request)) = Ok (Some image) ->
  dict_get (detect_hand_wrist env image) "hand_detected" = Some (VBool true) ->
  yolo_detection_model env = Some predict ->
  predict image (float_lit 3 10) (Some (float_lit 45 100)) = Raise e ->
  Api.detect_hand_wrist env request
  = Api.Returned [ ("hand_detected", VBool false);
                   ("wrist_detected", VBool false);
                   ("object_in_hand", VBool false);
                   ("message", VStr ("Error: " ++ str_exn e)) ].
Proof.
  intros D Hh M P.
  destruct (hand_result_cases env image)
    as [[F | [message F]] | (x_min & y_min & x_max & y_max & position & c & n & E)];
    try (rewrite F in Hh; discriminate Hh).
  unfold Api.detect_hand_wrist, Api.detect_hand_wrist_body.
  rewrite D. cbn [bind]. rewrite E, M, P. reflexivity.
Qed.

Lemma detector_failure_hides_the_hand_witness :
  Api.detect_hand_wrist (MoreSamples.hand_seen (Some MoreSamples.out_of_memory))
    Samples.request
  = Api.Returned [ ("hand_detected", VBool false);
                   ("wrist_detected", VBool false);
                   ("object_in_hand", VBool false);
                   ("message", VStr "Error: out of memory") ].
Proof.
  apply (detector_failure_hides_the_hand
           (MoreSamples.hand_seen (Some MoreSamples.out_of_memory))
           Samples.request Samples.frame_hd MoreSamples.out_of_memory
           (PyException "RuntimeError" "out of memory")).
  - reflexivity.
  - vm_compute. reflexivity.
  - reflexivity.
  - reflexivity.
Defined.

Lemma scan_flat_unreadable (env : Env) (image : Image) (x_min y_min x_max y_max : Z)
    (pre : list (list (Z * string) * Box)) (rds : list Api.Reading)
    (nb : list (Z * string) * Box) (post : list (list (Z * string) * Box))
    (st : Api.ScanState) (e : exn) :
  Forall2 reads pre rds ->
  Forall (fun rd => held x_min y_min x_max y_max rd = false) rds ->
  Api.read_box (fst nb) (snd nb) = Raise e ->
  scan_flat env image (VDict (region x_min y_min x_max y_max)) (pre ++ nb :: post) st
  = Raise e.
Proof.
  intros R N Hr. rewrite (scan_flat_passes env image _ _ _ _ pre rds) by assumption.
  simpl. rewrite Hr. reflexivity.
Qed.

(** X19.  One box that cannot be read fails the request: when a hand is
    found and the scan meets, before any held object, a box whose class
    or corners cannot be read, the answer is the error answer, and
    neither the hand nor the boxes listed before are reported. *)
Theorem unreadable_box_fails_the_request (env : Env)
    (request : Api.ClassificationRequest) (image : Image)
    (predict : Image -> float -> option float -> result (list DetResult))
    (results : list DetResult)
    (pre : list (list (Z * string) * Box)) (rds : list Api.Reading)
    (nb : list (Z * string) * Box) (post : list (list (Z * string) * Box))
    (hand_bbox : dict) (e : exn) :
  imdecode env (Api.payload (Api.image_base64 request)) = Ok (Some image) ->
  dict_get (detect_hand_wrist env image) "hand_bbox" = Some (VDict hand_bbox) ->
  yolo_detection_model env = Some predict ->
  predict image (float_lit 3 10) (Some (float_lit 45 100)) = Ok results ->
  all_boxes results = (pre ++ nb :: post)%list ->
  Forall2 reads pre rds ->
  Forall (fun rd => Api.is_person (fst (fst rd)) = true \/
                    Api.in_hand_region (VDict hand_bbox)
                      (fst (Api.center rd)) (snd (Api.center rd)) = Ok false) rds ->
  Api.read_box (fst nb) (snd nb) = Raise e ->
  Api.detect_hand_wrist env request
  = Api.Returned [ ("hand_detected", VBool false);
                   ("wrist_detected", VBool false);
                   ("object_in_hand", VBool false);
                   ("message", VStr ("Error: " ++ str_exn e)) ].
Proof.
  intros D Hb M P Eb R N Hr.
  destruct (hand_result_cases env image)
    as [[F | [message F]] | (x_min & y_min & x_max & y_max & position & c & n & E)];
    try (rewrite F in Hb; discriminate Hb).
  rewrite E in Hb. cbn in Hb. injection Hb as <-.
  assert (N' : Forall (fun rd => held x_min y_min x_max y_max rd = false) rds).
  { eapply Forall_impl; [| exact N]. intros rd [Hp | Hi]; unfold held.
    - rewrite Hp. reflexivity.
    - destruct (Api.center rd) as [cx cy]. simpl in Hi.
      rewrite in_hand_region_region in Hi. injection Hi as ->.
      apply andb_false_r. }
  unfold Api.detect_hand_wrist, Api.detect_hand_wrist_body.
  rewrite D. cbn [bind]. rewrite E, M.
  cbn [getitem dict_get detected_result String.eqb Ascii.eqb Bool.eqb bind truthy negb].
  rewrite P. cbn [bind]. rewrite scan_results_flat by reflexivity. rewrite Eb.
  rewrite (scan_flat_unreadable env image _ _ _ _ pre rds nb post _ e R N' Hr).
  reflexivity.
Qed.

Lemma unreadable_box_fails_the_request_witness :
  Api.detect_hand_wrist
    (MoreSamples.hand_seen
       (Some (Samples.finds [Samples.person_box; MoreSamples.unnamed_box;
                             Samples.bottle_box])))
    Samples.request
  = Api.Returned [ ("hand_detected", VBool false);
                   ("wrist_detected", VBool false);
                   ("object_in_hand", VBool false);
                   ("message", VStr "Error: 7") ].
Proof.
  apply (unreadable_box_fails_the_request
           (MoreSamples.hand_seen
              (Some (Samples.finds [Samples.person_box; MoreSamples.unnamed_box;
                                    Samples.bottle_box])))
           Samples.request Samples.frame_hd
           (Samples.finds [Samples.person_box; MoreSamples.unnamed_box;
                           Samples.bottle_box])
           [ mkDetResult (Some [Samples.person_box; MoreSamples.unnamed_box;
                                Samples.bottle_box]) Samples.coco_names ]
           [ (Samples.coco_names, Samples.person_box) ]
           [ Samples.person_reading ]
           (Samples.coco_names, MoreSamples.unnamed_box)
           [ (Samples.coco_names, Samples.bottle_box) ]
           (region 385 50 885 550)
           (PyException "KeyError" "7")).
  - reflexivity.
  - vm_compute. reflexivity.
  - reflexivity.
  - reflexivity.
  - reflexivity.
  - repeat constructor.
  - repeat constructor.
  - vm_compute. reflexivity.
Defined.



(* ===================================================================== *)
(** * Properties of the start of the process                              *)
(* ===================================================================== *)

Lemma pose_from_paths_none (host : Startup.Host) (paths : list string) :
  none_exists host paths -> Startup.pose_from_paths host paths = Ok None.
Proof.
  induction 1 as [| p rest Hp _ IH]; simpl; [reflexivity |].
  rewrite Hp. exact IH.
Qed.

Lemma pose_from_paths_first (host : Startup.Host) (paths : list string)
    (path : string) :
  first_existing host paths path ->
  Startup.pose_from_paths host paths
  = (model <- Startup.YOLO host path ;;
     _ <- Startup.stat_size host path ;;
     _ <- Startup.call_pose model Startup.test_img (float_lit 1 10) None ;;
     Ok (Some model)).
Proof.
  intros (pre & post & -> & N & E).
  induction N as [| p rest Hp _ IH]; simpl.
  - rewrite E. reflexivity.
  - rewrite Hp. exact IH.
Qed.

Lemma model_from_paths_none (host : Startup.Host) (paths : list string) :
  none_exists host paths -> Startup.model_from_paths host paths = Ok None.
Proof.
  induction 1 as [| p rest Hp _ IH]; simpl; [reflexivity |].
  rewrite Hp. exact IH.
Qed.

Lemma model_from_paths_first (host : Startup.Host) (paths : list string)
    (path : string) :
  first_existing host paths path ->
  Startup.model_from_paths host paths
  = (model <- Startup.YOLO host path ;; Ok (Some model)).
Proof.
  intros (pre & post & -> & N & E).
  induction N as [| p rest Hp _ IH]; simpl.
  - rewrite E. reflexivity.
  - rewrite Hp. exact IH.
Qed.

(** X21.  The pose model comes from the first path that exists, and from
    nowhere else: it is loaded exactly when the weights at that path
    load, the size of the file can be read and the trial on the empty
    frame succeeds; when one of them fails there is no pose model, the
    later paths and the download are not tried. *)
Theorem pose_model_from_first_file (host : Startup.Host) (path : string)
    (model : Startup.Model) :
  first_existing host Startup.pose_paths path ->
  Startup.load_pose_model host = Some model <->
  Startup.YOLO host path = Ok model /\
  (exists size, Startup.stat_size host path = Ok size) /\
  (exists results,
      Startup.call_pose model Startup.test_img (float_lit 1 10) None = Ok results).
Proof.
  intros F. unfold Startup.load_pose_model, Startup.load_pose_model_body.
  rewrite (pose_from_paths_first _ _ _ F).
  destruct (Startup.YOLO host path) as [m | e]; cbn [bind].
  - destruct (Startup.stat_size host path) as [size | e]; cbn [bind].
    + destruct (Startup.call_pose m Startup.test_img (float_lit 1 10) None)
        as [results | e] eqn:T; cbn [bind].
      * split.
        -- intros H. injection H as <-. eauto.
        -- intros (H & _). congruence.
      * split; [discriminate |]. intros (H & _ & results & T').
        injection H as <-. congruence.
    + split; [discriminate |]. intros (_ & (size & H) & _). discriminate H.
  - split; [discriminate |]. intros (H & _). discriminate H.
Qed.

Lemma pose_model_from_first_file_witness :
  Startup.load_pose_model
    (SampleHosts.host_with
       [ "/app/models/yolov8n-pose.pt"; "yolov8n-pose.pt" ] [] true None)
  = Some SampleHosts.blind <->
  Startup.YOLO
    (SampleHosts.host_with
       [ "/app/models/yolov8n-pose.pt"; "yolov8n-pose.pt" ] [] true None)
    "/app/models/yolov8n-pose.pt" = Ok SampleHosts.blind /\
  (exists size,
      Startup.stat_size
        (SampleHosts.host_with
           [ "/app/models/yolov8n-pose.pt"; "yolov8n-pose.pt" ] [] true None)
        "/app/models/yolov8n-pose.pt" = Ok size) /\
  (exists results,
      Startup.call_pose SampleHosts.blind Startup.test_img (float_lit 1 10) None
      = Ok results).
Proof.
  apply (pose_model_from_first_file
           (SampleHosts.host_with
              [ "/app/models/yolov8n-pose.pt"; "yolov8n-pose.pt" ] [] true None)
           "/app/models/yolov8n-pose.pt" SampleHosts.blind).
  exists [ "models/yolov8n-pose.pt" ], [ "yolov8n-pose.pt" ].
  split; [reflexivity |]. split; [| reflexivity].
  constructor; [reflexivity | constructor].
Defined.

(** X22.  Without a file at any of the three paths the pose model is
    downloaded; it is kept exactly when the download succeeds and the
    directory [models] can be made: a download that succeeded is thrown
    away when the directory cannot be made, and the downloaded model is
    not tried on a frame. *)
Theorem downloaded_pose_model (host : Startup.Host) (model : Startup.Model) :
  none_exists host Startup.pose_paths ->
  Startup.load_pose_model host = Some model <->
  Startup.YOLO host "yolov8n-pose.pt" = Ok model /\
  Startup.mkdir host "models" = Ok tt.
Proof.
  intros N. unfold Startup.load_pose_model, Startup.load_pose_model_body.
  rewrite (pose_from_paths_none _ _ N). cbn [bind].
  destruct (Startup.YOLO host "yolov8n-pose.pt") as [m | e]; cbn [bind].
  - destruct (Startup.mkdir host "models") as [[] | e]; cbn [bind].
    + split; [intros H; injection H as <-; auto | intros (H & _); congruence].
    + split; [discriminate | intros (_ & H); discriminate H].
  - split; [discriminate | intros (H & _); discriminate H].
Qed.

Lemma downloaded_pose_model_witness :
  Startup.load_pose_model (SampleHosts.downloading false) = Some SampleHosts.blind <->
  Startup.YOLO (SampleHosts.downloading false) "yolov8n-pose.pt"
  = Ok SampleHosts.blind /\
  Startup.mkdir (SampleHosts.downloading false) "models" = Ok tt.
Proof.
  apply (downloaded_pose_model (SampleHosts.downloading false) SampleHosts.blind).
  repeat constructor.
Defined.

(** X23.  A file of the detector that does not load leaves the process
    without detector and without classifier: when the first detection
    path that exists holds weights that do not load, the later paths and
    the download are not tried, and the classification model is not
    loaded either, whatever file it has. *)
Theorem broken_detector_file_unloads_classifier (host : Startup.Host)
    (path : string) (e : exn)
    (decode : string -> result (option Image)) (encode : Image -> string)
    (qr : dict -> option string) :
  first_existing host Startup.detection_paths path ->
  Startup.YOLO host path = Raise e ->
  Startup.load_models host None None = (None, None) /\
  yolo_detection_model (Startup.startup host decode encode qr) = None /\
  yolo_classification_model (Startup.startup host decode encode qr) = None.
Proof.
  intros F Y.
  assert (L : Startup.load_models host None None = (None, None)).
  { unfold Startup.load_models.
    destruct (Startup.mkdir host "models"); [| reflexivity].
    rewrite (model_from_paths_first _ _ _ F), Y. reflexivity. }
  unfold Startup.startup. cbn [yolo_detection_model yolo_classification_model].
  rewrite L. auto.
Qed.

Lemma broken_detector_file_unloads_classifier_witness :
  let host := SampleHosts.host_with
                [ "models/yolov8n.pt"; "yolov8n.pt"; "models/best.pt" ]
                [ "models/yolov8n.pt" ] true None in
  Startup.load_models host None None = (None, None) /\
  yolo_detection_model
    (Startup.startup host (fun _ => Ok None) (fun _ => EmptyString) (fun _ => None))
  = None /\
  yolo_classification_model
    (Startup.startup host (fun _ => Ok None) (fun _ => EmptyString) (fun _ => None))
  = None.
Proof.
  intros host.
  apply (broken_detector_file_unloads_classifier host "models/yolov8n.pt"
           (PyException "RuntimeError" "models/yolov8n.pt")).
  - exists [], [ "/app/models/yolov8n.pt"; "yolov8n.pt" ].
    split; [reflexivity |]. split; [constructor | reflexivity].
  - reflexivity.
Defined.

(** X24.  After the start there is no classifier without detector, and
    neither of them when the directory [models] cannot be made; a
    classifier is there only if a file exists at one of its three
    paths, for it is never downloaded. *)
Theorem no_classifier_without_detector (host : Startup.Host)
    (decode : string -> result (option Image)) (encode : Image -> string)
    (qr : dict -> option string) :
  let env := Startup.startup host decode encode qr in
  (yolo_classification_model env <> None -> yolo_detection_model env <> None) /\
  (yolo_detection_model env <> None -> Startup.mkdir host "models" = Ok tt) /\
  (yolo_classification_model env <> None ->
   exists path, first_existing host Startup.classification_paths path).
Proof.
  intros env. subst env. unfold Startup.startup.
  cbn [yolo_detection_model yolo_classification_model].
  unfold Startup.load_models.
  destruct (Startup.mkdir host "models") as [[] | e];
    [| cbn; repeat split; intros H; now elim H].
  destruct (bind (Startup.model_from_paths host Startup.detection_paths) _)
    as [d | e]; [| cbn; repeat split; intros H; now elim H].
  assert (C : forall c,
             Startup.model_from_paths host Startup.classification_paths = Ok (Some c) ->
             exists path, first_existing host Startup.classification_paths path).
  { intros c. generalize Startup.classification_paths.
    induction l as [| p rest IH]; simpl; [discriminate |].
    destruct (Startup.path_exists host p) eqn:E.
    - intros _. exists p, [], rest. repeat split; auto.
    - intros H. destruct (IH H) as (path & pre & post & -> & N & E').
      exists path, (p :: pre), post. repeat split; auto. }
  destruct (Startup.model_from_paths host Startup.classification_paths)
    as [[c |] | e'] eqn:M; cbn; repeat split; try discriminate;
    try (intros H; now elim H).
  intros _. exact (C c eq_refl).
Qed.

Lemma classify_without_models (env : Env) (image : Image) (method : string) :
  yolo_classification_model env = None ->
  genai_client env = None ->
  Api.classify env image method = get_fallback_classification.
Proof.
  intros Hc Hg. unfold Api.classify, classify_with_yolo_model, classify_with_gemini.
  rewrite Hc, Hg. destruct (String.eqb method "model"); reflexivity.
Qed.

(** X25.  The health route reports the key, not the client: when the key
    is set and the client cannot be made from it, [gemini_configured] is
    true, there is no client, and the cloud path answers every frame with
    the fallback verdict. *)
Theorem health_reports_the_key (host : Startup.Host)
    (decode : string -> result (option Image)) (encode : Image -> string)
    (qr : dict -> option string) (now api_key : string) (e : exn) :
  Startup.getenv host "GEMINI_API_KEY" = Some api_key ->
  api_key <> EmptyString ->
  Startup.genai_Client host api_key = Raise e ->
  let env := Startup.startup host decode encode qr in
  (models_loaded <- getitem (Startup.health_check host env now) "models_loaded" ;;
   subscript models_loaded "gemini_configured") = Ok (VBool true) /\
  genai_client env = None /\
  forall image, classify_with_gemini env image = get_fallback_classification.
Proof.
  intros K Hk G env.
  assert (T : truthy (VStr api_key) = true).
  { unfold truthy. destruct api_key; [congruence | reflexivity]. }
  assert (Gc : genai_client env = None).
  { subst env. unfold Startup.startup. cbn [genai_client].
    unfold Startup.configure_gemini. rewrite K, T, G. reflexivity. }
  split; [| split; [exact Gc |]].
  - unfold Startup.health_check. rewrite K, T. reflexivity.
  - intros image. unfold classify_with_gemini. rewrite Gc. reflexivity.
Qed.

Lemma health_reports_the_key_witness :
  let host := SampleHosts.host_with [] [] true (Some "AIza") in
  let env := Startup.startup host (fun _ => Ok None) (fun _ => EmptyString)
               (fun _ => None) in
  (models_loaded <- getitem (Startup.health_check host env "2025-01-01T00:00:00")
                      "models_loaded" ;;
   subscript models_loaded "gemini_configured") = Ok (VBool true) /\
  genai_client env = None /\
  forall image, classify_with_gemini env image = get_fallback_classification.
Proof.
  intros host.
  apply (health_reports_the_key host (fun _ => Ok None) (fun _ => EmptyString)
           (fun _ => None) "2025-01-01T00:00:00" "AIza"
           (PyException "ValueError" "invalid api key")).
  - reflexivity.
  - discriminate.
  - reflexivity.
Defined.

(** X26.  A process that started without classification file and without
    key answers every request whose image decodes with the fallback
    verdict, whatever the method, the other models and the counters:
    Non-Recyclable, Unknown Item, confidence 0.50, bin colour Black. *)
Theorem bare_host_always_falls_back (host : Startup.Host)
    (decode : string -> result (option Image)) (encode : Image -> string)
    (qr : dict -> option string)
    (stats : Api.Stats) (request : Api.ClassificationRequest) (image : Image) :
  none_exists host Startup.classification_paths ->
  Startup.getenv host "GEMINI_API_KEY" = None ->
  decode (Api.payload (Api.image_base64 request)) = Ok (Some image) ->
  exists response,
    snd (Api.classify_waste (Startup.startup host decode encode qr) stats request)
    = Api.Returned response /\
    Api.classification response = "Non-Recyclable" /\
    Api.item_name response = "Unknown Item" /\
    Api.confidence response = float_lit 50 100 /\
    Api.bin_color response = "Black".
Proof.
  intros N K D.
  set (env := Startup.startup host decode encode qr).
  assert (Hc : yolo_classification_model env = None).
  { subst env. unfold Startup.startup. cbn [yolo_classification_model].
    unfold Startup.load_models.
    destruct (Startup.mkdir host "models"); [| reflexivity].
    destruct (bind _ _); [| reflexivity].
    rewrite (model_from_paths_none _ _ N). reflexivity. }
  assert (Hg : genai_client env = None).
  { subst env. unfold Startup.startup. cbn [genai_client].
    unfold Startup.configure_gemini. rewrite K. reflexivity. }
  unfold Api.classify_waste, Api.classify_waste_body.
  change (imdecode env) with decode. rewrite D.
  rewrite (classify_without_models env image _ Hc Hg).
  change (Api.field_str get_fallback_classification "classification")
    with (Ok (A := string) "Non-Recyclable").
  cbn [bind].
  match goal with
  | |- context [Api.count_up ?counts ?key] =>
      destruct (Api.count_up counts key) as [counts' | e] eqn:U
  end.
  - cbn. eexists. split; [reflexivity |]. repeat split.
  - rewrite (count_up_raises _ _ _ U). cbn.
    eexists. split; [reflexivity |]. repeat split.
Qed.

Lemma bare_host_always_falls_back_witness :
  exists response,
    snd (Api.classify_waste
           (Startup.startup (SampleHosts.downloading true)
              (fun _ => Ok (Some Samples.frame_hd)) (fun _ => "/9j/")
              (fun _ => None))
           Samples.fresh_stats Samples.request)
    = Api.Returned response /\
    Api.classification response = "Non-Recyclable" /\
    Api.item_name response = "Unknown Item" /\
    Api.confidence response = float_lit 50 100 /\
    Api.bin_color response = "Black".
Proof.
  apply (bare_host_always_falls_back (SampleHosts.downloading true)
           (fun _ => Ok (Some Samples.frame_hd)) (fun _ => "/9j/") (fun _ => None)
           Samples.fresh_stats Samples.request Samples.frame_hd).
  - repeat constructor.
  - reflexivity.
  - reflexivity.
Defined.

(* ===================================================================== *)
(** * Properties of the websocket clients                                 *)
(* ===================================================================== *)

Lemma list_remove_first (ws : Sockets.WebSocket) (pre post : list Sockets.WebSocket) :
  ~ In ws pre ->
  Sockets.list_remove ws (pre ++ ws :: post) = Ok (pre ++ post)%list.
Proof.
  induction pre as [| x pre IH]; simpl; intros H.
  - now rewrite Nat.eqb_refl.
  - destruct (Nat.eqb_spec x ws) as [-> | _]; [tauto |].
    rewrite IH by tauto. reflexivity.
Qed.

Lemma list_remove_absent (ws : Sockets.WebSocket) (connected : list Sockets.WebSocket) :
  ~ In ws connected ->
  Sockets.list_remove ws connected
  = Raise (PyException "ValueError" "list.remove(x): x not in list").
Proof.
  induction connected as [| x rest IH]; simpl; intros H; [reflexivity |].
  destruct (Nat.eqb_spec x ws) as [-> | _]; [tauto |].
  rewrite IH by tauto. reflexivity.
Qed.

Lemma notify_loop_quiet (send_json : Sockets.Network)
    (delivered : Sockets.WebSocket -> bool) (message : dict)
    (copy done : list Sockets.WebSocket) :
  quiet send_json delivered ->
  Sockets.notify_loop send_json message copy (filter delivered done ++ copy)
  = (filter delivered (done ++ copy), Ok tt).
Proof.
  intros Q. revert done. induction copy as [| ws rest IH]; intros done; simpl.
  - now rewrite !app_nil_r.
  - destruct (Q ws message (filter delivered done ++ ws :: rest)%list) as (Q1 & Q2).
    destruct (send_json ws message (filter delivered done ++ ws :: rest)%list)
      as [connected sent]. simpl in Q1, Q2. subst connected.
    replace (done ++ ws :: rest)%list with ((done ++ [ws]) ++ rest)%list
      by now rewrite <- app_assoc.
    destruct sent as [[] | e].
    + assert (D : delivered ws = true) by now apply Q2.
      rewrite <- IH. rewrite filter_app. simpl. rewrite D.
      now rewrite <- app_assoc.
    + assert (D : delivered ws = false).
      { destruct (delivered ws); [| reflexivity].
        assert (C : Raise e = Ok tt) by now apply Q2. discriminate C. }
      rewrite list_remove_first.
      * rewrite <- IH. rewrite filter_app. simpl. rewrite D.
        now rewrite app_nil_r.
      * intros I. apply filter_In in I. destruct I as (_ & I). congruence.
Qed.

Lemma notify_quiet (send_json : Sockets.Network)
    (delivered : Sockets.WebSocket -> bool) (message : dict)
    (connected : list Sockets.WebSocket) :
  quiet send_json delivered ->
  Sockets.notify_websocket_clients send_json message connected
  = (filter delivered connected, Ok tt).
Proof.
  intros Q. unfold Sockets.notify_websocket_clients.
  destruct connected as [| ws rest]; [reflexivity |].
  exact (notify_loop_quiet send_json delivered message (ws :: rest) [] Q).
Qed.

Lemma filter_filter (f : Sockets.WebSocket -> bool) (l : list Sockets.WebSocket) :
  filter f (filter f l) = filter f l.
Proof.
  induction l as [| x l IH]; simpl; [reflexivity |].
  destruct (f x) eqn:E; simpl; [rewrite E, IH |]; auto.
Qed.

(** X27.  While no handler changes the list, a notification keeps
    exactly the sockets that took the message, in their order, drops the
    others and does not raise; a second notification then drops none. *)
Theorem notify_keeps_the_reachable (send_json : Sockets.Network)
    (delivered : Sockets.WebSocket -> bool) (message message' : dict)
    (connected : list Sockets.WebSocket) :
  quiet send_json delivered ->
  let after := fst (Sockets.notify_websocket_clients send_json message connected) in
  Sockets.notify_websocket_clients send_json message connected
  = (filter delivered connected, Ok tt) /\
  (forall ws, In ws after <-> In ws connected /\ delivered ws = true) /\
  Sockets.notify_websocket_clients send_json message' after = (after, Ok tt).
Proof.
  intros Q after. subst after.
  rewrite (notify_quiet send_json delivered message connected Q). cbn [fst].
  split; [reflexivity |]. split.
  - intros ws. apply filter_In.
  - rewrite (notify_quiet send_json delivered message' _ Q).
    now rewrite filter_filter.
Qed.

Lemma notify_keeps_the_reachable_witness :
  let send_json : Sockets.Network :=
    fun ws _ connected =>
      (connected,
       if Nat.even ws then Ok tt else Raise (PyException "RuntimeError" "closed")) in
  let message := [ ("type", VStr "classification_complete") ] in
  let connected := [ 4; 1; 2; 3; 1; 6 ]%nat in
  let after := fst (Sockets.notify_websocket_clients send_json message connected) in
  Sockets.notify_websocket_clients send_json message connected
  = (filter Nat.even connected, Ok tt) /\
  (forall ws, In ws after <-> In ws connected /\ Nat.even ws = true) /\
  Sockets.notify_websocket_clients send_json message after = (after, Ok tt).
Proof.
  intros send_json message connected.
  apply (notify_keeps_the_reachable send_json Nat.even message message connected).
  intros ws m l. split; [reflexivity |].
  unfold send_json. simpl. destruct (Nat.even ws); split; auto; discriminate.
Defined.

(** X28.  A client that a notification dropped cannot disconnect: when
    the handler of a socket to which the message could not be sent ends
    with [WebSocketDisconnect] after the notification, the removal raises
    a [ValueError], and the list stays as the notification left it. *)
Theorem dropped_client_cannot_disconnect (send_json : Sockets.Network)
    (delivered : Sockets.WebSocket -> bool) (message : dict)
    (connected : list Sockets.WebSocket) (ws : Sockets.WebSocket)
    (reason : string) :
  quiet send_json delivered ->
  delivered ws = false ->
  let after := fst (Sockets.notify_websocket_clients send_json message connected) in
  Sockets.websocket_closed ws (PyException "WebSocketDisconnect" reason) after
  = (after, Raise (PyException "ValueError" "list.remove(x): x not in list")).
Proof.
  intros Q D after. subst after.
  rewrite (notify_quiet send_json delivered message connected Q).
  cbn [fst Sockets.websocket_closed].
  change (String.eqb "WebSocketDisconnect" "WebSocketDisconnect") with true.
  cbv iota.
  rewrite list_remove_absent; [reflexivity |].
  intros I. apply filter_In in I. destruct I as (_ & I). congruence.
Qed.

Lemma dropped_client_cannot_disconnect_witness :
  let send_json : Sockets.Network :=
    fun ws _ connected =>
      (connected,
       if Nat.even ws then Ok tt else Raise (PyException "RuntimeError" "closed")) in
  let after :=
    fst (Sockets.notify_websocket_clients send_json
           [ ("type", VStr "classification_complete") ] [ 4; 1; 2 ]%nat) in
  Sockets.websocket_closed 1%nat (PyException "WebSocketDisconnect" "1001") after
  = (after, Raise (PyException "ValueError" "list.remove(x): x not in list")).
Proof.
  intros send_json.
  apply (dropped_client_cannot_disconnect send_json Nat.even
           [ ("type", VStr "classification_complete") ] [ 4; 1; 2 ]%nat 1%nat "1001").
  - intros ws m l. split; [reflexivity |].
    unfold send_json. simpl. destruct (Nat.even ws); split; auto; discriminate.
  - reflexivity.
Defined.

(** X29.  A socket that was not in the list is in it once its handler
    has accepted it; when the handler ends with [WebSocketDisconnect] the
    list is as it was before, and when it ends with any other exception
    the socket stays in the list. *)
Theorem connect_then_disconnect (connected : list Sockets.WebSocket)
    (ws : Sockets.WebSocket) (reason : string) :
  ~ In ws connected ->
  let opened := fst (Sockets.websocket_opened (Ok tt) ws connected) in
  In ws opened /\
  Sockets.websocket_closed ws (PyException "WebSocketDisconnect" reason) opened
  = (connected, Ok tt) /\
  forall type_name msg,
    String.eqb type_name "WebSocketDisconnect" = false ->
    Sockets.websocket_closed ws (PyException type_name msg) opened
    = (opened, Raise (PyException type_name msg)).
Proof.
  intros N opened. subst opened. cbn [fst Sockets.websocket_opened].
  split; [apply in_or_app; right; left; reflexivity |]. split.
  - cbn [Sockets.websocket_closed].
    change (String.eqb "WebSocketDisconnect" "WebSocketDisconnect") with true.
    cbv iota. rewrite (list_remove_first ws connected [] N).
    now rewrite app_nil_r.
  - intros type_name msg E. cbn [Sockets.websocket_closed]. rewrite E. reflexivity.
Qed.

Lemma connect_then_disconnect_witness :
  let opened := fst (Sockets.websocket_opened (Ok tt) 7%nat [ 4; 2 ]%nat) in
  In 7%nat opened /\
  Sockets.websocket_closed 7%nat (PyException "WebSocketDisconnect" "1000") opened
  = ([ 4; 2 ]%nat, Ok tt) /\
  forall type_name msg,
    String.eqb type_name "WebSocketDisconnect" = false ->
    Sockets.websocket_closed 7%nat (PyException type_name msg) opened
    = (opened, Raise (PyException type_name msg)).
Proof.
  apply (connect_then_disconnect [ 4; 2 ]%nat 7%nat "1000").
  simpl. intros [H | [H | []]]; discriminate H.
Defined.
